(** * The auth service of the mobile client: token lifecycle and request layer

    A shallow embedding of [services/authService] (class [AuthService] and
    class [ApiError]) together with the interfaces of [types/auth] it uses.

    - The device store [AsyncStorage] is a finite map from string keys to
      string values; [getItem] answers [None] where JavaScript answers
      [null].  Its three operations always resolve.
    - [fetch] is an injected transport: a function from the request that is
      issued to the outcome of the exchange (a response, or a rejection
      such as the [AbortError] of the timeout controller or the
      [TypeError] of an unreachable host).
    - An [async] method is a computation over the world (the store and the
      log of requests issued so far) that completes by returning a value or
      by throwing; effects performed before a throw stay performed.
    - The screens that call the service (the entry screen, sign-in,
      sign-up, sign-out and profile) are computations over a screen: the
      React state of the component, the device, and the logs of
      [router.replace] and [Alert.alert]. Their form checks use [trim] and
      three regular expressions, run by a small backtracking matcher. *)

From Stdlib Require Import ZArith String Ascii Bool.
From stdpp Require Import gmap strings list fin_maps.

Local Open Scope string_scope.
Local Open Scope Z_scope.

(* ===================================================================== *)
(** ** Interfaces of [types/auth] *)
(* ===================================================================== *)

Module SignInRequest.
Record t := { email : string; password : string }.
End SignInRequest.

Module SignUpRequest.
Record t := { name : string; email : string; password : string }.
End SignUpRequest.

(** The two request shapes below are imported by the service from
    [types/auth]; their fields are the ones the profile screen fills in
    ([updateData.name], [{ currentPassword, newPassword }]). *)
Module UpdateProfileRequest.
Record t := { name : option string }.
End UpdateProfileRequest.

Module ChangePasswordRequest.
Record t := { currentPassword : string; newPassword : string }.
End ChangePasswordRequest.

Module User.
Record t := {
  id : string;
  name : string;
  email : string;
  role : string;
  isEmailVerified : bool;
  lastLogin : string;
  createdAt : string
}.
End User.

Module AuthTokens.
Record t := {
  accessToken : string;
  refreshToken : string;
  accessTokenExpiresIn : string;
  refreshTokenExpiresIn : string
}.
End AuthTokens.

Module AuthResponse.
Record t := { user : User.t; tokens : AuthTokens.t }.
End AuthResponse.

Module ValidationError.
Record t := {
  type : string;
  value : string;
  msg : string;
  path : string;
  location : string
}.
End ValidationError.

(** [status: 'success' | 'error'] is what the interface declares. At run
    time the field holds whatever text the server put in the body, and the
    service only ever compares it with ['error']; a body without the field
    behaves as one with any text other than ['error']. *)
Definition EnvelopeStatus := string.
Definition success : EnvelopeStatus := "success".
Definition error : EnvelopeStatus := "error".

Module ApiResponse.
Record t (T : Type) := {
  status : EnvelopeStatus;
  message : string;
  data : option T;                          (* data?: T *)
  errors : option (list ValidationError.t)  (* errors?: ValidationError[] *)
}.
Arguments status {T} _.
Arguments message {T} _.
Arguments data {T} _.
Arguments errors {T} _.
End ApiResponse.

(** The payload of the refresh endpoint, [{ accessToken: string }]. *)
Module RefreshPayload.
Record t := { accessToken : string }.
End RefreshPayload.

(* ===================================================================== *)
(** ** Thrown values *)
(* ===================================================================== *)

(** [class ApiError extends Error] with its three public fields. *)
Module ApiError.
Record t := {
  message : string;
  status : Z;
  errors : option (list ValidationError.t)
}.
End ApiError.

(** Any other thrown object, as far as [makeRequest] inspects it:
    [error.name], [error instanceof TypeError], [error.message]. *)
Module JsError.
Record t := {
  name : string;
  instanceof_TypeError : bool;
  message : string
}.
End JsError.

Inductive Thrown :=
| ThrownApiError (e : ApiError.t)   (* error instanceof ApiError *)
| ThrownError (e : JsError.t).

(* ===================================================================== *)
(** ** Requests and responses of the transport *)
(* ===================================================================== *)

(** A request body is the JSON text of one of the objects the service
    serialises; it is kept as the object [JSON.stringify] is applied to. *)
Inductive Body :=
| JSON_stringify_credentials (credentials : SignInRequest.t)
| JSON_stringify_userData (userData : SignUpRequest.t)
| JSON_stringify_refreshToken (refreshToken : string)   (* { refreshToken } *)
| JSON_stringify_profileData (profileData : UpdateProfileRequest.t)
| JSON_stringify_passwordData (passwordData : ChangePasswordRequest.t).

(** [controller.signal] of an [AbortController] whose [abort] is scheduled
    after the given number of milliseconds. *)
Inductive AbortSignal := controller_signal (timeout_ms : Z).

(** [RequestInit]: every key is optional; [None] is an absent key. *)
Module RequestInit.
Record t := {
  method : option string;
  headers : option (gmap string string);
  body : option Body;
  signal : option AbortSignal
}.
End RequestInit.

Record Request := { url : string; init : RequestInit.t }.

Module Response.
(** [json] is [None] when [response.json()] rejects (the body is not
    JSON). *)
Record t (T : Type) := {
  status : Z;
  json : option (ApiResponse.t T)
}.
Arguments status {T} _.
Arguments json {T} _.
(** [response.ok]: the status is in the range 200-299. *)
Definition ok {T} (r : t T) : bool := (200 <=? status r) && (status r <=? 299).
End Response.

Inductive FetchOutcome (T : Type) :=
| Resolved (response : Response.t T)
| Rejected (e : JsError.t).
Arguments Resolved {T} _.
Arguments Rejected {T} _.

(* ===================================================================== *)
(** ** Asynchronous computations *)
(* ===================================================================== *)

Record World := {
  storage : gmap string string;   (* the AsyncStorage entries *)
  sent : list Request             (* requests handed to fetch, oldest first *)
}.

Inductive Completion (A : Type) :=
| Return (a : A)
| Throw (e : Thrown).
Arguments Return {A} _.
Arguments Throw {A} _.

Definition Async (A : Type) : Type := World -> Completion A * World.

Definition ret {A} (a : A) : Async A := fun w => (Return a, w).

Definition throw {A} (e : Thrown) : Async A := fun w => (Throw e, w).

Definition bind {A B} (m : Async A) (k : A -> Async B) : Async B :=
  fun w =>
    match m w with
    | (Return a, w') => k a w'
    | (Throw e, w') => (Throw e, w')
    end.

Notation "'let*' x ':=' m 'in' k" := (bind m (fun x => k))
  (at level 10, x name, m at level 100, k at level 200).
Notation "m ';;' k" := (bind m (fun _ => k))
  (at level 100, k at level 200, right associativity).

(** [try { body } catch (error) { handler }] *)
Definition try_catch {A} (body : Async A) (handler : Thrown -> Async A) : Async A :=
  fun w =>
    match body w with
    | (Return a, w') => (Return a, w')
    | (Throw e, w') => handler e w'
    end.

(** [try { body } finally { finalizer }]: the finalizer runs whatever the
    completion of the body; when it throws, its exception replaces the
    completion of the body. *)
Definition try_finally {A} (body : Async A) (finalizer : Async unit) : Async A :=
  fun w =>
    let '(c, w') := body w in
    match finalizer w' with
    | (Return _, w'') => (c, w'')
    | (Throw e, w'') => (Throw e, w'')
    end.

(* ===================================================================== *)
(** ** JavaScript helpers *)
(* ===================================================================== *)

(** Narrowing of a [string | null] by a truthiness test: [null] and the
    empty string are falsy. *)
Definition truthy (v : option string) : option string :=
  match v with
  | Some s => if String.eqb s "" then None else Some s
  | None => None
  end.

(** [!!v] *)
Definition ToBoolean (v : option string) : bool :=
  match truthy v with Some _ => true | None => false end.

(** [s || d] on strings. *)
Definition or_else (s d : string) : string :=
  if String.eqb s "" then d else s.

(** [s.includes(needle)] *)
Fixpoint includes (needle s : string) : bool :=
  String.prefix needle s ||
  match s with
  | EmptyString => false
  | String _ s' => includes needle s'
  end.

(** Object spread of an optional header object into a header literal:
    [{ ...base, ...h }], the keys of [h] win. *)
Definition spread_headers (base : gmap string string)
    (h : option (gmap string string)) : gmap string string :=
  match h with
  | Some h => h ∪ base
  | None => base
  end.

Definition override {A} (base over : option A) : option A :=
  match over with
  | Some a => Some a
  | None => base
  end.

(** [{ ...base, ...options }] on [RequestInit] objects: every key present
    in [options] replaces the one of [base]. *)
Definition spread_init (base options : RequestInit.t) : RequestInit.t :=
  {| RequestInit.method := override (RequestInit.method base) (RequestInit.method options);
     RequestInit.headers := override (RequestInit.headers base) (RequestInit.headers options);
     RequestInit.body := override (RequestInit.body base) (RequestInit.body options);
     RequestInit.signal := override (RequestInit.signal base) (RequestInit.signal options) |}.

(* ===================================================================== *)
(** ** The device store *)
(* ===================================================================== *)

Module AsyncStorage.
Definition getItem (key : string) : Async (option string) :=
  fun w => (Return (storage w !! key), w).

Definition setItem (key value : string) : Async unit :=
  fun w => (Return tt, {| storage := <[key := value]> (storage w); sent := sent w |}).

Definition removeItem (key : string) : Async unit :=
  fun w => (Return tt, {| storage := delete key (storage w); sent := sent w |}).
End AsyncStorage.

(** [await fetch(url, init)]: the request is logged and the transport
    decides the outcome. *)
Definition await_fetch {T} (fetch : Request -> FetchOutcome T) (request : Request)
  : Async (Response.t T) :=
  fun w =>
    let w' := {| storage := storage w; sent := sent w ++ [request] |} in
    match fetch request with
    | Resolved response => (Return response, w')
    | Rejected e => (Throw (ThrownError e), w')
    end.

(** [await response.json()] *)
Definition response_json {T} (response : Response.t T) : Async (ApiResponse.t T) :=
  match Response.json response with
  | Some data => ret data
  | None =>
      throw (ThrownError {| JsError.name := "SyntaxError";
                            JsError.instanceof_TypeError := false;
                            JsError.message := "JSON Parse error" |})
  end.

(** Reading a property of [undefined]. *)
Definition undefined_property (property : string) : Thrown :=
  ThrownError {| JsError.name := "TypeError";
                 JsError.instanceof_TypeError := true;
                 JsError.message := "Cannot read property '" ++ property ++ "' of undefined" |}.

(* ===================================================================== *)
(** ** class AuthService *)
(* ===================================================================== *)

Module AuthService.
Section Service.

(** [process.env.EXPO_PUBLIC_API_BASE_URL] and
    [Number(process.env.EXPO_PUBLIC_API_TIMEOUT) || 10000]. *)
Variable API_BASE_URL : string.
Variable API_TIMEOUT : Z.

Definition makeRequest {T} (fetch : Request -> FetchOutcome T)
    (endpoint : string) (options : RequestInit.t) : Async (option T) :=
  try_catch
    (let* response :=
       await_fetch fetch
         {| url := API_BASE_URL ++ endpoint;
            init :=
              spread_init
                {| RequestInit.method := None;
                   RequestInit.headers :=
                     Some (spread_headers {[ "Content-Type" := "application/json" ]}
                             (RequestInit.headers options));
                   RequestInit.body := None;
                   RequestInit.signal := Some (controller_signal API_TIMEOUT) |}
                options |} in
     let* data := response_json response in
     if negb (Response.ok response) then
       throw (ThrownApiError
                {| ApiError.message := or_else (ApiResponse.message data) "An error occurred";
                   ApiError.status := Response.status response;
                   ApiError.errors := ApiResponse.errors data |})
     else if String.eqb (ApiResponse.status data) "error" then
       throw (ThrownApiError
                {| ApiError.message := ApiResponse.message data;
                   ApiError.status := Response.status response;
                   ApiError.errors := ApiResponse.errors data |})
     else ret (ApiResponse.data data))
    (fun err =>
       match err with
       | ThrownApiError _ => throw err
       | ThrownError e =>
           if String.eqb (JsError.name e) "AbortError" then
             throw (ThrownApiError
                      {| ApiError.message := "Request timeout";
                         ApiError.status := 408;
                         ApiError.errors := None |})
           else if JsError.instanceof_TypeError e
                   && includes "Failed to fetch" (JsError.message e) then
             throw (ThrownApiError
                      {| ApiError.message := "Network error. Please check your connection.";
                         ApiError.status := 0;
                         ApiError.errors := None |})
           else
             throw (ThrownApiError
                      {| ApiError.message := "An unexpected error occurred";
                         ApiError.status := 500;
                         ApiError.errors := None |})
       end).

(** [Promise.all] of the two writes: both are started, access token
    first, and both have completed when it resolves. *)
Definition storeTokens (tokens : AuthTokens.t) : Async unit :=
  AsyncStorage.setItem "accessToken" (AuthTokens.accessToken tokens);;
  AsyncStorage.setItem "refreshToken" (AuthTokens.refreshToken tokens).

Definition clearTokens : Async unit :=
  AsyncStorage.removeItem "accessToken";;
  AsyncStorage.removeItem "refreshToken".

Definition getAuthHeaders : Async (gmap string string) :=
  let* accessToken := AsyncStorage.getItem "accessToken" in
  match truthy accessToken with
  | None =>
      throw (ThrownApiError
               {| ApiError.message := "No access token found";
                  ApiError.status := 401;
                  ApiError.errors := None |})
  | Some accessToken =>
      ret ({[ "Authorization" := "Bearer " ++ accessToken ]} : gmap string string)
  end.

Definition signIn (fetch : Request -> FetchOutcome AuthResponse.t)
    (credentials : SignInRequest.t) : Async AuthResponse.t :=
  let* response :=
    makeRequest fetch "/auth/signin"
      {| RequestInit.method := Some "POST";
         RequestInit.headers := None;
         RequestInit.body := Some (JSON_stringify_credentials credentials);
         RequestInit.signal := None |} in
  match response with
  | None => throw (undefined_property "tokens")
  | Some response =>
      storeTokens (AuthResponse.tokens response);;
      ret response
  end.

Definition signUp (fetch : Request -> FetchOutcome AuthResponse.t)
    (userData : SignUpRequest.t) : Async AuthResponse.t :=
  let* response :=
    makeRequest fetch "/auth/signup"
      {| RequestInit.method := Some "POST";
         RequestInit.headers := None;
         RequestInit.body := Some (JSON_stringify_userData userData);
         RequestInit.signal := None |} in
  match response with
  | None => throw (undefined_property "tokens")
  | Some response =>
      storeTokens (AuthResponse.tokens response);;
      ret response
  end.

(** The [catch] block only logs ([console.warn]). *)
Definition signOut {T} (fetch : Request -> FetchOutcome T) : Async unit :=
  try_finally
    (try_catch
       (let* refreshToken := AsyncStorage.getItem "refreshToken" in
        match truthy refreshToken with
        | Some refreshToken =>
            let* authHeaders := getAuthHeaders in
            makeRequest fetch "/auth/signout"
              {| RequestInit.method := Some "POST";
                 RequestInit.headers := Some authHeaders;
                 RequestInit.body := Some (JSON_stringify_refreshToken refreshToken);
                 RequestInit.signal := None |};;
            ret tt
        | None => ret tt
        end)
       (fun _ => ret tt))
    clearTokens.

(** The result is [None] where the method returns [null]. *)
Definition refreshToken (fetch : Request -> FetchOutcome RefreshPayload.t)
  : Async (option string) :=
  try_catch
    (let* refreshToken := AsyncStorage.getItem "refreshToken" in
     match truthy refreshToken with
     | None => ret None
     | Some refreshToken =>
         let* response :=
           makeRequest fetch "/auth/refresh-token"
             {| RequestInit.method := Some "POST";
                RequestInit.headers := None;
                RequestInit.body := Some (JSON_stringify_refreshToken refreshToken);
                RequestInit.signal := None |} in
         match response with
         | None => throw (undefined_property "accessToken")
         | Some response =>
             AsyncStorage.setItem "accessToken" (RefreshPayload.accessToken response);;
             ret (Some (RefreshPayload.accessToken response))
         end
     end)
    (fun _ =>
       clearTokens;;
       ret None).

Definition getCurrentUser {T} (fetch : Request -> FetchOutcome T) : Async (option T) :=
  let* authHeaders := getAuthHeaders in
  makeRequest fetch "/auth/me"
    {| RequestInit.method := Some "GET";
       RequestInit.headers := Some authHeaders;
       RequestInit.body := None;
       RequestInit.signal := None |}.

Definition updateProfile {T} (fetch : Request -> FetchOutcome T)
    (profileData : UpdateProfileRequest.t) : Async (option T) :=
  let* authHeaders := getAuthHeaders in
  let requestOptions :=
    {| RequestInit.method := Some "PUT";
       RequestInit.headers :=
         Some (spread_headers {[ "Content-Type" := "application/json" ]} (Some authHeaders));
       RequestInit.body := Some (JSON_stringify_profileData profileData);
       RequestInit.signal := None |} in
  makeRequest fetch "/auth/profile" requestOptions.

Definition changePassword {T} (fetch : Request -> FetchOutcome T)
    (passwordData : ChangePasswordRequest.t) : Async (option T) :=
  let* authHeaders := getAuthHeaders in
  let requestOptions :=
    {| RequestInit.method := Some "PUT";
       RequestInit.headers :=
         Some (spread_headers {[ "Content-Type" := "application/json" ]} (Some authHeaders));
       RequestInit.body := Some (JSON_stringify_passwordData passwordData);
       RequestInit.signal := None |} in
  makeRequest fetch "/auth/change-password" requestOptions.

Definition isAuthenticated : Async bool :=
  let* accessToken := AsyncStorage.getItem "accessToken" in
  let* refreshToken := AsyncStorage.getItem "refreshToken" in
  ret (ToBoolean accessToken && ToBoolean refreshToken).

End Service.
End AuthService.

(* ===================================================================== *)
(** ** Screens *)
(* ===================================================================== *)

(** A button of an alert: its label and, when its [onPress] is
    [() => router.replace(route)], the route. *)
Module AlertButton.
Record t := { text : string; onPress_replace : option string }.
End AlertButton.

(** [Alert.alert(title, message, buttons)] *)
Module Alert.
Record t := { title : string; message : string; buttons : list AlertButton.t }.
End Alert.

(** What a screen acts on: its React state, the device (store and
    transport log), the routes given to [router.replace] and the alerts
    raised, oldest first. *)
Record Screen (S : Type) := {
  state : S;
  device : World;
  replaced : list string;
  alerts : list Alert.t
}.
Arguments state {S} _.
Arguments device {S} _.
Arguments replaced {S} _.
Arguments alerts {S} _.

Definition UI (S A : Type) : Type := Screen S -> Completion A * Screen S.

Module UI.

Definition ret {S A} (a : A) : UI S A := fun scr => (Return a, scr).

Definition bind {S A B} (m : UI S A) (k : A -> UI S B) : UI S B :=
  fun scr =>
    match m scr with
    | (Return a, scr') => k a scr'
    | (Throw e, scr') => (Throw e, scr')
    end.

Definition throw {S A} (e : Thrown) : UI S A := fun scr => (Throw e, scr).

(** [try { body } catch (error) { handler }] *)
Definition try_catch {S A} (body : UI S A) (handler : Thrown -> UI S A) : UI S A :=
  fun scr =>
    match body scr with
    | (Return a, scr') => (Return a, scr')
    | (Throw e, scr') => handler e scr'
    end.

(** [try { body } finally { finalizer }] *)
Definition try_finally {S A} (body : UI S A) (finalizer : UI S unit) : UI S A :=
  fun scr =>
    let '(c, scr') := body scr in
    match finalizer scr' with
    | (Return _, scr'') => (c, scr'')
    | (Throw e, scr'') => (Throw e, scr'')
    end.

(** [await] of a call into the service. *)
Definition await {S A} (m : Async A) : UI S A :=
  fun scr =>
    let '(c, w) := m (device scr) in
    (c, {| state := state scr; device := w;
           replaced := replaced scr; alerts := alerts scr |}).

(** A state setter of [useState], given the update of the state. *)
Definition setState {S} (update : S -> S) : UI S unit :=
  fun scr =>
    (Return tt, {| state := update (state scr); device := device scr;
                   replaced := replaced scr; alerts := alerts scr |}).

(** [router.replace(route)] *)
Definition router_replace {S} (route : string) : UI S unit :=
  fun scr =>
    (Return tt, {| state := state scr; device := device scr;
                   replaced := (replaced scr ++ [route])%list;
                   alerts := alerts scr |}).

(** [Alert.alert(title, message, buttons)] *)
Definition Alert_alert {S} (title message : string) (buttons : list AlertButton.t)
  : UI S unit :=
  fun scr =>
    (Return tt, {| state := state scr; device := device scr;
                   replaced := replaced scr;
                   alerts := (alerts scr ++
                              [{| Alert.title := title; Alert.message := message;
                                  Alert.buttons := buttons |}])%list |}).

End UI.

Notation "'let+' x ':=' m 'in' k" := (UI.bind m (fun x => k))
  (at level 10, x name, m at level 100, k at level 200).
Notation "m ';+' k" := (UI.bind m (fun _ => k))
  (at level 100, k at level 200, right associativity).

(* ===================================================================== *)
(** ** The entry screen, [app/index] *)
(* ===================================================================== *)

Module Index.
Section Index.
Variable API_BASE_URL : string.
Variable API_TIMEOUT : Z.

(** The state is [isCheckingAuth]. The [catch] blocks only log before
    they go on. *)
Definition checkAuthenticationStatus {T}
    (fetch : Request -> FetchOutcome T)
    (fetch_refresh : Request -> FetchOutcome RefreshPayload.t) : UI bool unit :=
  UI.try_finally
    (UI.try_catch
       (let+ isAuthenticated := UI.await AuthService.isAuthenticated in
        if (isAuthenticated : bool) then
          UI.try_catch
            (UI.await (AuthService.getCurrentUser API_BASE_URL API_TIMEOUT fetch);+
             UI.router_replace "/(tabs)")
            (fun _ =>
               let+ newToken :=
                 UI.await (AuthService.refreshToken API_BASE_URL API_TIMEOUT fetch_refresh) in
               if ToBoolean newToken then UI.router_replace "/(tabs)"
               else UI.router_replace "/(auth)/signin")
        else UI.router_replace "/(auth)/signin")
       (fun _ => UI.router_replace "/(auth)/signin"))
    (UI.setState (fun _ => false)).

End Index.
End Index.

(* ===================================================================== *)
(** ** The sign-out screen, [app/(tabs)/signout] *)
(* ===================================================================== *)

Module SignOutScreen.

Record State := { isSigningOut : bool; hasInitiatedSignOut : bool }.

Section SignOutScreen.
Variable API_BASE_URL : string.
Variable API_TIMEOUT : Z.

Definition setIsSigningOut (b : bool) : UI State unit :=
  UI.setState (fun st => {| isSigningOut := b;
                            hasInitiatedSignOut := hasInitiatedSignOut st |}).

Definition setHasInitiatedSignOut (b : bool) : UI State unit :=
  UI.setState (fun st => {| isSigningOut := isSigningOut st;
                            hasInitiatedSignOut := b |}).

Definition handleSignOut {T} (fetch : Request -> FetchOutcome T) : UI State unit :=
  setIsSigningOut true;+
  setHasInitiatedSignOut true;+
  UI.try_finally
    (UI.try_catch
       (UI.await (AuthService.signOut API_BASE_URL API_TIMEOUT fetch);+
        UI.router_replace "/(auth)/signin")
       (fun err =>
          let errorMessage :=
            match err with
            | ThrownApiError e =>
                if ApiError.status e =? 0
                then "Network error. You have been signed out locally."
                else or_else (ApiError.message e) "An error occurred while signing out."
            | ThrownError _ => "An error occurred while signing out."
            end in
          UI.Alert_alert "Sign Out" errorMessage
            [ {| AlertButton.text := "OK";
                 AlertButton.onPress_replace := Some "/(auth)/signin" |} ]))
    (setIsSigningOut false).

End SignOutScreen.
End SignOutScreen.

(* ===================================================================== *)
(** ** Strings and regular expressions of the forms *)
(* ===================================================================== *)

(** A [string] is read as a sequence of code units below 256. Among
    those, the white space and line terminators of JavaScript are tab, line
    feed, vertical tab, form feed, carriage return, space and no-break
    space; [trim] and the class [\s] use the same set. *)
Definition code (c : ascii) : nat := Ascii.nat_of_ascii c.

Definition is_space (c : ascii) : bool :=
  (Nat.leb 9 (code c) && Nat.leb (code c) 13)
  || Nat.eqb (code c) 32 || Nat.eqb (code c) 160.

(** [.] matches any code unit but a line terminator. *)
Definition is_line_terminator (c : ascii) : bool :=
  Nat.eqb (code c) 10 || Nat.eqb (code c) 13.

Definition between (lo hi : nat) (c : ascii) : bool :=
  Nat.leb lo (code c) && Nat.leb (code c) hi.

Fixpoint trimStart (s : string) : string :=
  match s with
  | String c s' => if is_space c then trimStart s' else s
  | EmptyString => EmptyString
  end.

Fixpoint trimEnd (s : string) : string :=
  match s with
  | String c s' =>
      match trimEnd s' with
      | EmptyString => if is_space c then EmptyString else String c EmptyString
      | t => String c t
      end
  | EmptyString => EmptyString
  end.

(** [s.trim()] *)
Definition trim (s : string) : string := trimEnd (trimStart s).

(** The regular expressions of the forms use one-unit classes, sequence,
    [+], [*], the lookahead [(?=r)] and the anchor [^]. *)
Inductive RegExp :=
| Class (class : ascii -> bool)
| Cat (r1 r2 : RegExp)
| Plus (r : RegExp)
| Star (r : RegExp)
| Lookahead (r : RegExp)
| StartOfInput.

(** A matcher state is the index reached and the rest of the input. *)
Definition MatchState : Type := nat * string.

(** All states reachable by repeating [step], at most [fuel] times. *)
Fixpoint repeat_step (step : MatchState -> list MatchState) (fuel : nat)
    (st : MatchState) : list MatchState :=
  st ::
  match fuel with
  | O => []
  | S fuel' => flat_map (repeat_step step fuel') (step st)
  end.

(** All states in which a match of [r] that starts in [st] can end (every
    way the backtracking matcher can take). *)
Fixpoint run (r : RegExp) (st : MatchState) : list MatchState :=
  match r with
  | Class class =>
      match snd st with
      | String c rest => if class c then [(S (fst st), rest)] else []
      | EmptyString => []
      end
  | Cat r1 r2 => flat_map (run r2) (run r1 st)
  | Plus r =>
      flat_map (fun st' => repeat_step (run r) (String.length (snd st')) st') (run r st)
  | Star r => repeat_step (run r) (String.length (snd st)) st
  | Lookahead r =>
      match run r st with
      | [] => []
      | _ :: _ => [st]
      end
  | StartOfInput =>
      match fst st with
      | O => [st]
      | S _ => []
      end
  end.

(** Every index of the input, with the rest of the input from there. *)
Fixpoint starts (index : nat) (s : string) : list MatchState :=
  (index, s) ::
  match s with
  | String _ rest => starts (S index) rest
  | EmptyString => []
  end.

(** [r.test(s)]: a match starts at some index. *)
Definition RegExp_test (r : RegExp) (s : string) : bool :=
  existsb (fun st => match run r st with [] => false | _ :: _ => true end)
    (starts 0 s).

Definition non_space : RegExp := Class (fun c => negb (is_space c)).
Definition literal (a : ascii) : RegExp := Class (Ascii.eqb a).
Definition dot : RegExp := Class (fun c => negb (is_line_terminator c)).

(** [/\S+@\S+\.\S+/] *)
Definition email_pattern : RegExp :=
  Cat (Plus non_space)
    (Cat (literal "@"%char)
       (Cat (Plus non_space)
          (Cat (literal "."%char) (Plus non_space)))).

(** [/(?=.*[a-z])(?=.*[A-Z])(?=.*\d)/] *)
Definition strength_pattern : RegExp :=
  Cat (Lookahead (Cat (Star dot) (Class (between 97 122))))
    (Cat (Lookahead (Cat (Star dot) (Class (between 65 90))))
       (Lookahead (Cat (Star dot) (Class (between 48 57))))).

(** [/^(?=.*[a-z])(?=.*[A-Z])(?=.*\d)/] *)
Definition anchored_strength_pattern : RegExp := Cat StartOfInput strength_pattern.

(* ===================================================================== *)
(** ** The sign-in screen, [app/(auth)/signin] *)
(* ===================================================================== *)

Module SignInScreen.

Module FormData.
Record t := { email : string; password : string }.
End FormData.

Module FormErrors.
Record t := {
  email : option string;
  password : option string;
  general : option string
}.
(** [{}] *)
Definition empty : t := {| email := None; password := None; general := None |}.
Definition set_email (v : string) (e : t) : t :=
  {| email := Some v; password := password e; general := general e |}.
Definition set_password (v : string) (e : t) : t :=
  {| email := email e; password := Some v; general := general e |}.
(** [{ general: v }] *)
Definition only_general (v : string) : t :=
  {| email := None; password := None; general := Some v |}.
(** [Object.keys(e).length === 0] *)
Definition no_keys (e : t) : bool :=
  match email e, password e, general e with
  | None, None, None => true
  | _, _, _ => false
  end.
End FormErrors.

Record State := {
  formData : FormData.t;
  errors : FormErrors.t;
  loading : bool;
  showPassword : bool
}.

Definition setErrors (e : FormErrors.t) : UI State unit :=
  UI.setState (fun st => {| formData := formData st; errors := e;
                            loading := loading st; showPassword := showPassword st |}).

Definition setLoading (b : bool) : UI State unit :=
  UI.setState (fun st => {| formData := formData st; errors := errors st;
                            loading := b; showPassword := showPassword st |}).

(** The handlers close over the [formData] of the render; it is their
    argument here. *)
Definition validateForm (formData : FormData.t) : UI State bool :=
  let newErrors := FormErrors.empty in
  let newErrors :=
    if String.eqb (trim (FormData.email formData)) "" then
      FormErrors.set_email "Email is required" newErrors
    else if negb (RegExp_test email_pattern (FormData.email formData)) then
      FormErrors.set_email "Please provide a valid email" newErrors
    else newErrors in
  let newErrors :=
    if String.eqb (FormData.password formData) "" then
      FormErrors.set_password "Password is required" newErrors
    else newErrors in
  setErrors newErrors;+
  UI.ret (FormErrors.no_keys newErrors).

Section SignInScreen.
Variable API_BASE_URL : string.
Variable API_TIMEOUT : Z.

(** The [catch] block logs, then maps the error to the form. *)
Definition handleSignIn (fetch : Request -> FetchOutcome AuthResponse.t)
    (formData : FormData.t) : UI State unit :=
  let+ valid := validateForm formData in
  if negb valid then UI.ret tt
  else
    setLoading true;+
    setErrors FormErrors.empty;+
    UI.try_finally
      (UI.try_catch
         (let credentials :=
            {| SignInRequest.email := trim (FormData.email formData);
               SignInRequest.password := FormData.password formData |} in
          let+ response :=
            UI.await (AuthService.signIn API_BASE_URL API_TIMEOUT fetch credentials) in
          UI.Alert_alert "Welcome Back!"
            ("Hello " ++ User.name (AuthResponse.user response)
               ++ ", you've signed in successfully!")
            [ {| AlertButton.text := "Continue";
                 AlertButton.onPress_replace := Some "/(tabs)" |} ])
         (fun err =>
            match err with
            | ThrownApiError e =>
                match ApiError.errors e with
                | Some errs =>
                    setErrors
                      (fold_left
                         (fun newErrors err =>
                            if String.eqb (ValidationError.path err) "email" then
                              FormErrors.set_email (ValidationError.msg err) newErrors
                            else if String.eqb (ValidationError.path err) "password" then
                              FormErrors.set_password (ValidationError.msg err) newErrors
                            else newErrors)
                         errs FormErrors.empty)
                | None =>
                    if ApiError.status e =? 401 then
                      setErrors (FormErrors.only_general "Invalid email or password")
                    else if ApiError.status e =? 0 then
                      setErrors (FormErrors.only_general
                                   "Network error. Please check your connection and try again.")
                    else if ApiError.status e =? 408 then
                      setErrors (FormErrors.only_general "Request timeout. Please try again.")
                    else
                      setErrors (FormErrors.only_general
                                   (or_else (ApiError.message e)
                                      "Sign in failed. Please try again."))
                end
            | ThrownError _ =>
                setErrors (FormErrors.only_general
                             "An unexpected error occurred. Please try again.")
            end))
      (setLoading false).

End SignInScreen.
End SignInScreen.

(* ===================================================================== *)
(** ** The sign-up screen, [app/(auth)/signup] *)
(* ===================================================================== *)

Module SignUpScreen.

Module FormData.
Record t := {
  fullName : string;
  email : string;
  password : string;
  confirmPassword : string
}.
End FormData.

Module FormErrors.
Record t := {
  fullName : option string;
  email : option string;
  password : option string;
  confirmPassword : option string;
  general : option string
}.
(** [{}] *)
Definition empty : t :=
  {| fullName := None; email := None; password := None;
     confirmPassword := None; general := None |}.
Definition set_fullName (v : string) (e : t) : t :=
  {| fullName := Some v; email := email e; password := password e;
     confirmPassword := confirmPassword e; general := general e |}.
Definition set_email (v : string) (e : t) : t :=
  {| fullName := fullName e; email := Some v; password := password e;
     confirmPassword := confirmPassword e; general := general e |}.
Definition set_password (v : string) (e : t) : t :=
  {| fullName := fullName e; email := email e; password := Some v;
     confirmPassword := confirmPassword e; general := general e |}.
Definition set_confirmPassword (v : string) (e : t) : t :=
  {| fullName := fullName e; email := email e; password := password e;
     confirmPassword := Some v; general := general e |}.
(** [{ general: v }] and [{ email: v }] *)
Definition only_general (v : string) : t :=
  {| fullName := None; email := None; password := None;
     confirmPassword := None; general := Some v |}.
Definition only_email (v : string) : t :=
  {| fullName := None; email := Some v; password := None;
     confirmPassword := None; general := None |}.
(** [Object.keys(e).length === 0] *)
Definition no_keys (e : t) : bool :=
  match fullName e, email e, password e, confirmPassword e, general e with
  | None, None, None, None, None => true
  | _, _, _, _, _ => false
  end.
End FormErrors.

Record State := {
  formData : FormData.t;
  errors : FormErrors.t;
  loading : bool;
  showPassword : bool;
  showConfirmPassword : bool
}.

Definition setErrors (e : FormErrors.t) : UI State unit :=
  UI.setState (fun st => {| formData := formData st; errors := e;
                            loading := loading st; showPassword := showPassword st;
                            showConfirmPassword := showConfirmPassword st |}).

Definition setLoading (b : bool) : UI State unit :=
  UI.setState (fun st => {| formData := formData st; errors := errors st;
                            loading := b; showPassword := showPassword st;
                            showConfirmPassword := showConfirmPassword st |}).

Definition validateForm (formData : FormData.t) : UI State bool :=
  let newErrors := FormErrors.empty in
  let newErrors :=
    if String.eqb (trim (FormData.fullName formData)) "" then
      FormErrors.set_fullName "Name is required" newErrors
    else if Nat.ltb (String.length (trim (FormData.fullName formData))) 2 then
      FormErrors.set_fullName "Name must be at least 2 characters" newErrors
    else if Nat.ltb 50 (String.length (trim (FormData.fullName formData))) then
      FormErrors.set_fullName "Name must be no more than 50 characters" newErrors
    else newErrors in
  let newErrors :=
    if String.eqb (trim (FormData.email formData)) "" then
      FormErrors.set_email "Email is required" newErrors
    else if negb (RegExp_test email_pattern (FormData.email formData)) then
      FormErrors.set_email "Please provide a valid email" newErrors
    else newErrors in
  let newErrors :=
    if String.eqb (FormData.password formData) "" then
      FormErrors.set_password "Password is required" newErrors
    else if Nat.ltb (String.length (FormData.password formData)) 6 then
      FormErrors.set_password "Password must be at least 6 characters long" newErrors
    else if negb (RegExp_test strength_pattern (FormData.password formData)) then
      FormErrors.set_password
        "Password must contain at least one uppercase letter, one lowercase letter, and one number"
        newErrors
    else newErrors in
  let newErrors :=
    if String.eqb (FormData.confirmPassword formData) "" then
      FormErrors.set_confirmPassword "Please confirm your password" newErrors
    else if negb (String.eqb (FormData.password formData)
                    (FormData.confirmPassword formData)) then
      FormErrors.set_confirmPassword "Passwords do not match" newErrors
    else newErrors in
  setErrors newErrors;+
  UI.ret (FormErrors.no_keys newErrors).

Section SignUpScreen.
Variable API_BASE_URL : string.
Variable API_TIMEOUT : Z.

Definition handleSignUp (fetch : Request -> FetchOutcome AuthResponse.t)
    (formData : FormData.t) : UI State unit :=
  let+ valid := validateForm formData in
  if negb valid then UI.ret tt
  else
    setLoading true;+
    setErrors FormErrors.empty;+
    UI.try_finally
      (UI.try_catch
         (let userData :=
            {| SignUpRequest.name := trim (FormData.fullName formData);
               SignUpRequest.email := trim (FormData.email formData);
               SignUpRequest.password := FormData.password formData |} in
          let+ response :=
            UI.await (AuthService.signUp API_BASE_URL API_TIMEOUT fetch userData) in
          UI.Alert_alert "Welcome!"
            ("Hello " ++ User.name (AuthResponse.user response)
               ++ "! Your account has been created successfully.")
            [ {| AlertButton.text := "Continue";
                 AlertButton.onPress_replace := Some "/(tabs)" |} ])
         (fun err =>
            match err with
            | ThrownApiError e =>
                match ApiError.errors e with
                | Some errs =>
                    setErrors
                      (fold_left
                         (fun newErrors err =>
                            if String.eqb (ValidationError.path err) "name" then
                              FormErrors.set_fullName (ValidationError.msg err) newErrors
                            else if String.eqb (ValidationError.path err) "email" then
                              FormErrors.set_email (ValidationError.msg err) newErrors
                            else if String.eqb (ValidationError.path err) "password" then
                              FormErrors.set_password (ValidationError.msg err) newErrors
                            else newErrors)
                         errs FormErrors.empty)
                | None =>
                    if (ApiError.status e =? 400)
                       && includes "already exists" (ApiError.message e) then
                      setErrors (FormErrors.only_email
                                   "An account with this email already exists")
                    else if ApiError.status e =? 0 then
                      setErrors (FormErrors.only_general
                                   "Network error. Please check your connection and try again.")
                    else if ApiError.status e =? 408 then
                      setErrors (FormErrors.only_general "Request timeout. Please try again.")
                    else
                      setErrors (FormErrors.only_general
                                   (or_else (ApiError.message e)
                                      "Sign up failed. Please try again."))
                end
            | ThrownError _ =>
                setErrors (FormErrors.only_general
                             "An unexpected error occurred. Please try again.")
            end))
      (setLoading false).

End SignUpScreen.
End SignUpScreen.

(* ===================================================================== *)
(** ** The profile screen, [app/(tabs)/profile] *)
(* ===================================================================== *)

Module ProfileScreen.

Module ProfileData.
Record t := { name : string }.
End ProfileData.

Module PasswordData.
Record t := {
  currentPassword : string;
  newPassword : string;
  confirmPassword : string
}.
(** The form after a reset. *)
Definition blank : t :=
  {| currentPassword := ""; newPassword := ""; confirmPassword := "" |}.
End PasswordData.

(** The two error states are [Record<string, string>]. *)
Record State := {
  user : option User.t;
  loading : bool;
  updating : bool;
  isEditingProfile : bool;
  isChangingPassword : bool;
  profileData : ProfileData.t;
  passwordData : PasswordData.t;
  profileErrors : gmap string string;
  passwordErrors : gmap string string
}.

Definition setUser (v : option User.t) : UI State unit :=
  UI.setState (fun st =>
    {| user := v; loading := loading st; updating := updating st;
       isEditingProfile := isEditingProfile st;
       isChangingPassword := isChangingPassword st;
       profileData := profileData st; passwordData := passwordData st;
       profileErrors := profileErrors st; passwordErrors := passwordErrors st |}).

Definition setLoading (v : bool) : UI State unit :=
  UI.setState (fun st =>
    {| user := user st; loading := v; updating := updating st;
       isEditingProfile := isEditingProfile st;
       isChangingPassword := isChangingPassword st;
       profileData := profileData st; passwordData := passwordData st;
       profileErrors := profileErrors st; passwordErrors := passwordErrors st |}).

Definition setUpdating (v : bool) : UI State unit :=
  UI.setState (fun st =>
    {| user := user st; loading := loading st; updating := v;
       isEditingProfile := isEditingProfile st;
       isChangingPassword := isChangingPassword st;
       profileData := profileData st; passwordData := passwordData st;
       profileErrors := profileErrors st; passwordErrors := passwordErrors st |}).

Definition setIsEditingProfile (v : bool) : UI State unit :=
  UI.setState (fun st =>
    {| user := user st; loading := loading st; updating := updating st;
       isEditingProfile := v;
       isChangingPassword := isChangingPassword st;
       profileData := profileData st; passwordData := passwordData st;
       profileErrors := profileErrors st; passwordErrors := passwordErrors st |}).

Definition setIsChangingPassword (v : bool) : UI State unit :=
  UI.setState (fun st =>
    {| user := user st; loading := loading st; updating := updating st;
       isEditingProfile := isEditingProfile st;
       isChangingPassword := v;
       profileData := profileData st; passwordData := passwordData st;
       profileErrors := profileErrors st; passwordErrors := passwordErrors st |}).

Definition setProfileData (v : ProfileData.t) : UI State unit :=
  UI.setState (fun st =>
    {| user := user st; loading := loading st; updating := updating st;
       isEditingProfile := isEditingProfile st;
       isChangingPassword := isChangingPassword st;
       profileData := v; passwordData := passwordData st;
       profileErrors := profileErrors st; passwordErrors := passwordErrors st |}).

Definition setPasswordData (v : PasswordData.t) : UI State unit :=
  UI.setState (fun st =>
    {| user := user st; loading := loading st; updating := updating st;
       isEditingProfile := isEditingProfile st;
       isChangingPassword := isChangingPassword st;
       profileData := profileData st; passwordData := v;
       profileErrors := profileErrors st; passwordErrors := passwordErrors st |}).

Definition setProfileErrors (v : gmap string string) : UI State unit :=
  UI.setState (fun st =>
    {| user := user st; loading := loading st; updating := updating st;
       isEditingProfile := isEditingProfile st;
       isChangingPassword := isChangingPassword st;
       profileData := profileData st; passwordData := passwordData st;
       profileErrors := v; passwordErrors := passwordErrors st |}).

Definition setPasswordErrors (v : gmap string string) : UI State unit :=
  UI.setState (fun st =>
    {| user := user st; loading := loading st; updating := updating st;
       isEditingProfile := isEditingProfile st;
       isChangingPassword := isChangingPassword st;
       profileData := profileData st; passwordData := passwordData st;
       profileErrors := profileErrors st; passwordErrors := v |}).

(** [Object.keys(errors).length === 0] *)
Definition no_keys (errors : gmap string string) : bool :=
  bool_decide (errors = ∅).

(** The message of an alert raised in a [catch] block: the message of an
    [ApiError], the given default otherwise. *)
Definition errorMessage (default : string) (err : Thrown) : string :=
  match err with
  | ThrownApiError e => ApiError.message e
  | ThrownError _ => default
  end.

(** The handlers close over [profileData], [passwordData] and [user] of
    the render; these are their arguments here. *)
Definition validateProfileForm (profileData : ProfileData.t) : UI State bool :=
  let errors : gmap string string := ∅ in
  let errors :=
    if String.eqb (trim (ProfileData.name profileData)) "" then
      <["name" := "Name is required"]> errors
    else errors in
  setProfileErrors errors;+
  UI.ret (no_keys errors).

Definition validatePasswordForm (passwordData : PasswordData.t) : UI State bool :=
  let errors : gmap string string := ∅ in
  let errors :=
    if String.eqb (PasswordData.currentPassword passwordData) "" then
      <["currentPassword" := "Current password is required"]> errors
    else errors in
  let errors :=
    if String.eqb (PasswordData.newPassword passwordData) "" then
      <["newPassword" := "New password is required"]> errors
    else if Nat.ltb (String.length (PasswordData.newPassword passwordData)) 6 then
      <["newPassword" := "Password must be at least 6 characters long"]> errors
    else if negb (RegExp_test anchored_strength_pattern
                    (PasswordData.newPassword passwordData)) then
      <["newPassword" :=
          "Password must contain at least one uppercase letter, one lowercase letter, and one number"]>
        errors
    else errors in
  let errors :=
    if negb (String.eqb (PasswordData.newPassword passwordData) "")
       && negb (String.eqb (PasswordData.newPassword passwordData)
                  (PasswordData.confirmPassword passwordData)) then
      <["confirmPassword" := "Passwords do not match"]> errors
    else errors in
  setPasswordErrors errors;+
  UI.ret (no_keys errors).

Section ProfileScreen.
Variable API_BASE_URL : string.
Variable API_TIMEOUT : Z.

(** [userData.name] throws when the answer carried no [data]. *)
Definition loadUserProfile (fetch : Request -> FetchOutcome User.t) : UI State unit :=
  UI.try_finally
    (UI.try_catch
       (setLoading true;+
        let+ userData :=
          UI.await (AuthService.getCurrentUser API_BASE_URL API_TIMEOUT fetch) in
        setUser userData;+
        match userData with
        | Some userData => setProfileData {| ProfileData.name := User.name userData |}
        | None => UI.throw (undefined_property "name")
        end)
       (fun err =>
          UI.Alert_alert "Error" (errorMessage "Failed to load profile data." err) []))
    (setLoading false).

Definition handleUpdateProfile (fetch : Request -> FetchOutcome User.t)
    (profileData : ProfileData.t) (user : option User.t) : UI State unit :=
  let+ valid := validateProfileForm profileData in
  if negb valid then UI.ret tt
  else
    UI.try_finally
      (UI.try_catch
         (setUpdating true;+
          let updateData :=
            {| UpdateProfileRequest.name :=
                 if match user with
                    | Some user =>
                        negb (String.eqb (ProfileData.name profileData) (User.name user))
                    | None => true
                    end
                 then Some (ProfileData.name profileData)
                 else None |} in
          match UpdateProfileRequest.name updateData with
          | None => setIsEditingProfile false
          | Some _ =>
              let+ updatedUser :=
                UI.await (AuthService.updateProfile API_BASE_URL API_TIMEOUT fetch
                            updateData) in
              setUser updatedUser;+
              match updatedUser with
              | Some updatedUser =>
                  setProfileData {| ProfileData.name := User.name updatedUser |};+
                  setIsEditingProfile false;+
                  UI.Alert_alert "Success" "Profile updated successfully!" []
              | None => UI.throw (undefined_property "name")
              end
          end)
         (fun err =>
            UI.Alert_alert "Error" (errorMessage "Failed to update profile." err) []))
      (setUpdating false).

Definition handleChangePassword {T} (fetch : Request -> FetchOutcome T)
    (passwordData : PasswordData.t) : UI State unit :=
  let+ valid := validatePasswordForm passwordData in
  if negb valid then UI.ret tt
  else
    UI.try_finally
      (UI.try_catch
         (setUpdating true;+
          let changePasswordRequest :=
            {| ChangePasswordRequest.currentPassword :=
                 PasswordData.currentPassword passwordData;
               ChangePasswordRequest.newPassword :=
                 PasswordData.newPassword passwordData |} in
          UI.await (AuthService.changePassword API_BASE_URL API_TIMEOUT fetch
                      changePasswordRequest);+
          setPasswordData PasswordData.blank;+
          setIsChangingPassword false;+
          UI.Alert_alert "Success" "Password changed successfully!" [])
         (fun err =>
            UI.Alert_alert "Error" (errorMessage "Failed to change password." err) []))
      (setUpdating false).

End ProfileScreen.
End ProfileScreen.

(* ===================================================================== *)
(** ** Vocabulary of the statements *)
(* ===================================================================== *)

(** The world after a request has been handed to the transport. *)
Definition after_request (w : World) (request : Request) : World :=
  {| storage := storage w; sent := (sent w ++ [request])%list |}.

(** What the [catch] block of [makeRequest] throws for a caught value that
    is not an [ApiError]. *)
Definition normalise (e : JsError.t) : ApiError.t :=
  if String.eqb (JsError.name e) "AbortError" then
    {| ApiError.message := "Request timeout";
       ApiError.status := 408; ApiError.errors := None |}
  else if JsError.instanceof_TypeError e
          && includes "Failed to fetch" (JsError.message e) then
    {| ApiError.message := "Network error. Please check your connection.";
       ApiError.status := 0; ApiError.errors := None |}
  else
    {| ApiError.message := "An unexpected error occurred";
       ApiError.status := 500; ApiError.errors := None |}.

(** The completion of [makeRequest] for each outcome of the exchange. *)
Definition completion_of {T} (outcome : FetchOutcome T) : Completion (option T) :=
  match outcome with
  | Rejected e => Throw (ThrownApiError (normalise e))
  | Resolved r =>
      match Response.json r with
      | None =>
          Throw (ThrownApiError
                   {| ApiError.message := "An unexpected error occurred";
                      ApiError.status := 500; ApiError.errors := None |})
      | Some env =>
          if Response.ok r then
            if String.eqb (ApiResponse.status env) "error" then
              Throw (ThrownApiError
                       {| ApiError.message := ApiResponse.message env;
                          ApiError.status := Response.status r;
                          ApiError.errors := ApiResponse.errors env |})
            else Return (ApiResponse.data env)
          else
            Throw (ThrownApiError
                     {| ApiError.message :=
                          or_else (ApiResponse.message env) "An error occurred";
                        ApiError.status := Response.status r;
                        ApiError.errors := ApiResponse.errors env |})
      end
  end.

(** The error of [getAuthHeaders]. *)
Definition no_access_token : ApiError.t :=
  {| ApiError.message := "No access token found";
     ApiError.status := 401;
     ApiError.errors := None |}.

(** The store after [storeTokens] and after [clearTokens]. *)
Definition stored (tokens : AuthTokens.t) (s : gmap string string) : gmap string string :=
  <["refreshToken" := AuthTokens.refreshToken tokens]>
    (<["accessToken" := AuthTokens.accessToken tokens]> s).

Definition cleared (s : gmap string string) : gmap string string :=
  delete "refreshToken" (delete "accessToken" s).

(** What [signIn] and [signUp] do with the completion of their request. *)
Definition sign_completion (c : Completion (option AuthResponse.t))
    (request : Request) (w : World) : Completion AuthResponse.t * World :=
  match c with
  | Return (Some response) =>
      (Return response,
       {| storage := stored (AuthResponse.tokens response) (storage w);
          sent := (sent w ++ [request])%list |})
  | Return None => (Throw (undefined_property "tokens"), after_request w request)
  | Throw e => (Throw e, after_request w request)
  end.

(** The failing outcomes of an exchange: the transport rejects (the host is
    unreachable, the timeout controller aborts, or anything else is
    thrown), or the server answers with a status outside 2xx, with a body
    that is not JSON, or with an ["error"] envelope. *)
Definition failure_outcome {T} (outcome : FetchOutcome T) : bool :=
  match outcome with
  | Rejected _ => true
  | Resolved r =>
      negb (Response.ok r) ||
      match Response.json r with
      | None => true
      | Some env => String.eqb (ApiResponse.status env) "error"
      end
  end.

(** Both tokens are in the store, or neither is. *)
Definition token_pair_invariant (s : gmap string string) : Prop :=
  is_Some (s !! "accessToken") <-> is_Some (s !! "refreshToken").

(* ===================================================================== *)
(** ** Concrete worlds and transports *)
(* ===================================================================== *)

Definition api_host : string := "https://api.example.com".

(** A signed-in device and a fresh one. *)
Definition session : World :=
  {| storage := {[ "accessToken" := "access-1"; "refreshToken" := "refresh-1" ]};
     sent := [] |}.

Definition no_session : World := {| storage := ∅; sent := [] |}.

(** A server that answers every request with the given status and body. *)
Definition answers {T} (status : Z) (json : option (ApiResponse.t T))
  : Request -> FetchOutcome T :=
  fun _ => Resolved {| Response.status := status; Response.json := json |}.

(** A transport whose timeout controller aborts every exchange. *)
Definition times_out {T} : Request -> FetchOutcome T :=
  fun _ => Rejected {| JsError.name := "AbortError";
                       JsError.instanceof_TypeError := false;
                       JsError.message := "Aborted" |}.

Definition envelope {T} (status : EnvelopeStatus) (message : string) (data : option T)
  : ApiResponse.t T :=
  {| ApiResponse.status := status; ApiResponse.message := message;
     ApiResponse.data := data; ApiResponse.errors := None |}.

Definition ada : AuthResponse.t :=
  {| AuthResponse.user :=
       {| User.id := "u1"; User.name := "Ada"; User.email := "ada@example.com";
          User.role := "user"; User.isEmailVerified := true;
          User.lastLogin := "2024-01-01"; User.createdAt := "2023-01-01" |};
     AuthResponse.tokens :=
       {| AuthTokens.accessToken := "access-2"; AuthTokens.refreshToken := "refresh-2";
          AuthTokens.accessTokenExpiresIn := "15m";
          AuthTokens.refreshTokenExpiresIn := "7d" |} |}.

Definition ada_credentials : SignInRequest.t :=
  {| SignInRequest.email := "ada@example.com"; SignInRequest.password := "secret" |}.

Definition ada_userData : SignUpRequest.t :=
  {| SignUpRequest.name := "Ada"; SignUpRequest.email := "ada@example.com";
     SignUpRequest.password := "secret" |}.

Definition get_options : RequestInit.t :=
  {| RequestInit.method := Some "GET"; RequestInit.headers := None;
     RequestInit.body := None; RequestInit.signal := None |}.

(** The request [makeRequest] builds from [get_options] for [/auth/me]. *)
Definition get_request : Request :=
  {| url := "https://api.example.com/auth/me";
     init :=
       {| RequestInit.method := Some "GET";
          RequestInit.headers := Some {[ "Content-Type" := "application/json" ]};
          RequestInit.body := None;
          RequestInit.signal := Some (controller_signal 10000) |} |}.

(** The request of [refreshToken] on [session]. *)
Definition refresh_request : Request :=
  {| url := "https://api.example.com/auth/refresh-token";
     init :=
       {| RequestInit.method := Some "POST";
          RequestInit.headers := Some {[ "Content-Type" := "application/json" ]};
          RequestInit.body := Some (JSON_stringify_refreshToken "refresh-1");
          RequestInit.signal := Some (controller_signal 10000) |} |}.

Definition accepts_ada : Request -> FetchOutcome AuthResponse.t :=
  answers 200 (Some (envelope success "Signed in" (Some ada))).

(** The answer of [accepts_ada]. *)
Definition ada_answer : Response.t AuthResponse.t :=
  {| Response.status := 200;
     Response.json := Some (envelope success "Signed in" (Some ada)) |}.

(** The world after [signIn] of [ada_credentials] on a fresh device against
    [accepts_ada]. *)
Definition ada_signed_in : World :=
  {| storage := {[ "accessToken" := "access-2"; "refreshToken" := "refresh-2" ]};
     sent :=
       [ {| url := "https://api.example.com/auth/signin";
            init :=
              {| RequestInit.method := Some "POST";
                 RequestInit.headers := Some {[ "Content-Type" := "application/json" ]};
                 RequestInit.body := Some (JSON_stringify_credentials ada_credentials);
                 RequestInit.signal := Some (controller_signal 10000) |} |} ] |}.

(** A refresh endpoint that mints ["access-3"]. *)
Definition refreshes : Request -> FetchOutcome RefreshPayload.t :=
  answers 200 (Some (envelope success "Refreshed"
                       (Some {| RefreshPayload.accessToken := "access-3" |}))).

(** A 200 response whose envelope reports an error. *)
Definition error_at_200 : Response.t unit :=
  {| Response.status := 200;
     Response.json := Some (envelope error "Invalid credentials" None) |}.

Definition says_error_at_200 : Request -> FetchOutcome unit :=
  fun _ => Resolved error_at_200.

(** A 404 response with an error envelope. *)
Definition not_found : Response.t unit :=
  {| Response.status := 404;
     Response.json := Some (envelope error "Not found" None) |}.

Definition says_not_found : Request -> FetchOutcome unit :=
  fun _ => Resolved not_found.

(* ===================================================================== *)
(** ** Vocabulary of the further statements *)
(* ===================================================================== *)

(** The request that [makeRequest] hands to [fetch]. *)
Definition request_of (API_BASE_URL : string) (API_TIMEOUT : Z)
    (endpoint : string) (options : RequestInit.t) : Request :=
  {| url := API_BASE_URL ++ endpoint;
     init :=
       {| RequestInit.method := RequestInit.method options;
          RequestInit.headers :=
            Some (match RequestInit.headers options with
                  | Some h => h
                  | None => {[ "Content-Type" := "application/json" ]}
                  end);
          RequestInit.body := RequestInit.body options;
          RequestInit.signal :=
            Some (match RequestInit.signal options with
                  | Some s => s
                  | None => controller_signal API_TIMEOUT
                  end) |} |}.

Definition auth_options (method : string) (authHeaders : gmap string string)
    (content_type : bool) (body : option Body) : RequestInit.t :=
  {| RequestInit.method := Some method;
     RequestInit.headers :=
       Some (if content_type
             then authHeaders ∪ {[ "Content-Type" := "application/json" ]}
             else authHeaders);
     RequestInit.body := body;
     RequestInit.signal := None |}.

Definition bearer (accessToken : string) : gmap string string :=
  {[ "Authorization" := "Bearer " ++ accessToken ]}.

Definition post_options (body : Body) : RequestInit.t :=
  {| RequestInit.method := Some "POST"; RequestInit.headers := None;
     RequestInit.body := Some body; RequestInit.signal := None |}.

(** The two calls that open a session, and the request each of them hands
    to the transport. *)
Inductive SessionCall :=
| SignIn (credentials : SignInRequest.t)
| SignUp (userData : SignUpRequest.t).

Definition open_session (API_BASE_URL : string) (API_TIMEOUT : Z)
    (fetch : Request -> FetchOutcome AuthResponse.t) (call : SessionCall)
  : Async AuthResponse.t :=
  match call with
  | SignIn credentials => AuthService.signIn API_BASE_URL API_TIMEOUT fetch credentials
  | SignUp userData => AuthService.signUp API_BASE_URL API_TIMEOUT fetch userData
  end.

Definition session_request (API_BASE_URL : string) (API_TIMEOUT : Z)
    (call : SessionCall) : Request :=
  match call with
  | SignIn credentials =>
      request_of API_BASE_URL API_TIMEOUT "/auth/signin"
        (post_options (JSON_stringify_credentials credentials))
  | SignUp userData =>
      request_of API_BASE_URL API_TIMEOUT "/auth/signup"
        (post_options (JSON_stringify_userData userData))
  end.

(** How an operation may change the world: it writes only the two token
    entries and hands at most one request to the transport. *)
Definition token_step (w w' : World) : Prop :=
  (forall key, key <> "accessToken" -> key <> "refreshToken" ->
               storage w' !! key = storage w !! key) /\
  (sent w' = sent w \/ exists request, sent w' = (sent w ++ [request])%list).

(** Every code unit of [s] is in the class; some code unit of [s] is. *)
Fixpoint every (class : ascii -> bool) (s : string) : bool :=
  match s with
  | String c s' => class c && every class s'
  | EmptyString => true
  end.

Fixpoint has (class : ascii -> bool) (s : string) : bool :=
  match s with
  | String c s' => class c || has class s'
  | EmptyString => false
  end.

(** The input up to its first line terminator. *)
Fixpoint first_line (s : string) : string :=
  match s with
  | String c s' => if is_line_terminator c then EmptyString else String c (first_line s')
  | EmptyString => EmptyString
  end.

(** A non-empty run of code units that are not white space. *)
Definition word (s : string) : Prop :=
  s <> "" /\ every (fun c => negb (is_space c)) s = true.

Definition lower_case : ascii -> bool := between 97 122.
Definition upper_case : ascii -> bool := between 65 90.
Definition digit : ascii -> bool := between 48 57.

(** What the e-mail pattern looks for: a word, ["@"], a word, ["."] and a
    word, in a row, anywhere in the input. *)
Definition contains_address (s : string) : Prop :=
  exists pre u v w post,
    s = pre ++ u ++ "@" ++ v ++ "." ++ w ++ post /\ word u /\ word v /\ word w.

(** The sign-in screen with its [errors] and [loading] replaced. *)
Definition signIn_screen (errors : SignInScreen.FormErrors.t) (loading : bool)
    (scr : Screen SignInScreen.State) : SignInScreen.State :=
  {| SignInScreen.formData := SignInScreen.formData (state scr);
     SignInScreen.errors := errors;
     SignInScreen.loading := loading;
     SignInScreen.showPassword := SignInScreen.showPassword (state scr) |}.

(** The message of the last entry of a server error list for a field. *)
Definition last_msg (path : string) (errs : list ValidationError.t) : option string :=
  ValidationError.msg <$>
    last (filter (fun err => ValidationError.path err = path) errs).

(** What the strength pattern looks for: from some index on, the first
    line of the rest has a lower-case letter, an upper-case letter and a
    digit. *)
Definition mixed (s : string) : Prop :=
  exists pre t,
    s = pre ++ t /\
    has lower_case (first_line t) = true /\
    has upper_case (first_line t) = true /\
    has digit (first_line t) = true.

(** The sign-up screen with its [errors] and [loading] replaced. *)
Definition signUp_screen (errors : SignUpScreen.FormErrors.t) (loading : bool)
    (scr : Screen SignUpScreen.State) : SignUpScreen.State :=
  {| SignUpScreen.formData := SignUpScreen.formData (state scr);
     SignUpScreen.errors := errors;
     SignUpScreen.loading := loading;
     SignUpScreen.showPassword := SignUpScreen.showPassword (state scr);
     SignUpScreen.showConfirmPassword := SignUpScreen.showConfirmPassword (state scr) |}.

(** The message the sign-up form puts on each field. *)
Definition signUp_name_error (fullName : string) : option string :=
  if String.eqb (trim fullName) "" then Some "Name is required"
  else if Nat.ltb (String.length (trim fullName)) 2 then
    Some "Name must be at least 2 characters"
  else if Nat.ltb 50 (String.length (trim fullName)) then
    Some "Name must be no more than 50 characters"
  else None.

Definition form_email_error (email : string) : option string :=
  if String.eqb (trim email) "" then Some "Email is required"
  else if RegExp_test email_pattern email then None
  else Some "Please provide a valid email".

Definition signUp_password_error (password : string) : option string :=
  if String.eqb password "" then Some "Password is required"
  else if Nat.ltb (String.length password) 6 then
    Some "Password must be at least 6 characters long"
  else if RegExp_test strength_pattern password then None
  else Some "Password must contain at least one uppercase letter, one lowercase letter, and one number".

Definition signUp_confirm_error (password confirmPassword : string) : option string :=
  if String.eqb confirmPassword "" then Some "Please confirm your password"
  else if String.eqb password confirmPassword then None
  else Some "Passwords do not match".

Definition signUp_form_errors (formData : SignUpScreen.FormData.t)
  : SignUpScreen.FormErrors.t :=
  {| SignUpScreen.FormErrors.fullName :=
       signUp_name_error (SignUpScreen.FormData.fullName formData);
     SignUpScreen.FormErrors.email :=
       form_email_error (SignUpScreen.FormData.email formData);
     SignUpScreen.FormErrors.password :=
       signUp_password_error (SignUpScreen.FormData.password formData);
     SignUpScreen.FormErrors.confirmPassword :=
       signUp_confirm_error (SignUpScreen.FormData.password formData)
         (SignUpScreen.FormData.confirmPassword formData);
     SignUpScreen.FormErrors.general := None |}.

(** A form that the sign-up screen accepts. *)
Definition signUp_acceptable (formData : SignUpScreen.FormData.t) : Prop :=
  (2 <= String.length (trim (SignUpScreen.FormData.fullName formData)) <= 50)%nat /\
  contains_address (SignUpScreen.FormData.email formData) /\
  (6 <= String.length (SignUpScreen.FormData.password formData))%nat /\
  mixed (SignUpScreen.FormData.password formData) /\
  SignUpScreen.FormData.confirmPassword formData
    = SignUpScreen.FormData.password formData.

(** A password form that the profile screen accepts. *)
Definition password_change_acceptable (passwordData : ProfileScreen.PasswordData.t) : Prop :=
  ProfileScreen.PasswordData.currentPassword passwordData <> "" /\
  (6 <= String.length (ProfileScreen.PasswordData.newPassword passwordData))%nat /\
  has lower_case (first_line (ProfileScreen.PasswordData.newPassword passwordData)) = true /\
  has upper_case (first_line (ProfileScreen.PasswordData.newPassword passwordData)) = true /\
  has digit (first_line (ProfileScreen.PasswordData.newPassword passwordData)) = true /\
  ProfileScreen.PasswordData.confirmPassword passwordData
    = ProfileScreen.PasswordData.newPassword passwordData.

(** The messages the password form puts under its fields. *)
Definition password_form_errors (passwordData : ProfileScreen.PasswordData.t)
  : gmap string string :=
  let current := ProfileScreen.PasswordData.currentPassword passwordData in
  let new := ProfileScreen.PasswordData.newPassword passwordData in
  let confirm := ProfileScreen.PasswordData.confirmPassword passwordData in
  (if String.eqb current "" then {[ "currentPassword" := "Current password is required" ]}
   else ∅) ∪
  (if String.eqb new "" then {[ "newPassword" := "New password is required" ]}
   else if Nat.ltb (String.length new) 6 then
     {[ "newPassword" := "Password must be at least 6 characters long" ]}
   else if RegExp_test anchored_strength_pattern new then ∅
   else {[ "newPassword" :=
             "Password must contain at least one uppercase letter, one lowercase letter, and one number" ]}) ∪
  (if negb (String.eqb new "") && negb (String.eqb new confirm) then
     {[ "confirmPassword" := "Passwords do not match" ]}
   else ∅).

(** The profile screen with some of its state replaced. *)
Definition profile_state (st : ProfileScreen.State)
    (user : option User.t) (loading updating isEditingProfile isChangingPassword : bool)
    (profileData : ProfileScreen.ProfileData.t)
    (passwordData : ProfileScreen.PasswordData.t)
    (profileErrors passwordErrors : gmap string string) : ProfileScreen.State :=
  {| ProfileScreen.user := user;
     ProfileScreen.loading := loading;
     ProfileScreen.updating := updating;
     ProfileScreen.isEditingProfile := isEditingProfile;
     ProfileScreen.isChangingPassword := isChangingPassword;
     ProfileScreen.profileData := profileData;
     ProfileScreen.passwordData := passwordData;
     ProfileScreen.profileErrors := profileErrors;
     ProfileScreen.passwordErrors := passwordErrors |}.

(* ===================================================================== *)
(** ** Concrete screens, forms and transports *)
(* ===================================================================== *)

(** A screen that has just been mounted on a device. *)
Definition mounted {S : Type} (st : S) (w : World) : Screen S :=
  {| state := st; device := w; replaced := []; alerts := [] |}.

Definition abort_error : JsError.t :=
  {| JsError.name := "AbortError";
     JsError.instanceof_TypeError := false;
     JsError.message := "Aborted" |}.

Definition request_timeout : ApiError.t :=
  {| ApiError.message := "Request timeout";
     ApiError.status := 408;
     ApiError.errors := None |}.

Definition says_ok : Request -> FetchOutcome unit :=
  answers 200 (Some (envelope success "OK" (Some tt))).

(** A 200 answer whose status is neither of the two texts the interface
    lists. *)
Definition says_fail_with_data : Request -> FetchOutcome unit :=
  answers 200 (Some (envelope "fail" "pong" (Some tt))).

(** A 200 answer that reports success and carries no payload. *)
Definition accepts_without_data : Request -> FetchOutcome AuthResponse.t :=
  answers 200 (Some (envelope success "Created" None)).

Definition ada_user : User.t := AuthResponse.user ada.

Definition shows_ada : Request -> FetchOutcome User.t :=
  answers 200 (Some (envelope success "OK" (Some ada_user))).

(** A server that refuses a sign-up because the address is taken. *)
Definition address_taken : Response.t AuthResponse.t :=
  {| Response.status := 400;
     Response.json := Some (envelope error "User already exists" None) |}.

Definition says_address_taken : Request -> FetchOutcome AuthResponse.t :=
  fun _ => Resolved address_taken.

Definition signIn_state (formData : SignInScreen.FormData.t) : SignInScreen.State :=
  {| SignInScreen.formData := formData;
     SignInScreen.errors := SignInScreen.FormErrors.empty;
     SignInScreen.loading := false;
     SignInScreen.showPassword := false |}.

Definition ada_signIn_form : SignInScreen.FormData.t :=
  {| SignInScreen.FormData.email := " ada@example.com ";
     SignInScreen.FormData.password := "secret" |}.

Definition empty_signIn_form : SignInScreen.FormData.t :=
  {| SignInScreen.FormData.email := ""; SignInScreen.FormData.password := "" |}.

Definition signUp_state (formData : SignUpScreen.FormData.t) : SignUpScreen.State :=
  {| SignUpScreen.formData := formData;
     SignUpScreen.errors := SignUpScreen.FormErrors.empty;
     SignUpScreen.loading := false;
     SignUpScreen.showPassword := false;
     SignUpScreen.showConfirmPassword := false |}.

Definition ada_signUp_form : SignUpScreen.FormData.t :=
  {| SignUpScreen.FormData.fullName := " Ada ";
     SignUpScreen.FormData.email := "ada@example.com";
     SignUpScreen.FormData.password := "Secret1";
     SignUpScreen.FormData.confirmPassword := "Secret1" |}.

Definition ada_password_form : ProfileScreen.PasswordData.t :=
  {| ProfileScreen.PasswordData.currentPassword := "Secret1";
     ProfileScreen.PasswordData.newPassword := "Secret2";
     ProfileScreen.PasswordData.confirmPassword := "Secret2" |}.

(** The profile screen as it is first rendered, and with [ada] loaded. *)
Definition profile_initial : ProfileScreen.State :=
  {| ProfileScreen.user := None;
     ProfileScreen.loading := true;
     ProfileScreen.updating := false;
     ProfileScreen.isEditingProfile := false;
     ProfileScreen.isChangingPassword := false;
     ProfileScreen.profileData := {| ProfileScreen.ProfileData.name := "" |};
     ProfileScreen.passwordData := ProfileScreen.PasswordData.blank;
     ProfileScreen.profileErrors := ∅;
     ProfileScreen.passwordErrors := ∅ |}.

Definition profile_of_ada : ProfileScreen.State :=
  {| ProfileScreen.user := Some ada_user;
     ProfileScreen.loading := false;
     ProfileScreen.updating := false;
     ProfileScreen.isEditingProfile := true;
     ProfileScreen.isChangingPassword := true;
     ProfileScreen.profileData := {| ProfileScreen.ProfileData.name := "Ada" |};
     ProfileScreen.passwordData := ada_password_form;
     ProfileScreen.profileErrors := ∅;
     ProfileScreen.passwordErrors := ∅ |}.

(* ===================================================================== *)
(** ** The request primitive *)
(* ===================================================================== *)

Section MakeRequest.

Variable API_BASE_URL : string.
Variable API_TIMEOUT : Z.
Context {T : Type}.
Variable fetch : Request -> FetchOutcome T.

Local Abbreviation makeRequest :=
  (AuthService.makeRequest API_BASE_URL API_TIMEOUT fetch).

(** [makeRequest] hands exactly one request to the transport, the same in
    every world, leaves the store alone, and completes as the outcome of
    that one exchange dictates. *)
Lemma makeRequest_run endpoint options :
  exists request,
    url request = API_BASE_URL ++ endpoint /\
    RequestInit.headers (init request) =
      override
        (Some (spread_headers {[ "Content-Type" := "application/json" ]}
                 (RequestInit.headers options)))
        (RequestInit.headers options) /\
    forall w,
      makeRequest endpoint options w =
      (completion_of (fetch request), after_request w request).
Proof.
  exists {| url := API_BASE_URL ++ endpoint;
            init :=
              spread_init
                {| RequestInit.method := None;
                   RequestInit.headers :=
                     Some (spread_headers {[ "Content-Type" := "application/json" ]}
                             (RequestInit.headers options));
                   RequestInit.body := None;
                   RequestInit.signal := Some (controller_signal API_TIMEOUT) |}
                options |}.
  split; [reflexivity | split; [reflexivity | intros w]].
  unfold AuthService.makeRequest, try_catch, bind, await_fetch,
    response_json, completion_of, normalise, after_request.
  destruct (fetch _) as [r0|e0].
  - destruct (Response.json r0) as [env|]; simpl; [| reflexivity].
    destruct (Response.ok r0); simpl; [| reflexivity].
    destruct (String.eqb _ _); reflexivity.
  - simpl. destruct (String.eqb _ _); [reflexivity |].
    destruct (_ && _); reflexivity.
Qed.

(** The same, for a request identified by the log. *)
Lemma makeRequest_cases endpoint options w request :
  sent (snd (makeRequest endpoint options w)) = (sent w ++ [request])%list ->
  makeRequest endpoint options w =
  (completion_of (fetch request), after_request w request).
Proof.
  intros Hsent.
  destruct (makeRequest_run endpoint options) as (request' & _ & _ & Hrun).
  rewrite Hrun in Hsent |- *. simpl in Hsent.
  apply app_inv_head in Hsent. congruence.
Qed.

(** [makeRequest] only ever throws an [ApiError]. *)
Lemma makeRequest_throws_ApiError endpoint options w thrown :
  fst (makeRequest endpoint options w) = Throw thrown ->
  exists e, thrown = ThrownApiError e.
Proof.
  destruct (makeRequest_run endpoint options) as (request & _ & _ & Hrun).
  rewrite Hrun. unfold completion_of. simpl.
  destruct (fetch request) as [r|e]; [| intros [= <-]; eauto].
  destruct (Response.json r) as [env|]; [| intros [= <-]; eauto].
  destruct (Response.ok r); [| intros [= <-]; eauto].
  destruct (String.eqb _ _); [intros [= <-]; eauto | discriminate].
Qed.

(** A [headers] key in the options replaces the header object built by
    [makeRequest]; without one, that object is sent. *)
Lemma makeRequest_headers endpoint options w :
  exists request,
    sent (snd (makeRequest endpoint options w)) = (sent w ++ [request])%list /\
    RequestInit.headers (init request) =
    match RequestInit.headers options with
    | Some h => Some h
    | None => Some {[ "Content-Type" := "application/json" ]}
    end.
Proof.
  destruct (makeRequest_run endpoint options) as (request & _ & Hheaders & Hrun).
  exists request. rewrite Hrun. split; [reflexivity |].
  rewrite Hheaders. destruct (RequestInit.headers options); reflexivity.
Qed.

End MakeRequest.

(* ===================================================================== *)
(** ** Envelope and status handling of [makeRequest] *)
(* ===================================================================== *)

Lemma ok_iff_2xx {T} (r : Response.t T) :
  Response.ok r = true <-> 200 <= Response.status r <= 299.
Proof. unfold Response.ok. rewrite andb_true_iff, !Z.leb_le. tauto. Qed.

(** C4. A response with a 2xx status whose envelope says ["error"] makes
    [makeRequest] throw an [ApiError] that carries the message and the
    errors of the envelope and the status of the transport response; the
    call does not return. *)
Theorem makeRequest_error_envelope_2xx
    (API_BASE_URL : string) (API_TIMEOUT : Z) (T : Type)
    (fetch : Request -> FetchOutcome T)
    (endpoint : string) (options : RequestInit.t) (w : World)
    (request : Request) (r : Response.t T) (env : ApiResponse.t T) :
  sent (snd (AuthService.makeRequest API_BASE_URL API_TIMEOUT fetch endpoint options w))
    = (sent w ++ [request])%list ->
  fetch request = Resolved r ->
  200 <= Response.status r <= 299 ->
  Response.json r = Some env ->
  ApiResponse.status env = error ->
  AuthService.makeRequest API_BASE_URL API_TIMEOUT fetch endpoint options w =
  (Throw (ThrownApiError
            {| ApiError.message := ApiResponse.message env;
               ApiError.status := Response.status r;
               ApiError.errors := ApiResponse.errors env |}),
   after_request w request).
Proof.
  intros Hsent Hfetch Hstatus Hjson Henv.
  rewrite (makeRequest_cases _ _ _ _ _ _ _ Hsent).
  unfold completion_of. rewrite Hfetch, Hjson, Henv.
  apply ok_iff_2xx in Hstatus. rewrite Hstatus. reflexivity.
Qed.

(** C5, as the code has it. A response with a status outside 2xx makes
    [makeRequest] throw an [ApiError]; its status is the status of the
    transport response when the body parses as an envelope, and 500 when
    the body does not parse. *)
Theorem makeRequest_status_outside_2xx
    (API_BASE_URL : string) (API_TIMEOUT : Z) (T : Type)
    (fetch : Request -> FetchOutcome T)
    (endpoint : string) (options : RequestInit.t) (w : World)
    (request : Request) (r : Response.t T) :
  sent (snd (AuthService.makeRequest API_BASE_URL API_TIMEOUT fetch endpoint options w))
    = (sent w ++ [request])%list ->
  fetch request = Resolved r ->
  ~ (200 <= Response.status r <= 299) ->
  exists e,
    AuthService.makeRequest API_BASE_URL API_TIMEOUT fetch endpoint options w =
    (Throw (ThrownApiError e), after_request w request) /\
    ApiError.status e =
    match Response.json r with
    | Some _ => Response.status r
    | None => 500
    end.
Proof.
  intros Hsent Hfetch Hstatus.
  rewrite (makeRequest_cases _ _ _ _ _ _ _ Hsent).
  unfold completion_of. rewrite Hfetch.
  destruct (Response.json r) as [env|]; [| eexists; split; reflexivity].
  destruct (Response.ok r) eqn:Hok.
  - apply ok_iff_2xx in Hok. contradiction.
  - eexists; split; reflexivity.
Qed.

(* ===================================================================== *)
(** ** Local checks: [getAuthHeaders] and [isAuthenticated] *)
(* ===================================================================== *)

Lemma truthy_Some v s : truthy v = Some s <-> v = Some s /\ s <> "".
Proof.
  unfold truthy. destruct v as [s'|]; [| split; [discriminate | intros [? _]; discriminate]].
  destruct (String.eqb_spec s' "") as [->|Hne]; split.
  - discriminate.
  - intros [[= ->] Hne]. contradiction.
  - intros [= ->]. auto.
  - intros [[= ->] _]. reflexivity.
Qed.

Lemma ToBoolean_true v : ToBoolean v = true <-> exists s, v = Some s /\ s <> "".
Proof.
  unfold ToBoolean. destruct (truthy v) as [s|] eqn:Hv; split.
  - intros _. exists s. by apply truthy_Some.
  - reflexivity.
  - discriminate.
  - intros (s & Hs). apply truthy_Some in Hs. congruence.
Qed.

(** [getAuthHeaders] never touches the world. *)
Lemma getAuthHeaders_world w : snd (AuthService.getAuthHeaders w) = w.
Proof.
  unfold AuthService.getAuthHeaders, bind, AsyncStorage.getItem.
  destruct (truthy _); reflexivity.
Qed.

Lemma getAuthHeaders_absent w :
  storage w !! "accessToken" = None ->
  AuthService.getAuthHeaders w = (Throw (ThrownApiError no_access_token), w).
Proof.
  intros H. unfold AuthService.getAuthHeaders, bind, AsyncStorage.getItem.
  rewrite H. reflexivity.
Qed.

(** C7. With no access token in the store, [getCurrentUser],
    [updateProfile] and [changePassword] each throw the [ApiError] of status
    401 and leave the world as it was: the store is unchanged and no
    request has been handed to the transport. *)
Theorem authenticated_calls_without_access_token
    (API_BASE_URL : string) (API_TIMEOUT : Z) (T : Type)
    (fetch : Request -> FetchOutcome T)
    (profileData : UpdateProfileRequest.t)
    (passwordData : ChangePasswordRequest.t) (w : World) :
  storage w !! "accessToken" = None ->
  ApiError.status no_access_token = 401 /\
  AuthService.getCurrentUser API_BASE_URL API_TIMEOUT fetch w
    = (Throw (ThrownApiError no_access_token), w) /\
  AuthService.updateProfile API_BASE_URL API_TIMEOUT fetch profileData w
    = (Throw (ThrownApiError no_access_token), w) /\
  AuthService.changePassword API_BASE_URL API_TIMEOUT fetch passwordData w
    = (Throw (ThrownApiError no_access_token), w).
Proof.
  intros Habsent.
  unfold AuthService.getCurrentUser, AuthService.updateProfile,
    AuthService.changePassword, bind.
  rewrite (getAuthHeaders_absent w Habsent). auto.
Qed.

(** C9. [isAuthenticated] returns, in the unchanged world (same store, no
    request issued), [true] exactly when both tokens are in the store and
    neither is the empty string. *)
Theorem isAuthenticated_iff_both_tokens (w : World) :
  exists b,
    AuthService.isAuthenticated w = (Return b, w) /\
    (b = true <->
     exists accessToken refreshToken,
       storage w !! "accessToken" = Some accessToken /\ accessToken <> "" /\
       storage w !! "refreshToken" = Some refreshToken /\ refreshToken <> "").
Proof.
  eexists; split; [reflexivity |].
  rewrite andb_true_iff, !ToBoolean_true. split.
  - intros [(a & Ha & Hane) (r & Hr & Hrne)]. exists a, r. auto.
  - intros (a & r & Ha & Hane & Hr & Hrne). split; [exists a | exists r]; auto.
Qed.

(* ===================================================================== *)
(** ** The token-writing operations, run *)
(* ===================================================================== *)

Lemma stored_lookup tokens s :
  stored tokens s !! "accessToken" = Some (AuthTokens.accessToken tokens) /\
  stored tokens s !! "refreshToken" = Some (AuthTokens.refreshToken tokens).
Proof.
  unfold stored. split.
  - rewrite lookup_insert_ne by discriminate. apply lookup_insert_eq.
  - apply lookup_insert_eq.
Qed.

Lemma cleared_lookup s :
  cleared s !! "accessToken" = None /\ cleared s !! "refreshToken" = None.
Proof.
  unfold cleared. split.
  - rewrite lookup_delete_ne by discriminate. apply lookup_delete_eq.
  - apply lookup_delete_eq.
Qed.

(** Rewrites the one call of [makeRequest] in the goal by its completion. *)
Ltac run_makeRequest request :=
  match goal with
  | |- context [AuthService.makeRequest ?b ?t ?f ?ep ?o] =>
      let Hrun := fresh "Hrun" in
      destruct (makeRequest_run b t f ep o) as (request & _ & _ & Hrun);
      try rewrite !Hrun
  end.

Section Operations.

Variable API_BASE_URL : string.
Variable API_TIMEOUT : Z.

Local Abbreviation signIn := (AuthService.signIn API_BASE_URL API_TIMEOUT).
Local Abbreviation signUp := (AuthService.signUp API_BASE_URL API_TIMEOUT).
Local Abbreviation signOut := (AuthService.signOut API_BASE_URL API_TIMEOUT).
Local Abbreviation refreshToken := (AuthService.refreshToken API_BASE_URL API_TIMEOUT).

Lemma signIn_run fetch credentials :
  exists request, forall w,
    signIn fetch credentials w = sign_completion (completion_of (fetch request)) request w.
Proof.
  unfold AuthService.signIn. run_makeRequest request.
  exists request. intros w. unfold bind, sign_completion. rewrite Hrun.
  destruct (completion_of (fetch request)) as [[response|]|e]; reflexivity.
Qed.

Lemma signUp_run fetch userData :
  exists request, forall w,
    signUp fetch userData w = sign_completion (completion_of (fetch request)) request w.
Proof.
  unfold AuthService.signUp. run_makeRequest request.
  exists request. intros w. unfold bind, sign_completion. rewrite Hrun.
  destruct (completion_of (fetch request)) as [[response|]|e]; reflexivity.
Qed.

(** [signOut] always returns, with both entries removed; at most one
    request is issued. *)
Lemma signOut_run {T} (fetch : Request -> FetchOutcome T) w :
  exists log,
    signOut fetch w = (Return tt, {| storage := cleared (storage w); sent := log |}) /\
    (log = sent w \/ exists request, log = (sent w ++ [request])%list).
Proof.
  unfold AuthService.signOut, try_finally, try_catch, bind. simpl.
  destruct (truthy (storage w !! "refreshToken")) as [token|]; simpl.
  2: { eexists; split; [reflexivity | by left]. }
  pose proof (getAuthHeaders_world w) as Hw.
  destruct (AuthService.getAuthHeaders w) as [[authHeaders|e] w1]; simpl in Hw; subst w1.
  2: { eexists; split; [reflexivity | by left]. }
  run_makeRequest request.
  destruct (completion_of (fetch request)); simpl;
    (eexists; split; [reflexivity | right; by exists request]).
Qed.

(** [refreshToken]: without a usable refresh token nothing happens;
    otherwise one request is issued, and either its payload replaces the
    access token or both entries are removed. *)
Lemma refreshToken_run fetch w :
  match truthy (storage w !! "refreshToken") with
  | None => refreshToken fetch w = (Return None, w)
  | Some _ =>
      exists request,
        refreshToken fetch w =
        match completion_of (fetch request) with
        | Return (Some response) =>
            (Return (Some (RefreshPayload.accessToken response)),
             {| storage := <["accessToken" := RefreshPayload.accessToken response]> (storage w);
                sent := (sent w ++ [request])%list |})
        | _ =>
            (Return None,
             {| storage := cleared (storage w); sent := (sent w ++ [request])%list |})
        end
  end.
Proof.
  unfold AuthService.refreshToken, try_catch, bind. simpl.
  destruct (truthy (storage w !! "refreshToken")) as [token|]; simpl; [| reflexivity].
  run_makeRequest request. exists request.
  destruct (completion_of (fetch request)) as [[response|]|e]; reflexivity.
Qed.

End Operations.

(* ===================================================================== *)
(** ** Sign-in, sign-up and sign-out *)
(* ===================================================================== *)

(** C8. In every world and for every transport, [signOut] returns (it does
    not throw) and afterwards neither token is in the store. *)
Theorem signOut_always_clears
    (API_BASE_URL : string) (API_TIMEOUT : Z) (T : Type)
    (fetch : Request -> FetchOutcome T) (w : World) :
  exists w',
    AuthService.signOut API_BASE_URL API_TIMEOUT fetch w = (Return tt, w') /\
    storage w' !! "accessToken" = None /\
    storage w' !! "refreshToken" = None.
Proof.
  destruct (signOut_run API_BASE_URL API_TIMEOUT fetch w) as (log & Hrun & _).
  eexists; split; [exact Hrun |]. simpl. apply cleared_lookup.
Qed.

(* ===================================================================== *)
(** ** Token refresh *)
(* ===================================================================== *)

(** These are exactly the outcomes at which [makeRequest] throws. *)
Lemma failure_outcome_throws {T} (outcome : FetchOutcome T) :
  failure_outcome outcome = true <->
  exists e, completion_of outcome = Throw (ThrownApiError e).
Proof.
  unfold failure_outcome, completion_of.
  destruct outcome as [r|e]; [| split; eauto].
  destruct (Response.json r) as [env|].
  2: { rewrite orb_true_r. split; eauto. }
  destruct (Response.ok r); simpl; [| split; eauto].
  destruct (String.eqb _ _); split; eauto; try discriminate.
  intros (e & He). discriminate.
Qed.

(** C1. When a refresh token is in the store and the request that
    [refreshToken] issues has a failing outcome (rejection by the server,
    network failure, timeout, or another of [failure_outcome]), the method
    returns [null] and afterwards neither token is in the store. *)
Theorem refreshToken_fails_closed
    (API_BASE_URL : string) (API_TIMEOUT : Z)
    (fetch : Request -> FetchOutcome RefreshPayload.t)
    (w : World) (token : string) (request : Request) :
  storage w !! "refreshToken" = Some token ->
  sent (snd (AuthService.refreshToken API_BASE_URL API_TIMEOUT fetch w))
    = (sent w ++ [request])%list ->
  failure_outcome (fetch request) = true ->
  exists w',
    AuthService.refreshToken API_BASE_URL API_TIMEOUT fetch w = (Return None, w') /\
    storage w' !! "accessToken" = None /\
    storage w' !! "refreshToken" = None.
Proof.
  intros _ Hsent Hfail.
  pose proof (refreshToken_run API_BASE_URL API_TIMEOUT fetch w) as Hrun.
  destruct (truthy (storage w !! "refreshToken")) as [usable|].
  - destruct Hrun as (request' & Hrun).
    assert (request' = request) as ->.
    { rewrite Hrun in Hsent.
      destruct (completion_of (fetch request')) as [[response|]|e]; simpl in Hsent;
        apply app_inv_head in Hsent; congruence. }
    apply failure_outcome_throws in Hfail as (e & He).
    rewrite He in Hrun. eexists; split; [exact Hrun |]. simpl. apply cleared_lookup.
  - rewrite Hrun in Hsent. simpl in Hsent.
    apply (f_equal length) in Hsent. rewrite length_app in Hsent. simpl in Hsent.
    apply (f_equal Z.of_nat) in Hsent. lia.
Qed.

(** When the stored refresh token is usable the request is issued, so the
    hypothesis of C1 on the log holds for some request. *)
Lemma refreshToken_issues_request
    (API_BASE_URL : string) (API_TIMEOUT : Z)
    (fetch : Request -> FetchOutcome RefreshPayload.t) (w : World) (token : string) :
  storage w !! "refreshToken" = Some token -> token <> "" ->
  exists request,
    sent (snd (AuthService.refreshToken API_BASE_URL API_TIMEOUT fetch w))
    = (sent w ++ [request])%list.
Proof.
  intros Hstored Hne.
  pose proof (refreshToken_run API_BASE_URL API_TIMEOUT fetch w) as Hrun.
  assert (truthy (storage w !! "refreshToken") = Some token) as Htruthy
    by (by apply truthy_Some).
  rewrite Htruthy in Hrun. destruct Hrun as (request & Hrun).
  exists request. rewrite Hrun.
  destruct (completion_of (fetch request)) as [[response|]|e]; reflexivity.
Qed.

Lemma isAuthenticated_run w :
  AuthService.isAuthenticated w =
  (Return (ToBoolean (storage w !! "accessToken") && ToBoolean (storage w !! "refreshToken")), w).
Proof. reflexivity. Qed.

(** C10. Whenever [refreshToken] returns [null], [isAuthenticated] answers
    [false] in the world it leaves; and when no refresh token was stored,
    that world is the initial one (a stored access token stays). *)
Theorem refreshToken_null_not_authenticated
    (API_BASE_URL : string) (API_TIMEOUT : Z)
    (fetch : Request -> FetchOutcome RefreshPayload.t) (w w' : World) :
  AuthService.refreshToken API_BASE_URL API_TIMEOUT fetch w = (Return None, w') ->
  AuthService.isAuthenticated w' = (Return false, w') /\
  (storage w !! "refreshToken" = None -> w' = w).
Proof.
  intros Hnull.
  pose proof (refreshToken_run API_BASE_URL API_TIMEOUT fetch w) as Hrun.
  rewrite isAuthenticated_run.
  destruct (truthy (storage w !! "refreshToken")) as [usable|] eqn:Htruthy.
  - destruct Hrun as (request & Hrun). rewrite Hrun in Hnull.
    apply truthy_Some in Htruthy as [Hstored _].
    split; [| intros Habsent; congruence].
    assert (storage w' = cleared (storage w)) as ->.
    { destruct (completion_of (fetch request)) as [[response|]|e];
        [discriminate | | ]; by injection Hnull as <-. }
    destruct (cleared_lookup (storage w)) as [-> ->]. reflexivity.
  - rewrite Hrun in Hnull. injection Hnull as <-.
    split; [| reflexivity].
    unfold ToBoolean at 2. rewrite Htruthy. by rewrite andb_false_r.
Qed.

(* ===================================================================== *)
(** ** The token-pair invariant *)
(* ===================================================================== *)

Lemma invariant_stored tokens s : token_pair_invariant (stored tokens s).
Proof.
  unfold token_pair_invariant.
  destruct (stored_lookup tokens s) as [-> ->]. split; eauto.
Qed.

Lemma invariant_cleared s : token_pair_invariant (cleared s).
Proof.
  unfold token_pair_invariant.
  destruct (cleared_lookup s) as [-> ->]. reflexivity.
Qed.

Lemma invariant_access_replaced accessToken s :
  is_Some (s !! "refreshToken") ->
  token_pair_invariant (<["accessToken" := accessToken]> s).
Proof.
  intros Hr. unfold token_pair_invariant.
  rewrite lookup_insert_eq, lookup_insert_ne by discriminate. split; eauto.
Qed.

Section Invariant.

Variable API_BASE_URL : string.
Variable API_TIMEOUT : Z.

Lemma sign_completion_invariant c request w :
  token_pair_invariant (storage w) ->
  token_pair_invariant (storage (snd (sign_completion c request w))).
Proof.
  intros Hinv. destruct c as [[response|]|e]; simpl; auto using invariant_stored.
Qed.

Lemma refreshToken_invariant fetch w :
  token_pair_invariant (storage w) ->
  token_pair_invariant
    (storage (snd (AuthService.refreshToken API_BASE_URL API_TIMEOUT fetch w))).
Proof.
  intros Hinv.
  pose proof (refreshToken_run API_BASE_URL API_TIMEOUT fetch w) as Hrun.
  destruct (truthy (storage w !! "refreshToken")) as [usable|] eqn:Htruthy.
  - destruct Hrun as (request & ->).
    apply truthy_Some in Htruthy as [Hstored _].
    destruct (completion_of (fetch request)) as [[response|]|e]; simpl;
      auto using invariant_cleared.
    apply invariant_access_replaced. eauto.
  - by rewrite Hrun.
Qed.

(** The three authenticated calls never write to the store. *)
Lemma authenticated_call_storage {T} (fetch : Request -> FetchOutcome T)
    endpoint (options : gmap string string -> RequestInit.t) w :
  storage
    (snd (bind AuthService.getAuthHeaders
            (fun authHeaders =>
               AuthService.makeRequest API_BASE_URL API_TIMEOUT fetch endpoint
                 (options authHeaders)) w))
  = storage w.
Proof.
  unfold bind.
  pose proof (getAuthHeaders_world w) as Hw.
  destruct (AuthService.getAuthHeaders w) as [[authHeaders|e] w1]; simpl in Hw; subst w1.
  - run_makeRequest request. reflexivity.
  - reflexivity.
Qed.

End Invariant.

(** C3. Every operation of the service, started in a world whose store
    satisfies the token-pair invariant, leaves a world whose store
    satisfies it. *)
Theorem token_pair_invariant_preserved
    (API_BASE_URL : string) (API_TIMEOUT : Z) (T : Type)
    (fetch_auth : Request -> FetchOutcome AuthResponse.t)
    (fetch_refresh : Request -> FetchOutcome RefreshPayload.t)
    (fetch : Request -> FetchOutcome T)
    (credentials : SignInRequest.t) (userData : SignUpRequest.t)
    (profileData : UpdateProfileRequest.t)
    (passwordData : ChangePasswordRequest.t) (w : World) :
  token_pair_invariant (storage w) ->
  token_pair_invariant
    (storage (snd (AuthService.signIn API_BASE_URL API_TIMEOUT fetch_auth credentials w))) /\
  token_pair_invariant
    (storage (snd (AuthService.signUp API_BASE_URL API_TIMEOUT fetch_auth userData w))) /\
  token_pair_invariant
    (storage (snd (AuthService.signOut API_BASE_URL API_TIMEOUT fetch w))) /\
  token_pair_invariant
    (storage (snd (AuthService.refreshToken API_BASE_URL API_TIMEOUT fetch_refresh w))) /\
  token_pair_invariant
    (storage (snd (AuthService.getCurrentUser API_BASE_URL API_TIMEOUT fetch w))) /\
  token_pair_invariant
    (storage (snd (AuthService.updateProfile API_BASE_URL API_TIMEOUT fetch profileData w))) /\
  token_pair_invariant
    (storage (snd (AuthService.changePassword API_BASE_URL API_TIMEOUT fetch passwordData w))) /\
  token_pair_invariant (storage (snd (AuthService.isAuthenticated w))).
Proof.
  intros Hinv.
  refine (conj _ (conj _ (conj _ (conj _ (conj _ (conj _ (conj _ _))))))).
  - destruct (signIn_run API_BASE_URL API_TIMEOUT fetch_auth credentials) as (request & ->).
    by apply sign_completion_invariant.
  - destruct (signUp_run API_BASE_URL API_TIMEOUT fetch_auth userData) as (request & ->).
    by apply sign_completion_invariant.
  - destruct (signOut_run API_BASE_URL API_TIMEOUT fetch w) as (log & -> & _).
    apply invariant_cleared.
  - by apply refreshToken_invariant.
  - unfold AuthService.getCurrentUser.
    by rewrite (authenticated_call_storage API_BASE_URL API_TIMEOUT fetch "/auth/me"
                  (fun authHeaders => _)).
  - unfold AuthService.updateProfile.
    by rewrite (authenticated_call_storage API_BASE_URL API_TIMEOUT fetch "/auth/profile"
                  (fun authHeaders => _)).
  - unfold AuthService.changePassword.
    by rewrite (authenticated_call_storage API_BASE_URL API_TIMEOUT fetch "/auth/change-password"
                  (fun authHeaders => _)).
  - exact Hinv.
Qed.

(* ===================================================================== *)
(** ** Request headers, and the status of an unreadable response *)
(* ===================================================================== *)

(** C5, as stated, fails: a 502 whose body is not JSON is reported with
    status 500, not with the 502 of the transport response. *)
Lemma makeRequest_502_without_json_reports_500 :
  exists (r : Response.t unit) e,
    answers 502 None get_request = Resolved r /\
    ~ (200 <= Response.status r <= 299) /\
    AuthService.makeRequest api_host 10000 (answers (T := unit) 502 None) "/auth/me" get_options session
      = (Throw (ThrownApiError e), after_request session get_request) /\
    ApiError.status e = 500 /\
    ApiError.status e <> Response.status r.
Proof.
  exists {| Response.status := 502; Response.json := None |},
         {| ApiError.message := "An unexpected error occurred";
            ApiError.status := 500; ApiError.errors := None |}.
  split; [reflexivity |]. split; [simpl; lia |].
  split; [vm_compute; reflexivity |]. split; [reflexivity | simpl; lia].
Qed.

(** C6 fails on the code. With both tokens stored, the one request of
    [signOut] and the one request of [getCurrentUser] are sent with the
    [Authorization] header only: the [headers] key of the options replaces
    the header object in which [makeRequest] put [Content-Type]. *)
Theorem signOut_getCurrentUser_lose_content_type :
  (exists request,
     sent (snd (AuthService.signOut api_host 10000
                  (answers (T := unit) 200 (Some (envelope success "Signed out" None)))
                  session)) = [request] /\
     url request = "https://api.example.com/auth/signout" /\
     RequestInit.headers (init request)
       = Some {[ "Authorization" := "Bearer access-1" ]} /\
     RequestInit.headers (init request) ≫= (fun h => h !! "Content-Type") = None) /\
  (exists request,
     sent (snd (AuthService.getCurrentUser api_host 10000
                  (answers 200 (Some (envelope success "OK" (Some (AuthResponse.user ada)))))
                  session)) = [request] /\
     url request = "https://api.example.com/auth/me" /\
     RequestInit.headers (init request)
       = Some {[ "Authorization" := "Bearer access-1" ]} /\
     RequestInit.headers (init request) ≫= (fun h => h !! "Content-Type") = None).
Proof.
  split; eexists; (split; [vm_compute; reflexivity |]);
    repeat split; vm_compute; reflexivity.
Qed.

(** The sibling calls do send it: [updateProfile] puts it into its own
    [headers], and [signIn] passes no [headers] key. *)
Lemma updateProfile_signIn_send_content_type :
  (exists request,
     sent (snd (AuthService.updateProfile api_host 10000
                  (answers 200 (Some (envelope success "OK" (Some (AuthResponse.user ada)))))
                  {| UpdateProfileRequest.name := Some "Ada L." |}
                  session)) = [request] /\
     RequestInit.headers (init request) ≫= (fun h => h !! "Content-Type")
       = Some "application/json" /\
     RequestInit.headers (init request) ≫= (fun h => h !! "Authorization")
       = Some "Bearer access-1") /\
  (exists request,
     sent (snd (AuthService.signIn api_host 10000
                  (answers 200 (Some (envelope success "OK" (Some ada))))
                  ada_credentials no_session)) = [request] /\
     RequestInit.headers (init request) ≫= (fun h => h !! "Content-Type")
       = Some "application/json").
Proof.
  split; eexists; (split; [vm_compute; reflexivity |]);
    repeat split; vm_compute; reflexivity.
Qed.

(* ===================================================================== *)
(** ** The theorems at concrete inputs *)
(* ===================================================================== *)

(** C1 on [session] with a transport that times out. *)
Lemma refreshToken_fails_closed_on_timeout :
  storage session !! "refreshToken" = Some "refresh-1" /\
  sent (snd (AuthService.refreshToken api_host 10000 times_out session))
    = (sent session ++ [refresh_request])%list /\
  failure_outcome (times_out (T := RefreshPayload.t) refresh_request) = true /\
  exists w',
    AuthService.refreshToken api_host 10000 times_out session = (Return None, w') /\
    storage w' !! "accessToken" = None /\
    storage w' !! "refreshToken" = None.
Proof.
  assert (H1 : storage session !! "refreshToken" = Some "refresh-1")
    by (vm_compute; reflexivity).
  assert (H2 : sent (snd (AuthService.refreshToken api_host 10000 times_out session))
               = (sent session ++ [refresh_request])%list)
    by (vm_compute; reflexivity).
  assert (H3 : failure_outcome (times_out (T := RefreshPayload.t) refresh_request) = true)
    by reflexivity.
  exact (conj H1 (conj H2 (conj H3
    (refreshToken_fails_closed api_host 10000 times_out session
       "refresh-1" refresh_request H1 H2 H3)))).
Defined.

(** C3 on [session]. *)
Lemma token_pair_invariant_preserved_on_session :
  token_pair_invariant (storage session) /\
  (token_pair_invariant
     (storage (snd (AuthService.signIn api_host 10000 accepts_ada ada_credentials session))) /\
   token_pair_invariant
     (storage (snd (AuthService.signUp api_host 10000 accepts_ada ada_userData session))) /\
   token_pair_invariant
     (storage (snd (AuthService.signOut api_host 10000 (times_out (T := unit)) session))) /\
   token_pair_invariant
     (storage (snd (AuthService.refreshToken api_host 10000 refreshes session))) /\
   token_pair_invariant
     (storage (snd (AuthService.getCurrentUser api_host 10000 (times_out (T := unit)) session))) /\
   token_pair_invariant
     (storage (snd (AuthService.updateProfile api_host 10000 (times_out (T := unit))
                      {| UpdateProfileRequest.name := Some "Ada L." |} session))) /\
   token_pair_invariant
     (storage (snd (AuthService.changePassword api_host 10000 (times_out (T := unit))
                      {| ChangePasswordRequest.currentPassword := "secret";
                         ChangePasswordRequest.newPassword := "secret-2" |} session))) /\
   token_pair_invariant (storage (snd (AuthService.isAuthenticated session)))).
Proof.
  assert (H : token_pair_invariant (storage session)).
  { unfold token_pair_invariant.
    split; intros _; eexists; vm_compute; reflexivity. }
  exact (conj H (token_pair_invariant_preserved api_host 10000 unit accepts_ada
                   refreshes times_out ada_credentials ada_userData
                   {| UpdateProfileRequest.name := Some "Ada L." |}
                   {| ChangePasswordRequest.currentPassword := "secret";
                      ChangePasswordRequest.newPassword := "secret-2" |}
                   session H)).
Defined.

(** C4 on a 200 response with an error envelope. *)
Lemma makeRequest_error_envelope_at_200 :
  sent (snd (AuthService.makeRequest api_host 10000 says_error_at_200
               "/auth/me" get_options session))
    = (sent session ++ [get_request])%list /\
  says_error_at_200 get_request = Resolved error_at_200 /\
  200 <= Response.status error_at_200 <= 299 /\
  Response.json error_at_200 = Some (envelope error "Invalid credentials" None) /\
  ApiResponse.status (envelope (T := unit) error "Invalid credentials" None) = error /\
  AuthService.makeRequest api_host 10000 says_error_at_200 "/auth/me" get_options session =
  (Throw (ThrownApiError
            {| ApiError.message := "Invalid credentials";
               ApiError.status := 200;
               ApiError.errors := None |}),
   after_request session get_request).
Proof.
  assert (H1 : sent (snd (AuthService.makeRequest api_host 10000 says_error_at_200
                            "/auth/me" get_options session))
               = (sent session ++ [get_request])%list)
    by (vm_compute; reflexivity).
  assert (H2 : says_error_at_200 get_request = Resolved error_at_200) by reflexivity.
  assert (H3 : 200 <= Response.status error_at_200 <= 299) by (simpl; lia).
  assert (H4 : Response.json error_at_200 = Some (envelope error "Invalid credentials" None))
    by reflexivity.
  assert (H5 : ApiResponse.status (envelope (T := unit) error "Invalid credentials" None)
               = error) by reflexivity.
  exact (conj H1 (conj H2 (conj H3 (conj H4 (conj H5
    (makeRequest_error_envelope_2xx api_host 10000 unit says_error_at_200
       "/auth/me" get_options session get_request error_at_200
       (envelope error "Invalid credentials" None) H1 H2 H3 H4 H5)))))).
Defined.

(** C5, amended, on a 404 response whose body is an envelope. *)
Lemma makeRequest_404_keeps_status :
  sent (snd (AuthService.makeRequest api_host 10000 says_not_found
               "/auth/me" get_options session))
    = (sent session ++ [get_request])%list /\
  says_not_found get_request = Resolved not_found /\
  ~ (200 <= Response.status not_found <= 299) /\
  exists e,
    AuthService.makeRequest api_host 10000 says_not_found "/auth/me" get_options session =
    (Throw (ThrownApiError e), after_request session get_request) /\
    ApiError.status e =
    match Response.json not_found with
    | Some _ => Response.status not_found
    | None => 500
    end.
Proof.
  assert (H1 : sent (snd (AuthService.makeRequest api_host 10000 says_not_found
                            "/auth/me" get_options session))
               = (sent session ++ [get_request])%list)
    by (vm_compute; reflexivity).
  assert (H2 : says_not_found get_request = Resolved not_found) by reflexivity.
  assert (H3 : ~ (200 <= Response.status not_found <= 299)) by (simpl; lia).
  exact (conj H1 (conj H2 (conj H3
    (makeRequest_status_outside_2xx api_host 10000 unit says_not_found
       "/auth/me" get_options session get_request not_found H1 H2 H3)))).
Defined.

(** C7 on a fresh device. *)
Lemma authenticated_calls_on_fresh_device :
  storage no_session !! "accessToken" = None /\
  (ApiError.status no_access_token = 401 /\
   AuthService.getCurrentUser api_host 10000 (times_out (T := unit)) no_session
     = (Throw (ThrownApiError no_access_token), no_session) /\
   AuthService.updateProfile api_host 10000 (times_out (T := unit))
     {| UpdateProfileRequest.name := Some "Ada L." |} no_session
     = (Throw (ThrownApiError no_access_token), no_session) /\
   AuthService.changePassword api_host 10000 (times_out (T := unit))
     {| ChangePasswordRequest.currentPassword := "secret";
        ChangePasswordRequest.newPassword := "secret-2" |} no_session
     = (Throw (ThrownApiError no_access_token), no_session)).
Proof.
  assert (H : storage no_session !! "accessToken" = None) by (vm_compute; reflexivity).
  exact (conj H (authenticated_calls_without_access_token api_host 10000 unit times_out
                   {| UpdateProfileRequest.name := Some "Ada L." |}
                   {| ChangePasswordRequest.currentPassword := "secret";
                      ChangePasswordRequest.newPassword := "secret-2" |}
                   no_session H)).
Defined.

(** C10 on [session] with a transport that times out. *)
Lemma refreshToken_null_after_timeout :
  AuthService.refreshToken api_host 10000 times_out session
    = (Return None, {| storage := ∅; sent := [refresh_request] |}) /\
  (AuthService.isAuthenticated {| storage := ∅; sent := [refresh_request] |}
     = (Return false, {| storage := ∅; sent := [refresh_request] |}) /\
   (storage session !! "refreshToken" = None ->
    {| storage := ∅; sent := [refresh_request] |} = session)).
Proof.
  assert (H : AuthService.refreshToken api_host 10000 times_out session
              = (Return None, {| storage := ∅; sent := [refresh_request] |}))
    by (vm_compute; reflexivity).
  exact (conj H (refreshToken_null_not_authenticated api_host 10000 times_out
                   session {| storage := ∅; sent := [refresh_request] |} H)).
Defined.

Lemma makeRequest_request base t {T} (fetch : Request -> FetchOutcome T) endpoint options w :
  AuthService.makeRequest base t fetch endpoint options w =
  (completion_of (fetch (request_of base t endpoint options)),
   after_request w (request_of base t endpoint options)).
Proof.
  assert (Hreq :
    {| url := base ++ endpoint;
       init :=
         spread_init
           {| RequestInit.method := None;
              RequestInit.headers :=
                Some (spread_headers {[ "Content-Type" := "application/json" ]}
                        (RequestInit.headers options));
              RequestInit.body := None;
              RequestInit.signal := Some (controller_signal t) |}
           options |} = request_of base t endpoint options).
  { unfold request_of, spread_init, override. simpl.
    destruct options as [m h b s]; simpl.
    destruct m, h, b, s; reflexivity. }
  unfold AuthService.makeRequest, try_catch, bind, await_fetch.
  rewrite Hreq.
  unfold response_json, completion_of, normalise, after_request.
  destruct (fetch _) as [r0|e0].
  - destruct (Response.json r0) as [env|]; simpl; [| reflexivity].
    destruct (Response.ok r0); simpl; [| reflexivity].
    destruct (String.eqb _ _); reflexivity.
  - simpl. destruct (String.eqb _ _); [reflexivity |].
    destruct (_ && _); reflexivity.
Qed.

(* ---------- run lemmas with the explicit request ---------- *)

Lemma getAuthHeaders_run w :
  AuthService.getAuthHeaders w =
  match truthy (storage w !! "accessToken") with
  | Some accessToken => (Return (bearer accessToken), w)
  | None => (Throw (ThrownApiError no_access_token), w)
  end.
Proof.
  unfold AuthService.getAuthHeaders, bind, AsyncStorage.getItem.
  destruct (truthy _); reflexivity.
Qed.

Section Runs.
Variable API_BASE_URL : string.
Variable API_TIMEOUT : Z.

Lemma getCurrentUser_run {T} (fetch : Request -> FetchOutcome T) w :
  AuthService.getCurrentUser API_BASE_URL API_TIMEOUT fetch w =
  match truthy (storage w !! "accessToken") with
  | Some accessToken =>
      let request :=
        request_of API_BASE_URL API_TIMEOUT "/auth/me"
          (auth_options "GET" (bearer accessToken) false None) in
      (completion_of (fetch request), after_request w request)
  | None => (Throw (ThrownApiError no_access_token), w)
  end.
Proof.
  unfold AuthService.getCurrentUser, bind. rewrite getAuthHeaders_run.
  destruct (truthy _); [| reflexivity].
  by rewrite makeRequest_request.
Qed.

Lemma updateProfile_run {T} (fetch : Request -> FetchOutcome T) profileData w :
  AuthService.updateProfile API_BASE_URL API_TIMEOUT fetch profileData w =
  match truthy (storage w !! "accessToken") with
  | Some accessToken =>
      let request :=
        request_of API_BASE_URL API_TIMEOUT "/auth/profile"
          (auth_options "PUT" (bearer accessToken) true
             (Some (JSON_stringify_profileData profileData))) in
      (completion_of (fetch request), after_request w request)
  | None => (Throw (ThrownApiError no_access_token), w)
  end.
Proof.
  unfold AuthService.updateProfile, bind. rewrite getAuthHeaders_run.
  destruct (truthy _); [| reflexivity].
  by rewrite makeRequest_request.
Qed.

Lemma changePassword_run {T} (fetch : Request -> FetchOutcome T) passwordData w :
  AuthService.changePassword API_BASE_URL API_TIMEOUT fetch passwordData w =
  match truthy (storage w !! "accessToken") with
  | Some accessToken =>
      let request :=
        request_of API_BASE_URL API_TIMEOUT "/auth/change-password"
          (auth_options "PUT" (bearer accessToken) true
             (Some (JSON_stringify_passwordData passwordData))) in
      (completion_of (fetch request), after_request w request)
  | None => (Throw (ThrownApiError no_access_token), w)
  end.
Proof.
  unfold AuthService.changePassword, bind. rewrite getAuthHeaders_run.
  destruct (truthy _); [| reflexivity].
  by rewrite makeRequest_request.
Qed.

Lemma signIn_request fetch credentials w :
  AuthService.signIn API_BASE_URL API_TIMEOUT fetch credentials w =
  let request :=
    request_of API_BASE_URL API_TIMEOUT "/auth/signin"
      (post_options (JSON_stringify_credentials credentials)) in
  sign_completion (completion_of (fetch request)) request w.
Proof.
  unfold AuthService.signIn, bind. rewrite makeRequest_request. simpl.
  unfold sign_completion.
  destruct (completion_of _) as [[response|]|e]; reflexivity.
Qed.

Lemma signUp_request fetch userData w :
  AuthService.signUp API_BASE_URL API_TIMEOUT fetch userData w =
  let request :=
    request_of API_BASE_URL API_TIMEOUT "/auth/signup"
      (post_options (JSON_stringify_userData userData)) in
  sign_completion (completion_of (fetch request)) request w.
Proof.
  unfold AuthService.signUp, bind. rewrite makeRequest_request. simpl.
  unfold sign_completion.
  destruct (completion_of _) as [[response|]|e]; reflexivity.
Qed.

Lemma refreshToken_request fetch w :
  AuthService.refreshToken API_BASE_URL API_TIMEOUT fetch w =
  match truthy (storage w !! "refreshToken") with
  | None => (Return None, w)
  | Some refreshToken =>
      let request :=
        request_of API_BASE_URL API_TIMEOUT "/auth/refresh-token"
          (post_options (JSON_stringify_refreshToken refreshToken)) in
      match completion_of (fetch request) with
      | Return (Some response) =>
          (Return (Some (RefreshPayload.accessToken response)),
           {| storage := <["accessToken" := RefreshPayload.accessToken response]> (storage w);
              sent := (sent w ++ [request])%list |})
      | _ =>
          (Return None,
           {| storage := cleared (storage w); sent := (sent w ++ [request])%list |})
      end
  end.
Proof.
  unfold AuthService.refreshToken, try_catch, bind. simpl.
  destruct (truthy (storage w !! "refreshToken")) as [token|]; simpl; [| reflexivity].
  rewrite makeRequest_request.
  destruct (completion_of _) as [[response|]|e]; reflexivity.
Qed.

Lemma signOut_request {T} (fetch : Request -> FetchOutcome T) w :
  AuthService.signOut API_BASE_URL API_TIMEOUT fetch w =
  (Return tt,
   {| storage := cleared (storage w);
      sent :=
        match truthy (storage w !! "refreshToken"), truthy (storage w !! "accessToken") with
        | Some refreshToken, Some accessToken =>
            (sent w ++
             [request_of API_BASE_URL API_TIMEOUT "/auth/signout"
                {| RequestInit.method := Some "POST";
                   RequestInit.headers := Some (bearer accessToken);
                   RequestInit.body := Some (JSON_stringify_refreshToken refreshToken);
                   RequestInit.signal := None |}])%list
        | _, _ => sent w
        end |}).
Proof.
  unfold AuthService.signOut, try_finally, try_catch, bind. simpl.
  destruct (truthy (storage w !! "refreshToken")) as [token|]; simpl; [| reflexivity].
  rewrite getAuthHeaders_run.
  destruct (truthy (storage w !! "accessToken")) as [access|]; simpl; [| reflexivity].
  rewrite makeRequest_request.
  destruct (completion_of _); reflexivity.
Qed.

End Runs.

(* ---------- sign-in and sign-up ---------- *)

Lemma open_session_run API_BASE_URL API_TIMEOUT fetch call w :
  open_session API_BASE_URL API_TIMEOUT fetch call w =
  sign_completion
    (completion_of (fetch (session_request API_BASE_URL API_TIMEOUT call)))
    (session_request API_BASE_URL API_TIMEOUT call) w.
Proof.
  destruct call as [credentials|userData]; simpl.
  - apply signIn_request.
  - apply signUp_request.
Qed.

(** The test [data.status === 'error'] fails exactly on the other texts. *)
Lemma status_is_not_error {T} (env : ApiResponse.t T) :
  String.eqb (ApiResponse.status env) "error" = false <->
  ApiResponse.status env <> error.
Proof. apply String.eqb_neq. Qed.

(** C2. When the server answers the request of [signIn] or of [signUp]
    with a 2xx status and an envelope that does not say ["error"] and
    carries a payload, the call returns that payload (user and tokens) to
    the caller, and afterwards the store holds both tokens of the payload,
    whatever pair it held before. The other entries of the store are as
    before, and that request is the only one issued. *)
Theorem sign_in_up_stores_server_tokens
    (API_BASE_URL : string) (API_TIMEOUT : Z)
    (fetch : Request -> FetchOutcome AuthResponse.t)
    (call : SessionCall) (w : World)
    (r : Response.t AuthResponse.t) (env : ApiResponse.t AuthResponse.t)
    (payload : AuthResponse.t) :
  fetch (session_request API_BASE_URL API_TIMEOUT call) = Resolved r ->
  200 <= Response.status r <= 299 ->
  Response.json r = Some env ->
  ApiResponse.status env <> error ->
  ApiResponse.data env = Some payload ->
  exists w',
    open_session API_BASE_URL API_TIMEOUT fetch call w = (Return payload, w') /\
    storage w' !! "accessToken"
      = Some (AuthTokens.accessToken (AuthResponse.tokens payload)) /\
    storage w' !! "refreshToken"
      = Some (AuthTokens.refreshToken (AuthResponse.tokens payload)) /\
    (forall key, key <> "accessToken" -> key <> "refreshToken" ->
                 storage w' !! key = storage w !! key) /\
    sent w' = (sent w ++ [session_request API_BASE_URL API_TIMEOUT call])%list.
Proof.
  intros Hfetch Hok Hjson Hstatus Hdata.
  apply ok_iff_2xx in Hok. apply status_is_not_error in Hstatus.
  rewrite open_session_run. unfold completion_of.
  rewrite Hfetch, Hjson, Hok, Hstatus, Hdata. unfold sign_completion.
  eexists; split; [reflexivity |]. simpl.
  destruct (stored_lookup (AuthResponse.tokens payload) (storage w)) as [Ha Hr].
  split; [exact Ha | split; [exact Hr | split; [| reflexivity]]].
  intros key Hna Hnr. unfold stored.
  rewrite !lookup_insert_ne by congruence. reflexivity.
Qed.

(** C2 at a sign-in on a signed-in device, whose pair is replaced, and at
    a sign-up on a fresh device. *)
Lemma sign_in_up_store_ada_tokens :
  (accepts_ada (session_request api_host 10000 (SignIn ada_credentials))
     = Resolved ada_answer /\
   200 <= Response.status ada_answer <= 299 /\
   Response.json ada_answer = Some (envelope success "Signed in" (Some ada)) /\
   ApiResponse.status (envelope success "Signed in" (Some ada)) <> error /\
   ApiResponse.data (envelope success "Signed in" (Some ada)) = Some ada /\
   exists w',
     open_session api_host 10000 accepts_ada (SignIn ada_credentials) session
       = (Return ada, w') /\
     storage w' !! "accessToken"
       = Some (AuthTokens.accessToken (AuthResponse.tokens ada)) /\
     storage w' !! "refreshToken"
       = Some (AuthTokens.refreshToken (AuthResponse.tokens ada)) /\
     (forall key, key <> "accessToken" -> key <> "refreshToken" ->
                  storage w' !! key = storage session !! key) /\
     sent w'
       = (sent session
            ++ [session_request api_host 10000 (SignIn ada_credentials)])%list) /\
  (accepts_ada (session_request api_host 10000 (SignUp ada_userData))
     = Resolved ada_answer /\
   exists w',
     open_session api_host 10000 accepts_ada (SignUp ada_userData) no_session
       = (Return ada, w') /\
     storage w' !! "accessToken"
       = Some (AuthTokens.accessToken (AuthResponse.tokens ada)) /\
     storage w' !! "refreshToken"
       = Some (AuthTokens.refreshToken (AuthResponse.tokens ada)) /\
     (forall key, key <> "accessToken" -> key <> "refreshToken" ->
                  storage w' !! key = storage no_session !! key) /\
     sent w'
       = (sent no_session
            ++ [session_request api_host 10000 (SignUp ada_userData)])%list).
Proof.
  assert (H1 : accepts_ada (session_request api_host 10000 (SignIn ada_credentials))
               = Resolved ada_answer) by reflexivity.
  assert (H1' : accepts_ada (session_request api_host 10000 (SignUp ada_userData))
                = Resolved ada_answer) by reflexivity.
  assert (H2 : 200 <= Response.status ada_answer <= 299) by (simpl; lia).
  assert (H3 : Response.json ada_answer = Some (envelope success "Signed in" (Some ada)))
    by reflexivity.
  assert (H4 : ApiResponse.status (envelope success "Signed in" (Some ada)) <> error)
    by discriminate.
  assert (H5 : ApiResponse.data (envelope success "Signed in" (Some ada)) = Some ada)
    by reflexivity.
  exact
    (conj
       (conj H1 (conj H2 (conj H3 (conj H4 (conj H5
          (sign_in_up_stores_server_tokens api_host 10000 accepts_ada
             (SignIn ada_credentials) session ada_answer
             (envelope success "Signed in" (Some ada)) ada H1 H2 H3 H4 H5))))))
       (conj H1'
          (sign_in_up_stores_server_tokens api_host 10000 accepts_ada
             (SignUp ada_userData) no_session ada_answer
             (envelope success "Signed in" (Some ada)) ada H1' H2 H3 H4 H5))).
Defined.

(* ---------- further properties of the service ---------- *)

(** X1. Whatever the transport does, [makeRequest] leaves the store as it is
    and hands exactly one request to the transport: to the base URL
    followed by the endpoint, with the method and the body of the
    options. *)
Theorem makeRequest_store_untouched_one_request
    (API_BASE_URL : string) (API_TIMEOUT : Z) (T : Type)
    (fetch : Request -> FetchOutcome T)
    (endpoint : string) (options : RequestInit.t) (w : World) :
  storage (snd (AuthService.makeRequest API_BASE_URL API_TIMEOUT fetch endpoint options w))
    = storage w /\
  exists request,
    sent (snd (AuthService.makeRequest API_BASE_URL API_TIMEOUT fetch endpoint options w))
      = (sent w ++ [request])%list /\
    url request = API_BASE_URL ++ endpoint /\
    RequestInit.method (init request) = RequestInit.method options /\
    RequestInit.body (init request) = RequestInit.body options.
Proof.
  rewrite makeRequest_request. split; [reflexivity |].
  eexists; split; [reflexivity |]. auto.
Qed.

(** X2. [makeRequest] returns [d] exactly when the transport answers the request
    with a 2xx status and an envelope whose status is not ["error"] and
    whose [data] is [d]; the status need not be ["success"]. *)
Theorem makeRequest_returns_iff
    (API_BASE_URL : string) (API_TIMEOUT : Z) (T : Type)
    (fetch : Request -> FetchOutcome T)
    (endpoint : string) (options : RequestInit.t) (w : World)
    (request : Request) (d : option T) :
  sent (snd (AuthService.makeRequest API_BASE_URL API_TIMEOUT fetch endpoint options w))
    = (sent w ++ [request])%list ->
  (fst (AuthService.makeRequest API_BASE_URL API_TIMEOUT fetch endpoint options w) = Return d
   <->
   exists r env,
     fetch request = Resolved r /\
     200 <= Response.status r <= 299 /\
     Response.json r = Some env /\
     ApiResponse.status env <> error /\
     ApiResponse.data env = d).
Proof.
  intros Hsent. rewrite (makeRequest_cases _ _ _ _ _ _ _ Hsent). simpl.
  unfold completion_of. split.
  - destruct (fetch request) as [r|e]; [| discriminate].
    destruct (Response.json r) as [env|] eqn:Hjson; [| discriminate].
    destruct (Response.ok r) eqn:Hok; [| discriminate].
    destruct (String.eqb _ _) eqn:Hst; [discriminate |].
    intros [= <-]. exists r, env. apply ok_iff_2xx in Hok.
    apply status_is_not_error in Hst. auto.
  - intros (r & env & -> & Hok & -> & Hst & <-).
    apply ok_iff_2xx in Hok. apply status_is_not_error in Hst.
    by rewrite Hok, Hst.
Qed.

(** X3. When the transport rejects the request, [makeRequest] throws an
    [ApiError] without field errors. An [AbortError] gives status 408 and
    ["Request timeout"], whatever else the rejection is; any other
    rejection gives status 0 exactly when it is a [TypeError] whose message
    contains ["Failed to fetch"], and status 500 otherwise. *)
Theorem makeRequest_rejection_status
    (API_BASE_URL : string) (API_TIMEOUT : Z) (T : Type)
    (fetch : Request -> FetchOutcome T)
    (endpoint : string) (options : RequestInit.t) (w : World)
    (request : Request) (e : JsError.t) :
  sent (snd (AuthService.makeRequest API_BASE_URL API_TIMEOUT fetch endpoint options w))
    = (sent w ++ [request])%list ->
  fetch request = Rejected e ->
  exists a,
    fst (AuthService.makeRequest API_BASE_URL API_TIMEOUT fetch endpoint options w)
      = Throw (ThrownApiError a) /\
    ApiError.errors a = None /\
    (JsError.name e = "AbortError" ->
     ApiError.status a = 408 /\ ApiError.message a = "Request timeout") /\
    (JsError.name e <> "AbortError" ->
     (ApiError.status a = 0 \/ ApiError.status a = 500) /\
     (ApiError.status a = 0 <->
      JsError.instanceof_TypeError e = true /\
      includes "Failed to fetch" (JsError.message e) = true)).
Proof.
  intros Hsent Hfetch. rewrite (makeRequest_cases _ _ _ _ _ _ _ Hsent). simpl.
  unfold completion_of. rewrite Hfetch. eexists; split; [reflexivity |].
  unfold normalise.
  destruct (String.eqb_spec (JsError.name e) "AbortError") as [Hname|Hname].
  - simpl. repeat split; auto; contradiction.
  - destruct (JsError.instanceof_TypeError e && includes "Failed to fetch" (JsError.message e))
      eqn:Hnet; simpl.
    + apply andb_true_iff in Hnet. repeat split; auto; try contradiction; tauto.
    + apply andb_false_iff in Hnet.
      split; [reflexivity |]. split; [intros; contradiction |]. intros _.
      split; [by right |]. split; [discriminate |].
      intros [H1 H2]. destruct Hnet; congruence.
Qed.

(** X4. When [signIn] or [signUp] throws, the store is as before the call and
    the one request of the call has been issued. What is thrown is the
    [ApiError] of a failing exchange, or the [TypeError] of reading
    [tokens] when the server answered with a 2xx status and an envelope
    that does not say ["error"] and carries no [data]. *)
Theorem sign_in_up_failure_keeps_store
    (API_BASE_URL : string) (API_TIMEOUT : Z)
    (fetch : Request -> FetchOutcome AuthResponse.t)
    (call : SessionCall) (w w' : World) (thrown : Thrown) :
  open_session API_BASE_URL API_TIMEOUT fetch call w = (Throw thrown, w') ->
  storage w' = storage w /\
  sent w' = (sent w ++ [session_request API_BASE_URL API_TIMEOUT call])%list /\
  ((exists a,
      thrown = ThrownApiError a /\
      failure_outcome (fetch (session_request API_BASE_URL API_TIMEOUT call)) = true) \/
   (thrown = undefined_property "tokens" /\
    exists r env,
      fetch (session_request API_BASE_URL API_TIMEOUT call) = Resolved r /\
      200 <= Response.status r <= 299 /\
      Response.json r = Some env /\
      ApiResponse.status env <> error /\
      ApiResponse.data env = None)).
Proof.
  rewrite open_session_run.
  set (request := session_request API_BASE_URL API_TIMEOUT call).
  unfold sign_completion. intros Hrun.
  destruct (completion_of (fetch request)) as [[response|]|e] eqn:Hc;
    [discriminate | |]; injection Hrun as <- <-.
  - split; [reflexivity |]. split; [reflexivity |]. right.
    split; [reflexivity |]. unfold completion_of in Hc.
    destruct (fetch request) as [r|e]; [| discriminate].
    destruct (Response.json r) as [env|] eqn:Hjson; [| discriminate].
    destruct (Response.ok r) eqn:Hok; [| discriminate].
    destruct (String.eqb _ _) eqn:Hst; [discriminate |].
    injection Hc as Hdata. exists r, env.
    apply ok_iff_2xx in Hok. apply status_is_not_error in Hst. auto.
  - split; [reflexivity |]. split; [reflexivity |]. left.
    assert (exists a, completion_of (fetch request) = Throw (ThrownApiError a)) as (a & Ha).
    { unfold completion_of in *.
      destruct (fetch request) as [r|e0]; [| eauto].
      destruct (Response.json r) as [env|]; [| eauto].
      destruct (Response.ok r); [| eauto].
      destruct (String.eqb _ _); [eauto | discriminate]. }
    exists a. split; [congruence |]. apply failure_outcome_throws. eauto.
Qed.

(** X5. With no refresh token in the store, or an empty one, [refreshToken]
    returns [null] and leaves the world as it is: no request, and a stored
    access token stays. *)
Theorem refreshToken_without_token_is_noop
    (API_BASE_URL : string) (API_TIMEOUT : Z)
    (fetch : Request -> FetchOutcome RefreshPayload.t) (w : World) :
  storage w !! "refreshToken" = None \/ storage w !! "refreshToken" = Some "" ->
  AuthService.refreshToken API_BASE_URL API_TIMEOUT fetch w = (Return None, w).
Proof.
  intros H. rewrite refreshToken_request.
  assert (truthy (storage w !! "refreshToken") = None) as ->; [| reflexivity].
  destruct H as [-> | ->]; reflexivity.
Qed.

(** X6. Whenever [refreshToken] returns a token, a non-empty refresh token was
    stored and was sent by [POST] to [/auth/refresh-token], the server
    answered with a 2xx status and an envelope that does not say
    ["error"] and whose payload carries that token, and the store differs
    from the one before only in that the access token is now that
    token. *)
Theorem refreshToken_returned_token
    (API_BASE_URL : string) (API_TIMEOUT : Z)
    (fetch : Request -> FetchOutcome RefreshPayload.t) (w w' : World)
    (accessToken : string) :
  AuthService.refreshToken API_BASE_URL API_TIMEOUT fetch w
    = (Return (Some accessToken), w') ->
  storage w' = <["accessToken" := accessToken]> (storage w) /\
  exists refreshToken request r env,
    storage w !! "refreshToken" = Some refreshToken /\ refreshToken <> "" /\
    sent w' = (sent w ++ [request])%list /\
    url request = API_BASE_URL ++ "/auth/refresh-token" /\
    RequestInit.method (init request) = Some "POST" /\
    RequestInit.body (init request) = Some (JSON_stringify_refreshToken refreshToken) /\
    fetch request = Resolved r /\
    200 <= Response.status r <= 299 /\
    Response.json r = Some env /\
    ApiResponse.status env <> error /\
    ApiResponse.data env = Some {| RefreshPayload.accessToken := accessToken |}.
Proof.
  rewrite refreshToken_request. intros Hrun.
  destruct (truthy (storage w !! "refreshToken")) as [token|] eqn:Htruthy; [| discriminate].
  apply truthy_Some in Htruthy as [Hstored Hne]. cbv zeta in Hrun.
  set (request := request_of _ _ _ _) in *.
  unfold completion_of in Hrun.
  destruct (fetch request) as [r|e] eqn:Hfetch; [| discriminate].
  destruct (Response.json r) as [env|] eqn:Hjson; [| discriminate].
  destruct (Response.ok r) eqn:Hok; [| discriminate].
  destruct (String.eqb _ _) eqn:Hst; [discriminate |].
  apply status_is_not_error in Hst.
  destruct (ApiResponse.data env) as [[a]|] eqn:Hdata; [| discriminate].
  simpl in Hrun. injection Hrun as -> <-. split; [reflexivity |].
  exists token, request, r, env. apply ok_iff_2xx in Hok.
  repeat split; auto; apply Hok.
Qed.

(** X7. [refreshToken] never throws: in every world and for every transport it
    returns a token or [null]. *)
Theorem refreshToken_never_throws
    (API_BASE_URL : string) (API_TIMEOUT : Z)
    (fetch : Request -> FetchOutcome RefreshPayload.t) (w : World) :
  exists result w',
    AuthService.refreshToken API_BASE_URL API_TIMEOUT fetch w = (Return result, w').
Proof.
  rewrite refreshToken_request.
  destruct (truthy _); [| eauto].
  cbv zeta. destruct (completion_of _) as [[response|]|e]; eauto.
Qed.

(** X8. With a non-empty access token in the store, [getCurrentUser],
    [updateProfile] and [changePassword] each leave the store as it is and
    issue one request, to their endpoint and with their method and body,
    whose [Authorization] header is ["Bearer "] followed by the token; the
    two [PUT] requests carry [Content-Type] as well, the [GET] request
    carries [Authorization] only. *)
Theorem authenticated_calls_send_bearer
    (API_BASE_URL : string) (API_TIMEOUT : Z) (T : Type)
    (fetch : Request -> FetchOutcome T)
    (profileData : UpdateProfileRequest.t)
    (passwordData : ChangePasswordRequest.t) (w : World) (accessToken : string) :
  storage w !! "accessToken" = Some accessToken -> accessToken <> "" ->
  (exists request,
     snd (AuthService.getCurrentUser API_BASE_URL API_TIMEOUT fetch w)
       = after_request w request /\
     url request = API_BASE_URL ++ "/auth/me" /\
     RequestInit.method (init request) = Some "GET" /\
     RequestInit.body (init request) = None /\
     RequestInit.headers (init request)
       = Some {[ "Authorization" := "Bearer " ++ accessToken ]}) /\
  (exists request,
     snd (AuthService.updateProfile API_BASE_URL API_TIMEOUT fetch profileData w)
       = after_request w request /\
     url request = API_BASE_URL ++ "/auth/profile" /\
     RequestInit.method (init request) = Some "PUT" /\
     RequestInit.body (init request) = Some (JSON_stringify_profileData profileData) /\
     RequestInit.headers (init request)
       = Some {[ "Authorization" := "Bearer " ++ accessToken;
                 "Content-Type" := "application/json" ]}) /\
  (exists request,
     snd (AuthService.changePassword API_BASE_URL API_TIMEOUT fetch passwordData w)
       = after_request w request /\
     url request = API_BASE_URL ++ "/auth/change-password" /\
     RequestInit.method (init request) = Some "PUT" /\
     RequestInit.body (init request) = Some (JSON_stringify_passwordData passwordData) /\
     RequestInit.headers (init request)
       = Some {[ "Authorization" := "Bearer " ++ accessToken;
                 "Content-Type" := "application/json" ]}).
Proof.
  intros Hstored Hne.
  assert (Htruthy : truthy (storage w !! "accessToken") = Some accessToken)
    by (by apply truthy_Some).
  rewrite getCurrentUser_run, updateProfile_run, changePassword_run, Htruthy.
  assert (Hunion : bearer accessToken ∪ {[ "Content-Type" := "application/json" ]}
                   = ({[ "Authorization" := "Bearer " ++ accessToken;
                         "Content-Type" := "application/json" ]} : gmap string string)).
  { unfold bearer. by rewrite <- insert_union_singleton_l. }
  repeat split; eexists; (split; [reflexivity |]); simpl; rewrite ?Hunion; auto.
Qed.

(** X9. With a non-empty refresh token and a non-empty access token in the
    store, [signOut] issues one request: a [POST] to [/auth/signout] whose
    body is the refresh token and whose only header is the bearer
    [Authorization]. *)
Theorem signOut_server_call
    (API_BASE_URL : string) (API_TIMEOUT : Z) (T : Type)
    (fetch : Request -> FetchOutcome T) (w : World)
    (refreshToken accessToken : string) :
  storage w !! "refreshToken" = Some refreshToken -> refreshToken <> "" ->
  storage w !! "accessToken" = Some accessToken -> accessToken <> "" ->
  exists request,
    sent (snd (AuthService.signOut API_BASE_URL API_TIMEOUT fetch w))
      = (sent w ++ [request])%list /\
    url request = API_BASE_URL ++ "/auth/signout" /\
    RequestInit.method (init request) = Some "POST" /\
    RequestInit.body (init request) = Some (JSON_stringify_refreshToken refreshToken) /\
    RequestInit.headers (init request)
      = Some {[ "Authorization" := "Bearer " ++ accessToken ]}.
Proof.
  intros Ht Htne Ha Hane. rewrite signOut_request. simpl.
  assert (truthy (storage w !! "refreshToken") = Some refreshToken) as ->
    by (by apply truthy_Some).
  assert (truthy (storage w !! "accessToken") = Some accessToken) as ->
    by (by apply truthy_Some).
  eexists; split; [reflexivity |]. auto.
Qed.

(** X10. When the refresh token or the access token is missing or empty,
    [signOut] issues no request (a stored refresh token is then not
    reported to the server); it returns with both entries removed. *)
Theorem signOut_skips_server_call
    (API_BASE_URL : string) (API_TIMEOUT : Z) (T : Type)
    (fetch : Request -> FetchOutcome T) (w : World) :
  storage w !! "refreshToken" = None \/ storage w !! "refreshToken" = Some "" \/
  storage w !! "accessToken" = None \/ storage w !! "accessToken" = Some "" ->
  AuthService.signOut API_BASE_URL API_TIMEOUT fetch w =
  (Return tt, {| storage := delete "refreshToken" (delete "accessToken" (storage w));
                 sent := sent w |}).
Proof.
  rewrite signOut_request.
  intros [-> | [-> | [-> | ->]]]; simpl; try reflexivity;
    by destruct (truthy _).
Qed.

Lemma cleared_other s key :
  key <> "accessToken" -> key <> "refreshToken" -> cleared s !! key = s !! key.
Proof. intros Ha Hr. unfold cleared. by rewrite !lookup_delete_ne. Qed.

Lemma stored_other tokens s key :
  key <> "accessToken" -> key <> "refreshToken" -> stored tokens s !! key = s !! key.
Proof. intros Ha Hr. unfold stored. by rewrite !lookup_insert_ne. Qed.

Lemma token_step_refl w : token_step w w.
Proof. split; auto. Qed.

Lemma token_step_request w request : token_step w (after_request w request).
Proof. split; [reflexivity | right; by exists request]. Qed.

Section Frame.
Variable API_BASE_URL : string.
Variable API_TIMEOUT : Z.

Lemma sign_completion_step c request w :
  token_step w (snd (sign_completion c request w)).
Proof.
  destruct c as [[response|]|e]; simpl; try apply token_step_request.
  split; simpl; [intros; by apply stored_other | right; by exists request].
Qed.

Lemma refreshToken_step fetch w :
  token_step w (snd (AuthService.refreshToken API_BASE_URL API_TIMEOUT fetch w)).
Proof.
  rewrite refreshToken_request.
  destruct (truthy _); [| apply token_step_refl]. cbv zeta.
  destruct (completion_of _) as [[response|]|e]; split; simpl;
    try (right; eexists; reflexivity); intros;
    try (by apply cleared_other); by rewrite lookup_insert_ne.
Qed.

Lemma signOut_step {T} (fetch : Request -> FetchOutcome T) w :
  token_step w (snd (AuthService.signOut API_BASE_URL API_TIMEOUT fetch w)).
Proof.
  rewrite signOut_request. split; simpl; [intros; by apply cleared_other |].
  destruct (truthy _); [| by left]. destruct (truthy _); [| by left].
  right. eexists; reflexivity.
Qed.

End Frame.

(** X11. Every operation of the service leaves all entries of the store other
    than [accessToken] and [refreshToken] as they are, and issues at most
    one request. *)
Theorem operations_write_tokens_only
    (API_BASE_URL : string) (API_TIMEOUT : Z) (T : Type)
    (fetch_auth : Request -> FetchOutcome AuthResponse.t)
    (fetch_refresh : Request -> FetchOutcome RefreshPayload.t)
    (fetch : Request -> FetchOutcome T)
    (credentials : SignInRequest.t) (userData : SignUpRequest.t)
    (profileData : UpdateProfileRequest.t)
    (passwordData : ChangePasswordRequest.t) (w : World) :
  token_step w (snd (AuthService.signIn API_BASE_URL API_TIMEOUT fetch_auth credentials w)) /\
  token_step w (snd (AuthService.signUp API_BASE_URL API_TIMEOUT fetch_auth userData w)) /\
  token_step w (snd (AuthService.signOut API_BASE_URL API_TIMEOUT fetch w)) /\
  token_step w (snd (AuthService.refreshToken API_BASE_URL API_TIMEOUT fetch_refresh w)) /\
  token_step w (snd (AuthService.getCurrentUser API_BASE_URL API_TIMEOUT fetch w)) /\
  token_step w (snd (AuthService.updateProfile API_BASE_URL API_TIMEOUT fetch profileData w)) /\
  token_step w (snd (AuthService.changePassword API_BASE_URL API_TIMEOUT fetch passwordData w)) /\
  token_step w (snd (AuthService.isAuthenticated w)).
Proof.
  refine (conj _ (conj _ (conj _ (conj _ (conj _ (conj _ (conj _ _))))))).
  - rewrite signIn_request. apply sign_completion_step.
  - rewrite signUp_request. apply sign_completion_step.
  - apply signOut_step.
  - apply refreshToken_step.
  - rewrite getCurrentUser_run.
    destruct (truthy _); [apply token_step_request | apply token_step_refl].
  - rewrite updateProfile_run.
    destruct (truthy _); [apply token_step_request | apply token_step_refl].
  - rewrite changePassword_run.
    destruct (truthy _); [apply token_step_request | apply token_step_refl].
  - apply token_step_refl.
Qed.

(** X12. After a [signIn] or [signUp] that returns, [isAuthenticated] answers
    [true] exactly when both tokens of the answer are non-empty. *)
Theorem signIn_then_isAuthenticated
    (API_BASE_URL : string) (API_TIMEOUT : Z)
    (fetch : Request -> FetchOutcome AuthResponse.t)
    (credentials : SignInRequest.t) (userData : SignUpRequest.t)
    (w w' : World) (response : AuthResponse.t) :
  AuthService.signIn API_BASE_URL API_TIMEOUT fetch credentials w = (Return response, w') \/
  AuthService.signUp API_BASE_URL API_TIMEOUT fetch userData w = (Return response, w') ->
  exists b,
    AuthService.isAuthenticated w' = (Return b, w') /\
    (b = true <->
     AuthTokens.accessToken (AuthResponse.tokens response) <> "" /\
     AuthTokens.refreshToken (AuthResponse.tokens response) <> "").
Proof.
  intros Hcall.
  assert (storage w' = stored (AuthResponse.tokens response) (storage w)) as Hstored.
  { assert (exists request,
               sign_completion (completion_of (fetch request)) request w
               = (Return response, w')) as (request & Hrun).
    { destruct Hcall as [Hin | Hup].
      - rewrite signIn_request in Hin. eauto.
      - rewrite signUp_request in Hup. eauto. }
    unfold sign_completion in Hrun.
    destruct (completion_of (fetch request)) as [[payload|]|e]; [| discriminate | discriminate].
    by injection Hrun as -> <-. }
  destruct (stored_lookup (AuthResponse.tokens response) (storage w)) as [Ha Hr].
  rewrite <- Hstored in Ha, Hr.
  rewrite isAuthenticated_run, Ha, Hr. eexists; split; [reflexivity |].
  rewrite andb_true_iff, !ToBoolean_true. split.
  - intros [(a & [= <-] & Hane) (r & [= <-] & Hrne)]. auto.
  - intros [Hane Hrne]. split; eauto.
Qed.

(** X13. After [signOut]: [isAuthenticated] answers [false], [refreshToken]
    returns [null], the three authenticated calls throw the 401
    [ApiError], and a second [signOut] returns; none of these issues a
    request or changes the world. *)
Theorem after_signOut
    (API_BASE_URL : string) (API_TIMEOUT : Z) (T : Type)
    (fetch : Request -> FetchOutcome T)
    (fetch_refresh : Request -> FetchOutcome RefreshPayload.t)
    (profileData : UpdateProfileRequest.t)
    (passwordData : ChangePasswordRequest.t) (w w' : World) :
  AuthService.signOut API_BASE_URL API_TIMEOUT fetch w = (Return tt, w') ->
  AuthService.isAuthenticated w' = (Return false, w') /\
  AuthService.refreshToken API_BASE_URL API_TIMEOUT fetch_refresh w' = (Return None, w') /\
  AuthService.getCurrentUser API_BASE_URL API_TIMEOUT fetch w'
    = (Throw (ThrownApiError no_access_token), w') /\
  AuthService.updateProfile API_BASE_URL API_TIMEOUT fetch profileData w'
    = (Throw (ThrownApiError no_access_token), w') /\
  AuthService.changePassword API_BASE_URL API_TIMEOUT fetch passwordData w'
    = (Throw (ThrownApiError no_access_token), w') /\
  AuthService.signOut API_BASE_URL API_TIMEOUT fetch w' = (Return tt, w').
Proof.
  intros Hout.
  assert (storage w' !! "accessToken" = None /\ storage w' !! "refreshToken" = None)
    as [Ha Hr].
  { rewrite signOut_request in Hout. injection Hout as <-. apply cleared_lookup. }
  rewrite isAuthenticated_run, refreshToken_request, getCurrentUser_run,
    updateProfile_run, changePassword_run, signOut_request, Ha, Hr. simpl.
  assert (Hid : cleared (storage w') = storage w').
  { unfold cleared. rewrite (delete_id _ "accessToken") by done. by apply delete_id. }
  rewrite Hid. destruct w'. repeat split.
Qed.

Ltac unfold_ui :=
  unfold UI.try_finally, UI.try_catch, UI.bind, UI.await, UI.router_replace,
    UI.setState, UI.Alert_alert, UI.ret, UI.throw.

Lemma isAuthenticated_true_iff w :
  AuthService.isAuthenticated w = (Return true, w) <->
  ToBoolean (storage w !! "accessToken") = true /\
  ToBoolean (storage w !! "refreshToken") = true.
Proof.
  rewrite isAuthenticated_run. split.
  - intros [= H]. by apply andb_true_iff.
  - intros [-> ->]. reflexivity.
Qed.

(** X14. The entry check never throws, ends the checking state, and replaces
    the route exactly once: by the tabs exactly when the device it leaves is
    authenticated, by the sign-in screen otherwise. *)
Theorem checkAuthenticationStatus_routes
    (API_BASE_URL : string) (API_TIMEOUT : Z) (T : Type)
    (fetch : Request -> FetchOutcome T)
    (fetch_refresh : Request -> FetchOutcome RefreshPayload.t)
    (scr : Screen bool) :
  exists route w',
    Index.checkAuthenticationStatus API_BASE_URL API_TIMEOUT fetch fetch_refresh scr =
    (Return tt,
     {| state := false; device := w';
        replaced := (replaced scr ++ [route])%list; alerts := alerts scr |}) /\
    (route = "/(tabs)" \/ route = "/(auth)/signin") /\
    (route = "/(tabs)" <-> AuthService.isAuthenticated w' = (Return true, w')).
Proof.
  unfold Index.checkAuthenticationStatus. unfold_ui.
  rewrite isAuthenticated_run. cbv beta iota zeta.
  destruct (ToBoolean (storage (device scr) !! "accessToken")) eqn:Ha; simpl.
  2: { exists "/(auth)/signin", (device scr). split; [reflexivity |].
       split; [by right |]. rewrite isAuthenticated_true_iff, Ha.
       split; [discriminate | intros [? _]; discriminate]. }
  destruct (ToBoolean (storage (device scr) !! "refreshToken")) eqn:Hr; simpl.
  2: { exists "/(auth)/signin", (device scr). split; [reflexivity |].
       split; [by right |]. rewrite isAuthenticated_true_iff, Hr.
       split; [discriminate | intros [_ ?]; discriminate]. }
  rewrite getCurrentUser_run.
  pose proof Ha as Ha'. unfold ToBoolean in Ha'.
  destruct (truthy (storage (device scr) !! "accessToken")) as [access|]; [| discriminate].
  cbv zeta. set (request := request_of _ _ _ _).
  destruct (completion_of (fetch request)) as [d|e]; simpl.
  { exists "/(tabs)", (after_request (device scr) request). split; [reflexivity |].
    split; [by left |]. rewrite isAuthenticated_true_iff. simpl. by rewrite Ha, Hr. }
  rewrite refreshToken_request. simpl.
  pose proof Hr as Hr'. unfold ToBoolean in Hr'.
  destruct (truthy (storage (device scr) !! "refreshToken")) as [token|]; [| discriminate].
  cbv zeta. set (request' := request_of _ _ _ _).
  destruct (completion_of (fetch_refresh request')) as [[[a]|]|e']; simpl.
  - destruct (ToBoolean (Some a)) eqn:Hnew; simpl.
    + eexists "/(tabs)", _. split; [reflexivity |]. split; [by left |].
      rewrite isAuthenticated_true_iff. simpl.
      rewrite lookup_insert_eq, lookup_insert_ne by discriminate. by rewrite Hnew, Hr.
    + eexists "/(auth)/signin", _. split; [reflexivity |]. split; [by right |].
      rewrite isAuthenticated_true_iff. simpl. rewrite lookup_insert_eq, Hnew.
      split; [discriminate | intros [? _]; discriminate].
  - eexists "/(auth)/signin", _. split; [reflexivity |]. split; [by right |].
    rewrite isAuthenticated_true_iff. simpl.
    destruct (cleared_lookup (storage (device scr))) as [-> _].
    split; [discriminate | intros [? _]; discriminate].
  - eexists "/(auth)/signin", _. split; [reflexivity |]. split; [by right |].
    rewrite isAuthenticated_true_iff. simpl.
    destruct (cleared_lookup (storage (device scr))) as [-> _].
    split; [discriminate | intros [? _]; discriminate].
Qed.

(** X15. A device that is not authenticated is sent to the sign-in screen
    without any request, and is left as it was. *)
Theorem checkAuthenticationStatus_unauthenticated
    (API_BASE_URL : string) (API_TIMEOUT : Z) (T : Type)
    (fetch : Request -> FetchOutcome T)
    (fetch_refresh : Request -> FetchOutcome RefreshPayload.t)
    (scr : Screen bool) :
  AuthService.isAuthenticated (device scr) = (Return false, device scr) ->
  Index.checkAuthenticationStatus API_BASE_URL API_TIMEOUT fetch fetch_refresh scr =
  (Return tt,
   {| state := false; device := device scr;
      replaced := (replaced scr ++ ["/(auth)/signin"])%list; alerts := alerts scr |}).
Proof.
  intros H. unfold Index.checkAuthenticationStatus. unfold_ui. by rewrite H.
Qed.

(** X16. When the profile request returns, the tabs are shown after that one
    request, without a refresh, and the store is as before. *)
Theorem checkAuthenticationStatus_profile_returns
    (API_BASE_URL : string) (API_TIMEOUT : Z) (T : Type)
    (fetch : Request -> FetchOutcome T)
    (fetch_refresh : Request -> FetchOutcome RefreshPayload.t)
    (scr : Screen bool) (user : option T) (w' : World) :
  AuthService.isAuthenticated (device scr) = (Return true, device scr) ->
  AuthService.getCurrentUser API_BASE_URL API_TIMEOUT fetch (device scr) = (Return user, w') ->
  Index.checkAuthenticationStatus API_BASE_URL API_TIMEOUT fetch fetch_refresh scr =
  (Return tt,
   {| state := false; device := w';
      replaced := (replaced scr ++ ["/(tabs)"])%list; alerts := alerts scr |}) /\
  storage w' = storage (device scr) /\
  exists request, sent w' = (sent (device scr) ++ [request])%list.
Proof.
  intros Hauth Hme. unfold Index.checkAuthenticationStatus. unfold_ui.
  rewrite Hauth. simpl. rewrite Hme. split; [reflexivity |].
  rewrite getCurrentUser_run in Hme.
  destruct (truthy _); [| discriminate]. cbv zeta in Hme.
  injection Hme as _ <-. split; [reflexivity |]. eexists; reflexivity.
Qed.

(** X17. With a transport on which every exchange fails (an offline device,
    for one), an authenticated device loses both tokens and is sent to the
    sign-in screen. *)
Theorem checkAuthenticationStatus_all_requests_fail
    (API_BASE_URL : string) (API_TIMEOUT : Z) (T : Type)
    (fetch : Request -> FetchOutcome T)
    (fetch_refresh : Request -> FetchOutcome RefreshPayload.t)
    (scr : Screen bool) :
  AuthService.isAuthenticated (device scr) = (Return true, device scr) ->
  (forall request, failure_outcome (fetch request) = true) ->
  (forall request, failure_outcome (fetch_refresh request) = true) ->
  exists w',
    Index.checkAuthenticationStatus API_BASE_URL API_TIMEOUT fetch fetch_refresh scr =
    (Return tt,
     {| state := false; device := w';
        replaced := (replaced scr ++ ["/(auth)/signin"])%list; alerts := alerts scr |}) /\
    storage w' !! "accessToken" = None /\
    storage w' !! "refreshToken" = None /\
    exists request request',
      sent w' = (sent (device scr) ++ [request; request'])%list /\
      url request = API_BASE_URL ++ "/auth/me" /\
      url request' = API_BASE_URL ++ "/auth/refresh-token".
Proof.
  intros Hauth Hfail Hfail'.
  unfold Index.checkAuthenticationStatus. unfold_ui. rewrite Hauth. simpl.
  apply isAuthenticated_true_iff in Hauth as [Ha Hr].
  rewrite getCurrentUser_run. unfold ToBoolean in Ha, Hr.
  destruct (truthy (storage (device scr) !! "accessToken")) as [access|]; [| discriminate].
  cbv zeta. set (request := request_of _ _ _ _).
  destruct (proj1 (failure_outcome_throws _) (Hfail request)) as (e & ->).
  rewrite refreshToken_request. simpl.
  destruct (truthy (storage (device scr) !! "refreshToken")) as [token|]; [| discriminate].
  cbv zeta. set (request' := request_of _ _ _ _).
  destruct (proj1 (failure_outcome_throws _) (Hfail' request')) as (e' & ->). simpl.
  eexists; split; [reflexivity |]. simpl.
  destruct (cleared_lookup (storage (device scr))) as [-> ->].
  split; [reflexivity |]. split; [reflexivity |].
  exists request, request'. rewrite <- app_assoc. auto.
Qed.

(** X18. Sign-out from the screen: always navigates to the sign-in screen, once,
    raises no alert, and leaves the device without tokens. *)
Theorem handleSignOut_always_navigates
    (API_BASE_URL : string) (API_TIMEOUT : Z) (T : Type)
    (fetch : Request -> FetchOutcome T) (scr : Screen SignOutScreen.State) :
  exists w',
    SignOutScreen.handleSignOut API_BASE_URL API_TIMEOUT fetch scr =
    (Return tt,
     {| state := {| SignOutScreen.isSigningOut := false;
                    SignOutScreen.hasInitiatedSignOut := true |};
        device := w';
        replaced := (replaced scr ++ ["/(auth)/signin"])%list;
        alerts := alerts scr |}) /\
    storage w' !! "accessToken" = None /\
    storage w' !! "refreshToken" = None.
Proof.
  unfold SignOutScreen.handleSignOut, SignOutScreen.setIsSigningOut,
    SignOutScreen.setHasInitiatedSignOut. unfold_ui. simpl.
  rewrite signOut_request. simpl.
  eexists; split; [reflexivity |]. simpl. apply cleared_lookup.
Qed.

(* ===================================================================== *)
(** ** Strings and the matcher *)
(* ===================================================================== *)

#[local] Arguments String.append !_ _ / : simpl nomatch.

Lemma append_assoc (s1 s2 s3 : string) : (s1 ++ s2) ++ s3 = s1 ++ (s2 ++ s3).
Proof. induction s1 as [|c s1 IH]; simpl; [reflexivity | congruence]. Qed.

Lemma append_empty_r (s : string) : s ++ "" = s.
Proof. induction s as [|c s IH]; simpl; [reflexivity | congruence]. Qed.

Lemma length_append (s1 s2 : string) :
  String.length (s1 ++ s2) = (String.length s1 + String.length s2)%nat.
Proof. induction s1 as [|c s1 IH]; simpl; [reflexivity | congruence]. Qed.

Lemma every_append class s1 s2 :
  every class (s1 ++ s2) = every class s1 && every class s2.
Proof.
  induction s1 as [|c s1 IH]; simpl; [reflexivity |].
  rewrite IH. apply andb_assoc.
Qed.

Lemma has_append class s1 s2 : has class (s1 ++ s2) = has class s1 || has class s2.
Proof.
  induction s1 as [|c s1 IH]; simpl; [reflexivity |].
  rewrite IH. apply orb_assoc.
Qed.

Lemma in_starts k s i t :
  In (i, t) (starts k s) <->
  exists pre, s = pre ++ t /\ i = (k + String.length pre)%nat.
Proof.
  revert k. induction s as [|c s IH]; intros k; simpl.
  - split.
    + intros [[= <- <-] | []]. exists "". split; [reflexivity | simpl; lia].
    + intros (pre & Hs & ->). destruct pre; [| discriminate].
      simpl in Hs. subst t. left. f_equal. simpl. lia.
  - rewrite IH. split.
    + intros [[= <- <-] | (pre & -> & ->)].
      * exists "". split; [reflexivity | simpl; lia].
      * exists (String c pre). split; [reflexivity | simpl; lia].
    + intros (pre & Hs & ->). destruct pre as [|c' pre]; simpl in Hs.
      * subst t. left. f_equal. simpl. lia.
      * injection Hs as <- ->. right. exists pre. split; [reflexivity | simpl; lia].
Qed.

Lemma nonempty_In {A} (l : list A) :
  match l with [] => false | _ :: _ => true end = true <-> exists x, In x l.
Proof.
  destruct l as [|x l]; split.
  - discriminate.
  - intros (x & []).
  - intros _. exists x. by left.
  - reflexivity.
Qed.

(** [test] succeeds when a match starts after some prefix of the input. *)
Lemma RegExp_test_true r s :
  RegExp_test r s = true <->
  exists pre t st', s = pre ++ t /\ In st' (run r (String.length pre, t)).
Proof.
  unfold RegExp_test. rewrite existsb_exists. split.
  - intros ([i t] & Hin & Hrun). apply in_starts in Hin as (pre & -> & ->).
    apply nonempty_In in Hrun as (st' & Hst'). exists pre, t, st'. auto.
  - intros (pre & t & st' & -> & Hst'). exists (String.length pre, t). split.
    + apply in_starts. exists pre. auto.
    + apply nonempty_In. eauto.
Qed.

Lemma in_run_Class class i s j t :
  In (j, t) (run (Class class) (i, s)) <->
  exists c, s = String c t /\ class c = true /\ j = S i.
Proof.
  simpl. destruct s as [|c s]; [split; [intros [] | intros (c & [= ] & _)] |].
  destruct (class c) eqn:Hc; simpl; split.
  - intros [[= <- <-] | []]. exists c. auto.
  - intros (c' & [= <- <-] & _ & ->). by left.
  - intros [].
  - intros (c' & [= <- <-] & Hc' & _). congruence.
Qed.

(** Repeating a one-unit class consumes any prefix within the class, up to
    the fuel. *)
Lemma in_repeat_Class class fuel i s j t :
  In (j, t) (repeat_step (run (Class class)) fuel (i, s)) <->
  exists m, s = m ++ t /\ j = (i + String.length m)%nat /\
            (String.length m <= fuel)%nat /\ every class m = true.
Proof.
  revert i s. induction fuel as [|fuel IH]; intros i s; cbn [repeat_step].
  - split.
    + intros [[= <- <-] | []]. exists "". simpl. repeat split; lia.
    + intros (m & -> & -> & Hlen & _). destruct m; [| simpl in Hlen; lia].
      left. f_equal. simpl. lia.
  - split.
    + intros [[= <- <-] | Hin].
      * exists "". simpl. repeat split; lia.
      * apply in_flat_map in Hin as ([i' s'] & Hstep & Hin).
        apply in_run_Class in Hstep as (c & -> & Hc & ->).
        apply IH in Hin as (m & -> & -> & Hlen & Hm).
        exists (String c m). simpl. rewrite Hc, Hm. repeat split; lia.
    + intros (m & -> & -> & Hlen & Hm). destruct m as [|c m].
      * left. f_equal. simpl. lia.
      * right. simpl in Hm. apply andb_true_iff in Hm as [Hc Hm].
        apply in_flat_map. exists (S i, m ++ t). split.
        -- apply in_run_Class. exists c. auto.
        -- apply IH. exists m. simpl in Hlen. repeat split; auto; simpl; lia.
Qed.

Lemma in_run_Star_Class class i s j t :
  In (j, t) (run (Star (Class class)) (i, s)) <->
  exists m, s = m ++ t /\ j = (i + String.length m)%nat /\ every class m = true.
Proof.
  change (run (Star (Class class)) (i, s))
    with (repeat_step (run (Class class)) (String.length s) (i, s)).
  rewrite in_repeat_Class. split.
  - intros (m & ? & ? & _ & ?). eauto.
  - intros (m & -> & -> & Hm). exists m. repeat split; auto.
    rewrite length_append. lia.
Qed.

Lemma in_run_Plus_Class class i s j t :
  In (j, t) (run (Plus (Class class)) (i, s)) <->
  exists m, m <> "" /\ s = m ++ t /\ j = (i + String.length m)%nat /\
            every class m = true.
Proof.
  change (run (Plus (Class class)) (i, s))
    with (flat_map (fun st' => repeat_step (run (Class class)) (String.length (snd st')) st')
            (run (Class class) (i, s))).
  rewrite in_flat_map. split.
  - intros ([i' s'] & Hstep & Hin).
    apply in_run_Class in Hstep as (c & -> & Hc & ->).
    cbn [snd] in Hin. apply in_repeat_Class in Hin as (m & -> & -> & _ & Hm).
    exists (String c m). simpl. rewrite Hc, Hm. repeat split; [discriminate | lia].
  - intros (m & Hne & -> & -> & Hm). destruct m as [|c m]; [contradiction |].
    simpl in Hm. apply andb_true_iff in Hm as [Hc Hm].
    exists (S i, m ++ t). split.
    + apply in_run_Class. exists c. auto.
    + cbn [snd]. apply in_repeat_Class. exists m.
      repeat split; auto; [simpl; lia | rewrite length_append; lia].
Qed.

Lemma in_run_Cat r1 r2 st st'' :
  In st'' (run (Cat r1 r2) st) <->
  exists st', In st' (run r1 st) /\ In st'' (run r2 st').
Proof.
  change (run (Cat r1 r2) st) with (flat_map (run r2) (run r1 st)).
  apply in_flat_map.
Qed.

(** A match of the e-mail pattern: three words around ["@"] and ["."]. *)
Lemma run_email_pattern i t :
  (exists st', In st' (run email_pattern (i, t))) <->
  exists u v w rest, t = u ++ "@" ++ v ++ "." ++ w ++ rest /\ word u /\ word v /\ word w.
Proof.
  unfold email_pattern, non_space, literal, word. split.
  - intros ([j5 t5] & H).
    apply in_run_Cat in H as ([j1 t1] & H1 & H).
    apply in_run_Cat in H as ([j2 t2] & H2 & H).
    apply in_run_Cat in H as ([j3 t3] & H3 & H).
    apply in_run_Cat in H as ([j4 t4] & H4 & H5).
    apply in_run_Plus_Class in H1 as (u & Hu & -> & _ & Hue).
    apply in_run_Class in H2 as (c2 & -> & Hc2 & _).
    apply in_run_Plus_Class in H3 as (v & Hv & -> & _ & Hve).
    apply in_run_Class in H4 as (c4 & -> & Hc4 & _).
    apply in_run_Plus_Class in H5 as (w & Hw & -> & _ & Hwe).
    apply Ascii.eqb_eq in Hc2 as <-. apply Ascii.eqb_eq in Hc4 as <-.
    exists u, v, w, t5. repeat split; auto.
  - intros (u & v & w & rest & -> & [Hu Hue] & [Hv Hve] & [Hw Hwe]).
    eexists (_, rest).
    apply in_run_Cat. eexists (_, _). split.
    { apply in_run_Plus_Class. exists u. repeat split; eauto. }
    apply in_run_Cat. eexists (_, _). split.
    { apply in_run_Class. exists "@"%char. repeat split; eauto using Ascii.eqb_refl. }
    apply in_run_Cat. eexists (_, _). split.
    { apply in_run_Plus_Class. exists v. repeat split; eauto. }
    apply in_run_Cat. eexists (_, _). split.
    { apply in_run_Class. exists "."%char. repeat split; eauto using Ascii.eqb_refl. }
    apply in_run_Plus_Class. exists w. repeat split; eauto.
Qed.

(** [/\S+@\S+\.\S+/.test(s)] holds exactly when [s] contains a word, ["@"],
    a word, ["."] and a word, in a row. *)
Lemma email_pattern_test s :
  RegExp_test email_pattern s = true <->
  exists pre u v w post,
    s = pre ++ u ++ "@" ++ v ++ "." ++ w ++ post /\ word u /\ word v /\ word w.
Proof.
  rewrite RegExp_test_true. split.
  - intros (pre & t & st' & -> & Hrun).
    destruct (proj1 (run_email_pattern _ _) (ex_intro _ st' Hrun))
      as (u & v & w & rest & -> & Hw).
    exists pre, u, v, w, rest. auto.
  - intros (pre & u & v & w & post & -> & Hw).
    destruct (proj2 (run_email_pattern (String.length pre) _)
                (ex_intro _ u (ex_intro _ v (ex_intro _ w (ex_intro _ post
                   (conj eq_refl Hw)))))) as (st' & Hst').
    eexists pre, _, st'. split; [reflexivity | exact Hst'].
Qed.

Lemma in_run_Lookahead r st st' :
  In st' (run (Lookahead r) st) <-> st' = st /\ exists st'', In st'' (run r st).
Proof.
  change (run (Lookahead r) st)
    with (match run r st with [] => [] | _ :: _ => [st] end).
  destruct (run r st) as [|x l]; simpl; split.
  - intros [].
  - intros (_ & st'' & []).
  - intros [<- | []]. split; [reflexivity | exists x; by left].
  - intros [-> _]. by left.
Qed.

(** [(?=.*c)] for a class [c] without line terminators: [c] occurs on the
    first line of the rest of the input. *)
Lemma run_dots_then_class class i t :
  (forall c, class c = true -> is_line_terminator c = false) ->
  (exists st', In st' (run (Cat (Star dot) (Class class)) (i, t))) <->
  has class (first_line t) = true.
Proof.
  intros Hclass. unfold dot. split.
  - intros ([j t'] & H). apply in_run_Cat in H as ([j1 t1] & H1 & H2).
    apply in_run_Star_Class in H1 as (m & -> & _ & Hm).
    apply in_run_Class in H2 as (c & -> & Hc & _).
    clear j j1 i. induction m as [|a m IH]; simpl.
    + rewrite (Hclass c Hc). simpl. by rewrite Hc.
    + simpl in Hm. apply andb_true_iff in Hm as [Ha Hm].
      apply negb_true_iff in Ha. rewrite Ha. simpl. rewrite (IH Hm). apply orb_true_r.
  - intros Hhas.
    assert (exists m c t', t = m ++ String c t' /\
              every (fun c => negb (is_line_terminator c)) m = true /\ class c = true)
      as (m & c & t' & -> & Hm & Hc).
    { induction t as [|a t IH]; simpl in Hhas; [discriminate |].
      destruct (is_line_terminator a) eqn:Ha; [discriminate |]. simpl in Hhas.
      destruct (class a) eqn:Hca.
      - exists "", a, t. auto.
      - destruct (IH Hhas) as (m & c & t' & -> & Hm & Hc).
        exists (String a m), c, t'. simpl. rewrite Ha, Hm. auto. }
    eexists (_, t'). apply in_run_Cat. eexists (_, _). split.
    + apply in_run_Star_Class. exists m. auto.
    + apply in_run_Class. exists c. auto.
Qed.

Lemma between_not_line_terminator lo hi c :
  (14 <= lo)%nat -> between lo hi c = true -> is_line_terminator c = false.
Proof.
  unfold between, is_line_terminator. intros Hlo H.
  apply andb_true_iff in H as [H _]. apply Nat.leb_le in H.
  apply orb_false_iff. split; apply Nat.eqb_neq; lia.
Qed.

(** A match of the strength pattern at a position: the three classes occur
    on the first line of the rest. *)
Lemma run_strength_pattern i t :
  (exists st', In st' (run strength_pattern (i, t))) <->
  has lower_case (first_line t) = true /\
  has upper_case (first_line t) = true /\
  has digit (first_line t) = true.
Proof.
  unfold strength_pattern, lower_case, upper_case, digit.
  rewrite <- (run_dots_then_class (between 97 122) i t)
    by (intros c; apply between_not_line_terminator; lia).
  rewrite <- (run_dots_then_class (between 65 90) i t)
    by (intros c; apply between_not_line_terminator; lia).
  rewrite <- (run_dots_then_class (between 48 57) i t)
    by (intros c; apply between_not_line_terminator; lia).
  split.
  - intros (st3 & H). apply in_run_Cat in H as (st1 & H1 & H).
    apply in_run_Cat in H as (st2 & H2 & H3).
    apply in_run_Lookahead in H1 as [-> H1].
    apply in_run_Lookahead in H2 as [-> H2].
    apply in_run_Lookahead in H3 as [-> H3]. auto.
  - intros (H1 & H2 & H3). exists (i, t).
    apply in_run_Cat. exists (i, t). split; [by apply in_run_Lookahead |].
    apply in_run_Cat. exists (i, t). split; by apply in_run_Lookahead.
Qed.

(** [/(?=.*[a-z])(?=.*[A-Z])(?=.*\d)/.test(s)]: from some index on, the
    first line of the rest has a lower-case letter, an upper-case letter
    and a digit. *)
Lemma strength_pattern_test s :
  RegExp_test strength_pattern s = true <->
  exists pre t,
    s = pre ++ t /\
    has lower_case (first_line t) = true /\
    has upper_case (first_line t) = true /\
    has digit (first_line t) = true.
Proof.
  rewrite RegExp_test_true. split.
  - intros (pre & t & st' & -> & Hrun). exists pre, t. split; [reflexivity |].
    apply (run_strength_pattern (String.length pre)). eauto.
  - intros (pre & t & -> & H).
    apply (run_strength_pattern (String.length pre)) in H as (st' & H).
    exists pre, t, st'. auto.
Qed.

(** With [^], only the first line of the whole input counts. *)
Lemma anchored_strength_pattern_test s :
  RegExp_test anchored_strength_pattern s = true <->
  has lower_case (first_line s) = true /\
  has upper_case (first_line s) = true /\
  has digit (first_line s) = true.
Proof.
  rewrite RegExp_test_true, <- (run_strength_pattern 0 s).
  unfold anchored_strength_pattern. split.
  - intros (pre & t & st' & -> & Hrun).
    apply in_run_Cat in Hrun as ([i1 t1] & H1 & H2).
    change (run StartOfInput (String.length pre, t))
      with (match String.length pre with O => [(String.length pre, t)] | S _ => [] end) in H1.
    destruct pre; [| destruct H1].
    destruct H1 as [[= <- <-] | []]. simpl. eauto.
  - intros (st' & H). exists "", s, st'. split; [reflexivity |].
    apply in_run_Cat. exists (0%nat, s). split; [by left | exact H].
Qed.

Lemma first_line_single s :
  every (fun c => negb (is_line_terminator c)) s = true -> first_line s = s.
Proof.
  induction s as [|c s IH]; simpl; [reflexivity |].
  intros H. apply andb_true_iff in H as [Hc Hs].
  apply negb_true_iff in Hc. rewrite Hc. by rewrite IH.
Qed.

(** On an input without line terminators the two patterns agree: the
    input has a lower-case letter, an upper-case letter and a digit. *)
Lemma strength_single_line s :
  every (fun c => negb (is_line_terminator c)) s = true ->
  (RegExp_test strength_pattern s = true <->
   has lower_case s = true /\ has upper_case s = true /\ has digit s = true) /\
  (RegExp_test anchored_strength_pattern s = true <->
   has lower_case s = true /\ has upper_case s = true /\ has digit s = true).
Proof.
  intros Hs. rewrite anchored_strength_pattern_test, strength_pattern_test.
  rewrite (first_line_single s Hs). split; [| reflexivity]. split.
  - intros (pre & t & -> & Hl & Hu & Hd).
    rewrite every_append in Hs. apply andb_true_iff in Hs as [_ Ht].
    rewrite (first_line_single t Ht) in *. rewrite !has_append, Hl, Hu, Hd.
    by rewrite !orb_true_r.
  - intros H. exists "", s. rewrite (first_line_single s Hs). auto.
Qed.

Lemma trimStart_empty s : trimStart s = "" <-> every is_space s = true.
Proof.
  induction s as [|c s IH]; simpl; [tauto |].
  destruct (is_space c); simpl; [exact IH |]. split; discriminate.
Qed.

Lemma trimEnd_empty s : trimEnd s = "" <-> every is_space s = true.
Proof.
  induction s as [|c s IH]; simpl; [tauto |].
  destruct (trimEnd s) as [|a t] eqn:Ht.
  - destruct (is_space c); simpl; [| split; discriminate].
    split; intros _; [by apply IH | reflexivity].
  - split; [discriminate |]. intros H. apply andb_true_iff in H as [_ H].
    apply IH in H. discriminate.
Qed.

Lemma trimStart_head s c t : trimStart s = String c t -> is_space c = false.
Proof.
  induction s as [|a s IH]; simpl; [discriminate |].
  destruct (is_space a) eqn:Ha; [exact IH |]. intros [= <- <-]. exact Ha.
Qed.

(** [s.trim()] is empty exactly when [s] is white space only. *)
Lemma trim_empty s : trim s = "" <-> every is_space s = true.
Proof.
  unfold trim. rewrite trimEnd_empty. split.
  - intros H. apply trimStart_empty.
    destruct (trimStart s) as [|c t] eqn:Hs; [reflexivity |].
    apply trimStart_head in Hs. simpl in H. rewrite Hs in H. discriminate.
  - intros H. apply trimStart_empty in H. by rewrite H.
Qed.

Lemma word_not_blank u : word u -> every is_space u = false.
Proof.
  intros [Hne Hu]. destruct u as [|c u]; [contradiction |]. simpl in *.
  apply andb_true_iff in Hu as [Hc _]. apply negb_true_iff in Hc. by rewrite Hc.
Qed.

Lemma contains_address_not_blank s : contains_address s -> trim s <> "".
Proof.
  intros (pre & u & v & w & post & -> & Hu & _) H.
  apply trim_empty in H. rewrite !every_append in H.
  rewrite (word_not_blank u Hu) in H. by rewrite andb_false_r in H.
Qed.

(* ===================================================================== *)
(** ** The sign-in screen *)
(* ===================================================================== *)

Lemma signIn_validateForm_run formData scr :
  SignInScreen.validateForm formData scr =
  (Return (RegExp_test email_pattern (SignInScreen.FormData.email formData)
           && negb (String.eqb (SignInScreen.FormData.password formData) "")),
   {| state :=
        {| SignInScreen.formData := SignInScreen.formData (state scr);
           SignInScreen.errors :=
             {| SignInScreen.FormErrors.email :=
                  if String.eqb (trim (SignInScreen.FormData.email formData)) ""
                  then Some "Email is required"
                  else if RegExp_test email_pattern (SignInScreen.FormData.email formData)
                       then None else Some "Please provide a valid email";
                SignInScreen.FormErrors.password :=
                  if String.eqb (SignInScreen.FormData.password formData) ""
                  then Some "Password is required" else None;
                SignInScreen.FormErrors.general := None |};
           SignInScreen.loading := SignInScreen.loading (state scr);
           SignInScreen.showPassword := SignInScreen.showPassword (state scr) |};
      device := device scr; replaced := replaced scr; alerts := alerts scr |}).
Proof.
  unfold SignInScreen.validateForm, SignInScreen.setErrors. unfold_ui. simpl.
  destruct (String.eqb_spec (trim (SignInScreen.FormData.email formData)) "") as [Hblank|Hblank].
  - assert (RegExp_test email_pattern (SignInScreen.FormData.email formData) = false) as ->.
    { apply not_true_is_false. intros H. apply email_pattern_test in H.
      by apply (contains_address_not_blank _ H). }
    destruct (String.eqb _ ""); reflexivity.
  - destruct (RegExp_test email_pattern _); destruct (String.eqb _ ""); reflexivity.
Qed.

(** X19. The sign-in form is accepted exactly when the e-mail field contains an
    address and the password is not empty; a refused form shows a message
    on a field, an accepted one shows none. *)
Theorem signIn_validateForm_accepts
    (formData : SignInScreen.FormData.t) (scr : Screen SignInScreen.State) :
  exists b e,
    SignInScreen.validateForm formData scr =
    (Return b,
     {| state := signIn_screen e (SignInScreen.loading (state scr)) scr;
        device := device scr; replaced := replaced scr; alerts := alerts scr |}) /\
    (b = true <->
     contains_address (SignInScreen.FormData.email formData) /\
     SignInScreen.FormData.password formData <> "") /\
    (b = true -> e = SignInScreen.FormErrors.empty) /\
    (b = false ->
     SignInScreen.FormErrors.general e = None /\
     (SignInScreen.FormErrors.email e <> None \/
      SignInScreen.FormErrors.password e <> None)).
Proof.
  rewrite signIn_validateForm_run. eexists _, _. split; [reflexivity |].
  unfold contains_address. rewrite <- email_pattern_test.
  set (email := SignInScreen.FormData.email formData).
  set (password := SignInScreen.FormData.password formData).
  assert (Hblank : RegExp_test email_pattern email = true ->
                   String.eqb (trim email) "" = false).
  { intros H. apply String.eqb_neq. apply contains_address_not_blank.
    by apply email_pattern_test. }
  rewrite andb_true_iff, negb_true_iff, String.eqb_neq.
  split; [reflexivity |]. split.
  - intros [Ht Hp]. apply String.eqb_neq in Hp.
    by rewrite (Hblank Ht), Ht, Hp.
  - intros H. split; [reflexivity |]. simpl.
    destruct (RegExp_test email_pattern email); simpl in H.
    + apply negb_false_iff in H. rewrite H. by right.
    + left. by destruct (String.eqb (trim email) "").
Qed.

Lemma last_msg_snoc path errs err :
  last_msg path (errs ++ [err]) =
  if String.eqb (ValidationError.path err) path then Some (ValidationError.msg err)
  else last_msg path errs.
Proof.
  unfold last_msg. rewrite filter_app.
  destruct (String.eqb_spec (ValidationError.path err) path) as [Hp|Hp].
  - rewrite (filter_cons_True _ err []) by exact Hp.
    by rewrite filter_nil, last_snoc.
  - rewrite (filter_cons_False _ err []) by exact Hp.
    by rewrite filter_nil, app_nil_r.
Qed.

(** The loop over the server errors leaves, for each field, the message of
    the last entry for it. *)
Lemma signIn_server_errors errs :
  fold_left
    (fun newErrors err =>
       if String.eqb (ValidationError.path err) "email" then
         SignInScreen.FormErrors.set_email (ValidationError.msg err) newErrors
       else if String.eqb (ValidationError.path err) "password" then
         SignInScreen.FormErrors.set_password (ValidationError.msg err) newErrors
       else newErrors)
    errs SignInScreen.FormErrors.empty =
  {| SignInScreen.FormErrors.email := last_msg "email" errs;
     SignInScreen.FormErrors.password := last_msg "password" errs;
     SignInScreen.FormErrors.general := None |}.
Proof.
  induction errs as [|err errs IH] using rev_ind; [reflexivity |].
  rewrite fold_left_app, IH, !last_msg_snoc. simpl.
  destruct (String.eqb_spec (ValidationError.path err) "email") as [He|He].
  - rewrite He. reflexivity.
  - destruct (String.eqb (ValidationError.path err) "password"); reflexivity.
Qed.

Section SignInRuns.
Variable API_BASE_URL : string.
Variable API_TIMEOUT : Z.

Lemma handleSignIn_invalid_run fetch formData scr :
  RegExp_test email_pattern (SignInScreen.FormData.email formData)
  && negb (String.eqb (SignInScreen.FormData.password formData) "") = false ->
  SignInScreen.handleSignIn API_BASE_URL API_TIMEOUT fetch formData scr =
  (Return tt, snd (SignInScreen.validateForm formData scr)).
Proof.
  intros Hinvalid. unfold SignInScreen.handleSignIn, UI.bind.
  rewrite signIn_validateForm_run, Hinvalid. reflexivity.
Qed.

Lemma handleSignIn_valid_run fetch formData scr :
  RegExp_test email_pattern (SignInScreen.FormData.email formData)
  && negb (String.eqb (SignInScreen.FormData.password formData) "") = true ->
  SignInScreen.handleSignIn API_BASE_URL API_TIMEOUT fetch formData scr =
  match AuthService.signIn API_BASE_URL API_TIMEOUT fetch
          {| SignInRequest.email := trim (SignInScreen.FormData.email formData);
             SignInRequest.password := SignInScreen.FormData.password formData |}
          (device scr) with
  | (Return response, w') =>
      (Return tt,
       {| state := signIn_screen SignInScreen.FormErrors.empty false scr;
          device := w'; replaced := replaced scr;
          alerts :=
            (alerts scr ++
             [{| Alert.title := "Welcome Back!";
                 Alert.message :=
                   "Hello " ++ User.name (AuthResponse.user response)
                     ++ ", you've signed in successfully!";
                 Alert.buttons :=
                   [ {| AlertButton.text := "Continue";
                        AlertButton.onPress_replace := Some "/(tabs)" |} ] |}])%list |})
  | (Throw err, w') =>
      (Return tt,
       {| state :=
            signIn_screen
              match err with
              | ThrownApiError e =>
                  match ApiError.errors e with
                  | Some errs =>
                      {| SignInScreen.FormErrors.email := last_msg "email" errs;
                         SignInScreen.FormErrors.password := last_msg "password" errs;
                         SignInScreen.FormErrors.general := None |}
                  | None =>
                      SignInScreen.FormErrors.only_general
                        (if ApiError.status e =? 401 then "Invalid email or password"
                         else if ApiError.status e =? 0 then
                           "Network error. Please check your connection and try again."
                         else if ApiError.status e =? 408 then
                           "Request timeout. Please try again."
                         else or_else (ApiError.message e)
                                "Sign in failed. Please try again.")
                  end
              | ThrownError _ =>
                  SignInScreen.FormErrors.only_general
                    "An unexpected error occurred. Please try again."
              end false scr;
          device := w'; replaced := replaced scr; alerts := alerts scr |})
  end.
Proof.
  intros Hvalid. unfold SignInScreen.handleSignIn, UI.bind at 1.
  rewrite signIn_validateForm_run, Hvalid. cbv beta iota.
  unfold SignInScreen.setLoading, SignInScreen.setErrors. unfold_ui. simpl.
  destruct (AuthService.signIn _ _ _ _ _) as [[response|err] w']; simpl.
  - reflexivity.
  - destruct err as [e|e]; [| reflexivity].
    destruct (ApiError.errors e) as [errs|].
    + simpl. rewrite signIn_server_errors. reflexivity.
    + destruct (ApiError.status e =? 401); [reflexivity |].
      destruct (ApiError.status e =? 0); [reflexivity |].
      destruct (ApiError.status e =? 408); reflexivity.
Qed.

End SignInRuns.

Lemma signIn_valid_iff formData :
  RegExp_test email_pattern (SignInScreen.FormData.email formData)
  && negb (String.eqb (SignInScreen.FormData.password formData) "") = true <->
  contains_address (SignInScreen.FormData.email formData) /\
  SignInScreen.FormData.password formData <> "".
Proof.
  unfold contains_address.
  by rewrite andb_true_iff, negb_true_iff, String.eqb_neq, email_pattern_test.
Qed.

(** X20. A refused sign-in form sends nothing: the device, the routes and the
    alerts are as before, [loading] is not touched, and a field shows a
    message. *)
Theorem handleSignIn_refused_form
    (API_BASE_URL : string) (API_TIMEOUT : Z)
    (fetch : Request -> FetchOutcome AuthResponse.t)
    (formData : SignInScreen.FormData.t) (scr : Screen SignInScreen.State) :
  ~ (contains_address (SignInScreen.FormData.email formData) /\
     SignInScreen.FormData.password formData <> "") ->
  exists e,
    SignInScreen.handleSignIn API_BASE_URL API_TIMEOUT fetch formData scr =
    (Return tt,
     {| state := signIn_screen e (SignInScreen.loading (state scr)) scr;
        device := device scr; replaced := replaced scr; alerts := alerts scr |}) /\
    (SignInScreen.FormErrors.email e <> None \/
     SignInScreen.FormErrors.password e <> None).
Proof.
  intros Hrefused. rewrite <- signIn_valid_iff in Hrefused.
  apply not_true_is_false in Hrefused.
  rewrite (handleSignIn_invalid_run _ _ _ _ _ Hrefused), signIn_validateForm_run.
  eexists; split; [reflexivity |]. simpl.
  destruct (RegExp_test email_pattern _); simpl in Hrefused.
  - apply negb_false_iff in Hrefused. rewrite Hrefused. by right.
  - left. by destruct (String.eqb (trim _) "").
Qed.

(** X21. An accepted form whose sign-in returns: the credentials sent are the
    trimmed e-mail and the password as typed, both tokens of the answer are
    stored, the errors are cleared, [loading] ends false, and the one alert
    greets the user by name and offers the tabs. *)
Theorem handleSignIn_success
    (API_BASE_URL : string) (API_TIMEOUT : Z)
    (fetch : Request -> FetchOutcome AuthResponse.t)
    (formData : SignInScreen.FormData.t) (scr : Screen SignInScreen.State)
    (response : AuthResponse.t) (w' : World) :
  contains_address (SignInScreen.FormData.email formData) ->
  SignInScreen.FormData.password formData <> "" ->
  AuthService.signIn API_BASE_URL API_TIMEOUT fetch
    {| SignInRequest.email := trim (SignInScreen.FormData.email formData);
       SignInRequest.password := SignInScreen.FormData.password formData |}
    (device scr) = (Return response, w') ->
  SignInScreen.handleSignIn API_BASE_URL API_TIMEOUT fetch formData scr =
  (Return tt,
   {| state := signIn_screen SignInScreen.FormErrors.empty false scr;
      device := w'; replaced := replaced scr;
      alerts :=
        (alerts scr ++
         [{| Alert.title := "Welcome Back!";
             Alert.message :=
               "Hello " ++ User.name (AuthResponse.user response)
                 ++ ", you've signed in successfully!";
             Alert.buttons :=
               [ {| AlertButton.text := "Continue";
                    AlertButton.onPress_replace := Some "/(tabs)" |} ] |}])%list |}) /\
  storage w' !! "accessToken"
    = Some (AuthTokens.accessToken (AuthResponse.tokens response)) /\
  storage w' !! "refreshToken"
    = Some (AuthTokens.refreshToken (AuthResponse.tokens response)).
Proof.
  intros Haddress Hpassword Hcall.
  rewrite (handleSignIn_valid_run _ _ _ _ _ (proj2 (signIn_valid_iff _) (conj Haddress Hpassword))).
  rewrite Hcall. split; [reflexivity |].
  rewrite signIn_request in Hcall. cbv zeta in Hcall. unfold sign_completion in Hcall.
  destruct (completion_of _) as [[payload|]|e]; [| discriminate | discriminate].
  injection Hcall as -> <-. apply stored_lookup.
Qed.

(** X22. An accepted form whose sign-in fails: the stored tokens are as before,
    no alert is raised and no route replaced, [loading] ends false. Unless
    the error carries a list of field errors, a non-empty general message
    is shown. *)
Theorem handleSignIn_failure
    (API_BASE_URL : string) (API_TIMEOUT : Z)
    (fetch : Request -> FetchOutcome AuthResponse.t)
    (formData : SignInScreen.FormData.t) (scr : Screen SignInScreen.State)
    (thrown : Thrown) (w' : World) :
  contains_address (SignInScreen.FormData.email formData) ->
  SignInScreen.FormData.password formData <> "" ->
  AuthService.signIn API_BASE_URL API_TIMEOUT fetch
    {| SignInRequest.email := trim (SignInScreen.FormData.email formData);
       SignInRequest.password := SignInScreen.FormData.password formData |}
    (device scr) = (Throw thrown, w') ->
  exists e,
    SignInScreen.handleSignIn API_BASE_URL API_TIMEOUT fetch formData scr =
    (Return tt,
     {| state := signIn_screen e false scr;
        device := w'; replaced := replaced scr; alerts := alerts scr |}) /\
    storage w' = storage (device scr) /\
    match thrown with
    | ThrownApiError a =>
        match ApiError.errors a with
        | Some errs =>
            e = {| SignInScreen.FormErrors.email := last_msg "email" errs;
                   SignInScreen.FormErrors.password := last_msg "password" errs;
                   SignInScreen.FormErrors.general := None |}
        | None => exists m, m <> "" /\ e = SignInScreen.FormErrors.only_general m
        end
    | ThrownError _ =>
        e = SignInScreen.FormErrors.only_general
              "An unexpected error occurred. Please try again."
    end.
Proof.
  intros Haddress Hpassword Hcall.
  rewrite (handleSignIn_valid_run _ _ _ _ _ (proj2 (signIn_valid_iff _) (conj Haddress Hpassword))).
  rewrite Hcall. eexists; split; [reflexivity |]. split.
  - rewrite signIn_request in Hcall. cbv zeta in Hcall. unfold sign_completion in Hcall.
    destruct (completion_of _) as [[payload|]|e]; [discriminate | |];
      by injection Hcall as _ <-.
  - destruct thrown as [a|j]; [| reflexivity].
    destruct (ApiError.errors a) as [errs|]; [reflexivity |].
    eexists; split; [| reflexivity].
    destruct (ApiError.status a =? 401); [discriminate |].
    destruct (ApiError.status a =? 0); [discriminate |].
    destruct (ApiError.status a =? 408); [discriminate |].
    unfold or_else. destruct (String.eqb_spec (ApiError.message a) ""); [discriminate | done].
Qed.

(** X23. When the transport rejects every exchange, an accepted form shows the
    time-out message for an abort, the network message for a [TypeError]
    that says ["Failed to fetch"], and ["An unexpected error occurred"] for
    any other rejection. *)
Theorem handleSignIn_transport_rejects
    (API_BASE_URL : string) (API_TIMEOUT : Z)
    (fetch : Request -> FetchOutcome AuthResponse.t)
    (formData : SignInScreen.FormData.t) (scr : Screen SignInScreen.State)
    (rejection : JsError.t) :
  contains_address (SignInScreen.FormData.email formData) ->
  SignInScreen.FormData.password formData <> "" ->
  (forall request, fetch request = Rejected rejection) ->
  exists w',
    SignInScreen.handleSignIn API_BASE_URL API_TIMEOUT fetch formData scr =
    (Return tt,
     {| state :=
          signIn_screen
            (SignInScreen.FormErrors.only_general
               (if String.eqb (JsError.name rejection) "AbortError" then
                  "Request timeout. Please try again."
                else if JsError.instanceof_TypeError rejection
                        && includes "Failed to fetch" (JsError.message rejection) then
                  "Network error. Please check your connection and try again."
                else "An unexpected error occurred"))
            false scr;
        device := w'; replaced := replaced scr; alerts := alerts scr |}) /\
    storage w' = storage (device scr).
Proof.
  intros Haddress Hpassword Hfetch.
  rewrite (handleSignIn_valid_run _ _ _ _ _ (proj2 (signIn_valid_iff _) (conj Haddress Hpassword))).
  rewrite signIn_request. cbv zeta. rewrite Hfetch.
  unfold completion_of, normalise, sign_completion.
  destruct (String.eqb (JsError.name rejection) "AbortError");
    [eexists; split; reflexivity |].
  destruct (JsError.instanceof_TypeError rejection && _);
    eexists; split; reflexivity.
Qed.

(* ===================================================================== *)
(** ** The sign-up screen *)
(* ===================================================================== *)

Lemma length_zero_empty (s : string) : String.length s = 0%nat <-> s = "".
Proof. destruct s; simpl; split; try discriminate; auto. Qed.

Ltac destruct_ifs :=
  repeat match goal with
         | |- context [if ?c then _ else _] => destruct c
         end.

Lemma signUp_validateForm_run formData scr :
  SignUpScreen.validateForm formData scr =
  (Return (SignUpScreen.FormErrors.no_keys (signUp_form_errors formData)),
   {| state := signUp_screen (signUp_form_errors formData)
                 (SignUpScreen.loading (state scr)) scr;
      device := device scr; replaced := replaced scr; alerts := alerts scr |}).
Proof.
  unfold SignUpScreen.validateForm, SignUpScreen.setErrors. unfold_ui. cbv zeta.
  unfold signUp_form_errors, signUp_name_error, form_email_error,
    signUp_password_error, signUp_confirm_error, signUp_screen.
  destruct (RegExp_test email_pattern _);
    destruct (RegExp_test strength_pattern _);
    destruct (String.eqb (SignUpScreen.FormData.password formData)
                (SignUpScreen.FormData.confirmPassword formData));
    cbn [negb]; destruct_ifs; reflexivity.
Qed.

Lemma signUp_name_error_None fullName :
  signUp_name_error fullName = None <->
  (2 <= String.length (trim fullName) <= 50)%nat.
Proof.
  unfold signUp_name_error.
  destruct (String.eqb_spec (trim fullName) "") as [He|He].
  { rewrite He. simpl. split; [discriminate | lia]. }
  destruct (Nat.ltb_spec (String.length (trim fullName)) 2);
    [split; [discriminate | lia] |].
  destruct (Nat.ltb_spec 50 (String.length (trim fullName)));
    [split; [discriminate | lia] |].
  split; [lia | reflexivity].
Qed.

Lemma form_email_error_None email :
  form_email_error email = None <-> contains_address email.
Proof.
  unfold form_email_error, contains_address. rewrite <- email_pattern_test.
  destruct (String.eqb_spec (trim email) "") as [He|He].
  - split; [discriminate |]. intros H. apply email_pattern_test in H.
    by apply contains_address_not_blank in H.
  - destruct (RegExp_test email_pattern email); split; try discriminate; auto.
Qed.

Lemma signUp_password_error_None password :
  signUp_password_error password = None <->
  (6 <= String.length password)%nat /\ mixed password.
Proof.
  unfold signUp_password_error, mixed. rewrite <- strength_pattern_test.
  destruct (String.eqb_spec password "") as [He|He].
  { rewrite He. simpl. split; [discriminate | lia]. }
  destruct (Nat.ltb_spec (String.length password) 6);
    [split; [discriminate | lia] |].
  destruct (RegExp_test strength_pattern password); split; auto; try discriminate.
  intros [_ ?]. discriminate.
Qed.

Lemma signUp_confirm_error_None password confirmPassword :
  signUp_confirm_error password confirmPassword = None <->
  confirmPassword <> "" /\ confirmPassword = password.
Proof.
  unfold signUp_confirm_error.
  destruct (String.eqb_spec confirmPassword "") as [He|He].
  { split; [discriminate | intros [? _]; contradiction]. }
  destruct (String.eqb_spec password confirmPassword) as [Hc|Hc];
    split; auto; try discriminate.
  intros [_ ?]. congruence.
Qed.

Lemma signUp_no_keys_iff formData :
  SignUpScreen.FormErrors.no_keys (signUp_form_errors formData) = true <->
  signUp_acceptable formData.
Proof.
  unfold signUp_acceptable.
  rewrite <- signUp_name_error_None, <- form_email_error_None.
  assert (Hpc :
    (6 <= String.length (SignUpScreen.FormData.password formData))%nat /\
    mixed (SignUpScreen.FormData.password formData) /\
    SignUpScreen.FormData.confirmPassword formData
      = SignUpScreen.FormData.password formData <->
    signUp_password_error (SignUpScreen.FormData.password formData) = None /\
    signUp_confirm_error (SignUpScreen.FormData.password formData)
      (SignUpScreen.FormData.confirmPassword formData) = None).
  { rewrite signUp_password_error_None, signUp_confirm_error_None. split.
    - intros (Hlen & Hmixed & Hc). repeat split; auto.
      rewrite Hc. intros He. rewrite He in Hlen. simpl in Hlen. lia.
    - intros ((Hlen & Hmixed) & _ & Hc). auto. }
  unfold SignUpScreen.FormErrors.no_keys, signUp_form_errors;
    cbn [SignUpScreen.FormErrors.fullName SignUpScreen.FormErrors.email
         SignUpScreen.FormErrors.password SignUpScreen.FormErrors.confirmPassword
         SignUpScreen.FormErrors.general].
  split.
  - intros H.
    destruct (signUp_name_error _); [discriminate |].
    destruct (form_email_error _); [discriminate |].
    destruct (signUp_password_error _) eqn:Hp; [discriminate |].
    destruct (signUp_confirm_error _ _) eqn:Hc; [discriminate |].
    split; [reflexivity |]. split; [reflexivity |]. apply Hpc. auto.
  - intros (-> & -> & H). apply Hpc in H as [-> ->]. reflexivity.
Qed.

(** X24. The sign-up form is accepted exactly when the trimmed name has 2 to 50
    code units, the e-mail field contains an address, the password has at
    least 6 code units and is mixed, and the confirmation equals it. A
    refused form shows a message on a field, an accepted one shows none. *)
Theorem signUp_validateForm_accepts
    (formData : SignUpScreen.FormData.t) (scr : Screen SignUpScreen.State) :
  exists b e,
    SignUpScreen.validateForm formData scr =
    (Return b,
     {| state := signUp_screen e (SignUpScreen.loading (state scr)) scr;
        device := device scr; replaced := replaced scr; alerts := alerts scr |}) /\
    (b = true <-> signUp_acceptable formData) /\
    (b = true -> e = SignUpScreen.FormErrors.empty) /\
    (b = false ->
     SignUpScreen.FormErrors.general e = None /\
     (SignUpScreen.FormErrors.fullName e <> None \/
      SignUpScreen.FormErrors.email e <> None \/
      SignUpScreen.FormErrors.password e <> None \/
      SignUpScreen.FormErrors.confirmPassword e <> None)).
Proof.
  rewrite signUp_validateForm_run. eexists _, _. split; [reflexivity |].
  split; [apply signUp_no_keys_iff |].
  unfold SignUpScreen.FormErrors.no_keys, signUp_form_errors;
    cbn [SignUpScreen.FormErrors.fullName SignUpScreen.FormErrors.email
         SignUpScreen.FormErrors.password SignUpScreen.FormErrors.confirmPassword
         SignUpScreen.FormErrors.general].
  destruct (signUp_name_error _); [split; [discriminate | intros _; split; [reflexivity | left; discriminate]] |].
  destruct (form_email_error _); [split; [discriminate | intros _; split; [reflexivity | right; left; discriminate]] |].
  destruct (signUp_password_error _); [split; [discriminate | intros _; split; [reflexivity | right; right; left; discriminate]] |].
  destruct (signUp_confirm_error _ _); [split; [discriminate | intros _; split; [reflexivity | right; right; right; discriminate]] |].
  split; [reflexivity | discriminate].
Qed.

Lemma signUp_server_errors errs :
  fold_left
    (fun newErrors err =>
       if String.eqb (ValidationError.path err) "name" then
         SignUpScreen.FormErrors.set_fullName (ValidationError.msg err) newErrors
       else if String.eqb (ValidationError.path err) "email" then
         SignUpScreen.FormErrors.set_email (ValidationError.msg err) newErrors
       else if String.eqb (ValidationError.path err) "password" then
         SignUpScreen.FormErrors.set_password (ValidationError.msg err) newErrors
       else newErrors)
    errs SignUpScreen.FormErrors.empty =
  {| SignUpScreen.FormErrors.fullName := last_msg "name" errs;
     SignUpScreen.FormErrors.email := last_msg "email" errs;
     SignUpScreen.FormErrors.password := last_msg "password" errs;
     SignUpScreen.FormErrors.confirmPassword := None;
     SignUpScreen.FormErrors.general := None |}.
Proof.
  induction errs as [|err errs IH] using rev_ind; [reflexivity |].
  rewrite fold_left_app, IH, !last_msg_snoc. simpl.
  destruct (String.eqb_spec (ValidationError.path err) "name") as [Hn|Hn].
  { rewrite Hn. reflexivity. }
  destruct (String.eqb_spec (ValidationError.path err) "email") as [He|He].
  { rewrite He. reflexivity. }
  destruct (String.eqb (ValidationError.path err) "password"); reflexivity.
Qed.

Section SignUpRuns.
Variable API_BASE_URL : string.
Variable API_TIMEOUT : Z.

Lemma handleSignUp_invalid_run fetch formData scr :
  SignUpScreen.FormErrors.no_keys (signUp_form_errors formData) = false ->
  SignUpScreen.handleSignUp API_BASE_URL API_TIMEOUT fetch formData scr =
  (Return tt,
   {| state := signUp_screen (signUp_form_errors formData)
                 (SignUpScreen.loading (state scr)) scr;
      device := device scr; replaced := replaced scr; alerts := alerts scr |}).
Proof.
  intros Hinvalid. unfold SignUpScreen.handleSignUp, UI.bind.
  rewrite signUp_validateForm_run, Hinvalid. reflexivity.
Qed.

Lemma handleSignUp_valid_run fetch formData scr :
  SignUpScreen.FormErrors.no_keys (signUp_form_errors formData) = true ->
  SignUpScreen.handleSignUp API_BASE_URL API_TIMEOUT fetch formData scr =
  match AuthService.signUp API_BASE_URL API_TIMEOUT fetch
          {| SignUpRequest.name := trim (SignUpScreen.FormData.fullName formData);
             SignUpRequest.email := trim (SignUpScreen.FormData.email formData);
             SignUpRequest.password := SignUpScreen.FormData.password formData |}
          (device scr) with
  | (Return response, w') =>
      (Return tt,
       {| state := signUp_screen SignUpScreen.FormErrors.empty false scr;
          device := w'; replaced := replaced scr;
          alerts :=
            (alerts scr ++
             [{| Alert.title := "Welcome!";
                 Alert.message :=
                   "Hello " ++ User.name (AuthResponse.user response)
                     ++ "! Your account has been created successfully.";
                 Alert.buttons :=
                   [ {| AlertButton.text := "Continue";
                        AlertButton.onPress_replace := Some "/(tabs)" |} ] |}])%list |})
  | (Throw err, w') =>
      (Return tt,
       {| state :=
            signUp_screen
              match err with
              | ThrownApiError e =>
                  match ApiError.errors e with
                  | Some errs =>
                      {| SignUpScreen.FormErrors.fullName := last_msg "name" errs;
                         SignUpScreen.FormErrors.email := last_msg "email" errs;
                         SignUpScreen.FormErrors.password := last_msg "password" errs;
                         SignUpScreen.FormErrors.confirmPassword := None;
                         SignUpScreen.FormErrors.general := None |}
                  | None =>
                      if (ApiError.status e =? 400)
                         && includes "already exists" (ApiError.message e) then
                        SignUpScreen.FormErrors.only_email
                          "An account with this email already exists"
                      else
                        SignUpScreen.FormErrors.only_general
                          (if ApiError.status e =? 0 then
                             "Network error. Please check your connection and try again."
                           else if ApiError.status e =? 408 then
                             "Request timeout. Please try again."
                           else or_else (ApiError.message e)
                                  "Sign up failed. Please try again.")
                  end
              | ThrownError _ =>
                  SignUpScreen.FormErrors.only_general
                    "An unexpected error occurred. Please try again."
              end false scr;
          device := w'; replaced := replaced scr; alerts := alerts scr |})
  end.
Proof.
  intros Hvalid. unfold SignUpScreen.handleSignUp, UI.bind at 1.
  rewrite signUp_validateForm_run, Hvalid. cbv beta iota.
  unfold SignUpScreen.setLoading, SignUpScreen.setErrors. unfold_ui. simpl.
  destruct (AuthService.signUp _ _ _ _ _) as [[response|err] w']; simpl.
  - reflexivity.
  - destruct err as [e|e]; [| reflexivity].
    destruct (ApiError.errors e) as [errs|].
    + simpl. rewrite signUp_server_errors. reflexivity.
    + destruct ((ApiError.status e =? 400) && _); [reflexivity |].
      destruct (ApiError.status e =? 0); [reflexivity |].
      destruct (ApiError.status e =? 408); reflexivity.
Qed.

End SignUpRuns.

(** X25. An accepted form whose sign-up returns: the data sent are the trimmed
    name, the trimmed e-mail and the password (the confirmation is not
    sent), both tokens of the answer are stored, the errors are cleared,
    [loading] ends false, and the one alert greets the user by name. *)
Theorem handleSignUp_success
    (API_BASE_URL : string) (API_TIMEOUT : Z)
    (fetch : Request -> FetchOutcome AuthResponse.t)
    (formData : SignUpScreen.FormData.t) (scr : Screen SignUpScreen.State)
    (response : AuthResponse.t) (w' : World) :
  signUp_acceptable formData ->
  AuthService.signUp API_BASE_URL API_TIMEOUT fetch
    {| SignUpRequest.name := trim (SignUpScreen.FormData.fullName formData);
       SignUpRequest.email := trim (SignUpScreen.FormData.email formData);
       SignUpRequest.password := SignUpScreen.FormData.password formData |}
    (device scr) = (Return response, w') ->
  SignUpScreen.handleSignUp API_BASE_URL API_TIMEOUT fetch formData scr =
  (Return tt,
   {| state := signUp_screen SignUpScreen.FormErrors.empty false scr;
      device := w'; replaced := replaced scr;
      alerts :=
        (alerts scr ++
         [{| Alert.title := "Welcome!";
             Alert.message :=
               "Hello " ++ User.name (AuthResponse.user response)
                 ++ "! Your account has been created successfully.";
             Alert.buttons :=
               [ {| AlertButton.text := "Continue";
                    AlertButton.onPress_replace := Some "/(tabs)" |} ] |}])%list |}) /\
  storage w' !! "accessToken"
    = Some (AuthTokens.accessToken (AuthResponse.tokens response)) /\
  storage w' !! "refreshToken"
    = Some (AuthTokens.refreshToken (AuthResponse.tokens response)).
Proof.
  intros Hacceptable Hcall.
  rewrite (handleSignUp_valid_run _ _ _ _ _ (proj2 (signUp_no_keys_iff _) Hacceptable)).
  rewrite Hcall. split; [reflexivity |].
  rewrite signUp_request in Hcall. cbv zeta in Hcall. unfold sign_completion in Hcall.
  destruct (completion_of _) as [[payload|]|e]; [| discriminate | discriminate].
  injection Hcall as -> <-. apply stored_lookup.
Qed.

Lemma includes_nonempty needle s :
  needle <> "" -> includes needle s = true -> s <> "".
Proof.
  intros Hneedle H ->. destruct needle; [contradiction |]. discriminate.
Qed.

(** X26. When the server rejects every request with a status outside 2xx and an
    envelope: with a list of field errors, the name, e-mail and password
    fields show the message of the last entry for [name], [email] and
    [password], and no general message is shown; without a list, a 400
    whose message says ["already exists"] is shown on the e-mail field. *)
Theorem handleSignUp_server_rejects
    (API_BASE_URL : string) (API_TIMEOUT : Z)
    (fetch : Request -> FetchOutcome AuthResponse.t)
    (formData : SignUpScreen.FormData.t) (scr : Screen SignUpScreen.State)
    (r : Response.t AuthResponse.t) (env : ApiResponse.t AuthResponse.t) :
  signUp_acceptable formData ->
  (forall request, fetch request = Resolved r) ->
  ~ (200 <= Response.status r <= 299) ->
  Response.json r = Some env ->
  exists e w',
    SignUpScreen.handleSignUp API_BASE_URL API_TIMEOUT fetch formData scr =
    (Return tt,
     {| state := signUp_screen e false scr;
        device := w'; replaced := replaced scr; alerts := alerts scr |}) /\
    storage w' = storage (device scr) /\
    match ApiResponse.errors env with
    | Some errs =>
        e = {| SignUpScreen.FormErrors.fullName := last_msg "name" errs;
               SignUpScreen.FormErrors.email := last_msg "email" errs;
               SignUpScreen.FormErrors.password := last_msg "password" errs;
               SignUpScreen.FormErrors.confirmPassword := None;
               SignUpScreen.FormErrors.general := None |}
    | None =>
        Response.status r = 400 ->
        includes "already exists" (ApiResponse.message env) = true ->
        e = SignUpScreen.FormErrors.only_email "An account with this email already exists"
    end.
Proof.
  intros Hacceptable Hfetch Hstatus Hjson.
  rewrite (handleSignUp_valid_run _ _ _ _ _ (proj2 (signUp_no_keys_iff _) Hacceptable)).
  rewrite signUp_request. cbv zeta. rewrite Hfetch.
  unfold completion_of, sign_completion. rewrite Hjson.
  destruct (Response.ok r) eqn:Hok; [apply ok_iff_2xx in Hok; contradiction |].
  simpl. eexists _, _; split; [reflexivity |]. split; [reflexivity |].
  destruct (ApiResponse.errors env) as [errs|]; [reflexivity |].
  intros -> Hincludes.
  assert (or_else (ApiResponse.message env) "An error occurred" = ApiResponse.message env)
    as ->.
  { unfold or_else. destruct (String.eqb_spec (ApiResponse.message env) "") as [He|]; [| done].
    by apply includes_nonempty in Hincludes. }
  rewrite Hincludes. reflexivity.
Qed.

(* ===================================================================== *)
(** ** The profile screen *)
(* ===================================================================== *)

Lemma validatePasswordForm_run passwordData scr :
  ProfileScreen.validatePasswordForm passwordData scr =
  (Return (ProfileScreen.no_keys (password_form_errors passwordData)),
   {| state :=
        {| ProfileScreen.user := ProfileScreen.user (state scr);
           ProfileScreen.loading := ProfileScreen.loading (state scr);
           ProfileScreen.updating := ProfileScreen.updating (state scr);
           ProfileScreen.isEditingProfile := ProfileScreen.isEditingProfile (state scr);
           ProfileScreen.isChangingPassword := ProfileScreen.isChangingPassword (state scr);
           ProfileScreen.profileData := ProfileScreen.profileData (state scr);
           ProfileScreen.passwordData := ProfileScreen.passwordData (state scr);
           ProfileScreen.profileErrors := ProfileScreen.profileErrors (state scr);
           ProfileScreen.passwordErrors := password_form_errors passwordData |};
      device := device scr; replaced := replaced scr; alerts := alerts scr |}).
Proof.
  unfold ProfileScreen.validatePasswordForm, ProfileScreen.setPasswordErrors. unfold_ui.
  cbv zeta.
  match goal with
  | |- (Return (ProfileScreen.no_keys ?e), _) = _ =>
      assert (He : e = password_form_errors passwordData)
  end.
  { unfold password_form_errors. cbv zeta. apply map_eq. intros key.
    destruct (RegExp_test anchored_strength_pattern _);
      destruct (String.eqb (ProfileScreen.PasswordData.newPassword passwordData)
                  (ProfileScreen.PasswordData.confirmPassword passwordData));
      destruct (String.eqb (ProfileScreen.PasswordData.newPassword passwordData) "");
      destruct (String.eqb (ProfileScreen.PasswordData.currentPassword passwordData) "");
      cbn [negb andb];
      try destruct (Nat.ltb _ 6);
      rewrite ?(left_id_L ∅ (∪)), ?(right_id_L ∅ (∪));
      rewrite <- ?insert_union_singleton_l, ?insert_empty;
      try reflexivity;
      repeat (rewrite ?lookup_union, ?lookup_insert, ?lookup_singleton, ?lookup_empty;
              repeat case_decide; subst; try discriminate; try reflexivity). }
  by rewrite He.
Qed.

Lemma union_empty_iff (m1 m2 : gmap string string) :
  m1 ∪ m2 = ∅ <-> m1 = ∅ /\ m2 = ∅.
Proof.
  split.
  - intros H. pose proof (map_positive_l _ _ H) as H1. split; [exact H1 |].
    by rewrite H1, (left_id_L ∅ (∪)) in H.
  - intros [-> ->]. by rewrite (left_id_L ∅ (∪)).
Qed.

Lemma password_no_keys_iff passwordData :
  ProfileScreen.no_keys (password_form_errors passwordData) = true <->
  password_change_acceptable passwordData.
Proof.
  unfold ProfileScreen.no_keys, password_change_acceptable, password_form_errors.
  cbv zeta. rewrite bool_decide_eq_true, !union_empty_iff.
  set (current := ProfileScreen.PasswordData.currentPassword passwordData).
  set (new := ProfileScreen.PasswordData.newPassword passwordData).
  set (confirm := ProfileScreen.PasswordData.confirmPassword passwordData).
  pose proof (anchored_strength_pattern_test new) as Hpattern.
  destruct (String.eqb_spec current "") as [Hc|Hc].
  { split; [intros [[H _] _]; by apply map_non_empty_singleton in H | tauto]. }
  destruct (String.eqb_spec new "") as [Hn|Hn].
  { split; [intros [[_ H] _]; by apply map_non_empty_singleton in H |].
    intros (_ & Hlen & _). rewrite Hn in Hlen. simpl in Hlen. lia. }
  destruct (Nat.ltb_spec (String.length new) 6) as [Hlen|Hlen].
  { split; [intros [[_ H] _]; by apply map_non_empty_singleton in H | lia]. }
  destruct (RegExp_test anchored_strength_pattern new).
  2: { split; [intros [[_ H] _]; by apply map_non_empty_singleton in H |].
       intros (_ & _ & Hl & Hu & Hd & _).
       assert (false = true) by (apply Hpattern; auto). discriminate. }
  destruct (proj1 Hpattern eq_refl) as (Hl & Hu & Hd).
  cbn [negb andb]. destruct (String.eqb_spec new confirm) as [Heq|Heq]; cbn [negb].
  - split; [| auto]. intros _. repeat split; auto.
  - split; [intros [_ H]; by apply map_non_empty_singleton in H |].
    intros (_ & _ & _ & _ & _ & Hconfirm). congruence.
Qed.

(** X27. The password form is accepted exactly when the current password is
    not empty, the new one has at least 6 code units, its first line has a
    lower-case letter, an upper-case letter and a digit, and the
    confirmation equals it; an accepted form shows no message. Only the
    password errors of the screen change. *)
Theorem validatePasswordForm_accepts
    (passwordData : ProfileScreen.PasswordData.t) (scr : Screen ProfileScreen.State) :
  exists b errors,
    ProfileScreen.validatePasswordForm passwordData scr =
    (Return b,
     {| state :=
          profile_state (state scr)
            (ProfileScreen.user (state scr)) (ProfileScreen.loading (state scr))
            (ProfileScreen.updating (state scr))
            (ProfileScreen.isEditingProfile (state scr))
            (ProfileScreen.isChangingPassword (state scr))
            (ProfileScreen.profileData (state scr))
            (ProfileScreen.passwordData (state scr))
            (ProfileScreen.profileErrors (state scr)) errors;
        device := device scr; replaced := replaced scr; alerts := alerts scr |}) /\
    (b = true <-> password_change_acceptable passwordData) /\
    (b = true <-> errors = ∅).
Proof.
  rewrite validatePasswordForm_run. eexists _, _. split; [reflexivity |].
  split; [apply password_no_keys_iff |].
  unfold ProfileScreen.no_keys. apply bool_decide_eq_true.
Qed.

Lemma validateProfileForm_run profileData scr :
  ProfileScreen.validateProfileForm profileData scr =
  (Return (negb (String.eqb (trim (ProfileScreen.ProfileData.name profileData)) "")),
   {| state :=
        {| ProfileScreen.user := ProfileScreen.user (state scr);
           ProfileScreen.loading := ProfileScreen.loading (state scr);
           ProfileScreen.updating := ProfileScreen.updating (state scr);
           ProfileScreen.isEditingProfile := ProfileScreen.isEditingProfile (state scr);
           ProfileScreen.isChangingPassword := ProfileScreen.isChangingPassword (state scr);
           ProfileScreen.profileData := ProfileScreen.profileData (state scr);
           ProfileScreen.passwordData := ProfileScreen.passwordData (state scr);
           ProfileScreen.profileErrors :=
             if String.eqb (trim (ProfileScreen.ProfileData.name profileData)) ""
             then {[ "name" := "Name is required" ]} else ∅;
           ProfileScreen.passwordErrors := ProfileScreen.passwordErrors (state scr) |};
      device := device scr; replaced := replaced scr; alerts := alerts scr |}).
Proof.
  unfold ProfileScreen.validateProfileForm, ProfileScreen.setProfileErrors. unfold_ui.
  cbv zeta. destruct (String.eqb _ ""); [| reflexivity].
  assert (ProfileScreen.no_keys (<["name" := "Name is required"]> ∅) = false) as ->.
  { unfold ProfileScreen.no_keys. apply bool_decide_eq_false. apply insert_non_empty. }
  by rewrite insert_empty.
Qed.

(** X28. Saving the profile sends nothing and raises no alert when the name is
    blank or equal to the name of the loaded user: a blank name is
    reported on the field, an unchanged one just closes the editor. *)
Theorem handleUpdateProfile_nothing_to_send
    (API_BASE_URL : string) (API_TIMEOUT : Z)
    (fetch : Request -> FetchOutcome User.t)
    (profileData : ProfileScreen.ProfileData.t) (user : option User.t)
    (scr : Screen ProfileScreen.State) :
  every is_space (ProfileScreen.ProfileData.name profileData) = true \/
  (exists u, user = Some u /\ ProfileScreen.ProfileData.name profileData = User.name u) ->
  exists st,
    ProfileScreen.handleUpdateProfile API_BASE_URL API_TIMEOUT fetch profileData user scr =
    (Return tt,
     {| state := st; device := device scr;
        replaced := replaced scr; alerts := alerts scr |}) /\
    ProfileScreen.user st = ProfileScreen.user (state scr) /\
    (if every is_space (ProfileScreen.ProfileData.name profileData)
     then ProfileScreen.profileErrors st = {[ "name" := "Name is required" ]}
     else ProfileScreen.profileErrors st = ∅ /\
          ProfileScreen.updating st = false /\
          ProfileScreen.isEditingProfile st = false).
Proof.
  intros H. unfold ProfileScreen.handleUpdateProfile, UI.bind at 1.
  rewrite validateProfileForm_run.
  destruct (String.eqb_spec (trim (ProfileScreen.ProfileData.name profileData)) "")
    as [Hblank|Hblank]; cbn [negb].
  { apply trim_empty in Hblank. rewrite Hblank. eexists. split; [reflexivity |]. auto. }
  assert (Hspace : every is_space (ProfileScreen.ProfileData.name profileData) = false).
  { apply not_true_is_false. intros Hs. by apply trim_empty in Hs. }
  rewrite Hspace in *. destruct H as [H | (u & -> & Hname)]; [discriminate |].
  rewrite Hname, String.eqb_refl.
  unfold ProfileScreen.setUpdating, ProfileScreen.setIsEditingProfile. unfold_ui. simpl.
  eexists. split; [reflexivity |]. auto.
Qed.

(** X29. An accepted password form sends the current and the new password. The
    stored tokens are as before. When the call returns, the form is
    emptied, the editor closed and ["Success"] raised; when it throws, the
    form is kept and one ["Error"] alert shows the message of the
    [ApiError]. Either way [updating] ends false. *)
Theorem handleChangePassword_outcome
    (API_BASE_URL : string) (API_TIMEOUT : Z) (T : Type)
    (fetch : Request -> FetchOutcome T)
    (passwordData : ProfileScreen.PasswordData.t) (scr : Screen ProfileScreen.State)
    (c : Completion (option T)) (w' : World) :
  password_change_acceptable passwordData ->
  AuthService.changePassword API_BASE_URL API_TIMEOUT fetch
    {| ChangePasswordRequest.currentPassword :=
         ProfileScreen.PasswordData.currentPassword passwordData;
       ChangePasswordRequest.newPassword :=
         ProfileScreen.PasswordData.newPassword passwordData |}
    (device scr) = (c, w') ->
  ProfileScreen.handleChangePassword API_BASE_URL API_TIMEOUT fetch passwordData scr =
  (Return tt,
   {| state :=
        profile_state (state scr)
          (ProfileScreen.user (state scr)) (ProfileScreen.loading (state scr))
          false
          (ProfileScreen.isEditingProfile (state scr))
          (match c with
           | Return _ => false
           | Throw _ => ProfileScreen.isChangingPassword (state scr)
           end)
          (ProfileScreen.profileData (state scr))
          (match c with
           | Return _ => ProfileScreen.PasswordData.blank
           | Throw _ => ProfileScreen.passwordData (state scr)
           end)
          (ProfileScreen.profileErrors (state scr)) ∅;
      device := w'; replaced := replaced scr;
      alerts :=
        (alerts scr ++
         [match c with
          | Return _ =>
              {| Alert.title := "Success";
                 Alert.message := "Password changed successfully!";
                 Alert.buttons := [] |}
          | Throw err =>
              {| Alert.title := "Error";
                 Alert.message :=
                   match err with
                   | ThrownApiError e => ApiError.message e
                   | ThrownError _ => "Failed to change password."
                   end;
                 Alert.buttons := [] |}
          end])%list |}) /\
  storage w' = storage (device scr).
Proof.
  intros Hacceptable Hcall.
  unfold ProfileScreen.handleChangePassword, UI.bind at 1.
  rewrite validatePasswordForm_run.
  pose proof (proj2 (password_no_keys_iff _) Hacceptable) as Hkeys.
  rewrite Hkeys. cbn [negb].
  assert (Herrors : password_form_errors passwordData = ∅).
  { unfold ProfileScreen.no_keys in Hkeys. by apply bool_decide_eq_true in Hkeys. }
  rewrite Herrors.
  unfold ProfileScreen.setUpdating, ProfileScreen.setPasswordData,
    ProfileScreen.setIsChangingPassword. unfold_ui. cbn [device state replaced alerts].
  rewrite Hcall. split.
  - destruct c as [d|err]; [reflexivity |]. destruct err; reflexivity.
  - rewrite changePassword_run in Hcall.
    destruct (truthy _); cbv zeta in Hcall; by injection Hcall as _ <-.
Qed.

(** X30. Loading the profile never throws and ends with [loading] false. A
    user in the answer is shown and fills the name field; an answer
    without data clears the user, and any thrown error leaves it as it
    was; in both of these cases exactly one ["Error"] alert is raised. *)
Theorem loadUserProfile_outcome
    (API_BASE_URL : string) (API_TIMEOUT : Z)
    (fetch : Request -> FetchOutcome User.t)
    (scr : Screen ProfileScreen.State)
    (c : Completion (option User.t)) (w' : World) :
  AuthService.getCurrentUser API_BASE_URL API_TIMEOUT fetch (device scr) = (c, w') ->
  ProfileScreen.loadUserProfile API_BASE_URL API_TIMEOUT fetch scr =
  (Return tt,
   {| state :=
        profile_state (state scr)
          (match c with
           | Return userData => userData
           | Throw _ => ProfileScreen.user (state scr)
           end)
          false
          (ProfileScreen.updating (state scr))
          (ProfileScreen.isEditingProfile (state scr))
          (ProfileScreen.isChangingPassword (state scr))
          (match c with
           | Return (Some userData) =>
               {| ProfileScreen.ProfileData.name := User.name userData |}
           | _ => ProfileScreen.profileData (state scr)
           end)
          (ProfileScreen.passwordData (state scr))
          (ProfileScreen.profileErrors (state scr))
          (ProfileScreen.passwordErrors (state scr));
      device := w'; replaced := replaced scr;
      alerts :=
        match c with
        | Return (Some _) => alerts scr
        | Return None =>
            (alerts scr ++
             [{| Alert.title := "Error";
                 Alert.message := "Failed to load profile data.";
                 Alert.buttons := [] |}])%list
        | Throw err =>
            (alerts scr ++
             [{| Alert.title := "Error";
                 Alert.message :=
                   match err with
                   | ThrownApiError e => ApiError.message e
                   | ThrownError _ => "Failed to load profile data."
                   end;
                 Alert.buttons := [] |}])%list
        end |}) /\
  storage w' = storage (device scr).
Proof.
  intros Hcall.
  unfold ProfileScreen.loadUserProfile, ProfileScreen.setLoading, ProfileScreen.setUser,
    ProfileScreen.setProfileData. unfold_ui. cbn [device state replaced alerts].
  rewrite Hcall. split.
  - destruct c as [[userData|]|err]; [reflexivity | reflexivity |].
    destruct err; reflexivity.
  - rewrite getCurrentUser_run in Hcall.
    destruct (truthy _); cbv zeta in Hcall; by injection Hcall as _ <-.
Qed.

(* ===================================================================== *)
(** ** The further theorems at concrete inputs *)
(* ===================================================================== *)

(** X2 on a 200 answer whose envelope says ["fail"]: the call returns the
    data. *)
Lemma makeRequest_returns_on_unlisted_status :
  (sent (snd (AuthService.makeRequest api_host 10000 says_fail_with_data
                "/auth/me" get_options session))
     = (sent session ++ [get_request])%list) /\
  (fst (AuthService.makeRequest api_host 10000 says_fail_with_data
          "/auth/me" get_options session) = Return (Some tt)
   <->
   exists r env,
     says_fail_with_data get_request = Resolved r /\
     200 <= Response.status r <= 299 /\
     Response.json r = Some env /\
     ApiResponse.status env <> error /\
     ApiResponse.data env = Some tt) /\
  fst (AuthService.makeRequest api_host 10000 says_fail_with_data
         "/auth/me" get_options session) = Return (Some tt).
Proof.
  assert (H1 :
    sent (snd (AuthService.makeRequest api_host 10000 says_fail_with_data
                 "/auth/me" get_options session))
      = (sent session ++ [get_request])%list).
  { vm_compute; reflexivity. }
  assert (H2 :
    fst (AuthService.makeRequest api_host 10000 says_fail_with_data
           "/auth/me" get_options session) = Return (Some tt)).
  { vm_compute; reflexivity. }
  exact
    (conj H1
       (conj
          (makeRequest_returns_iff api_host 10000 unit says_fail_with_data
             "/auth/me" get_options session get_request (Some tt) H1)
          H2)).
Defined.

(** X3 on an aborted exchange. *)
Lemma makeRequest_rejection_status_on_abort :
  (sent (snd (AuthService.makeRequest api_host 10000 (times_out (T := unit)) "/auth/me" get_options session))
       = (sent session ++ [get_request])%list) /\
  ((times_out (T := unit)) get_request = Rejected abort_error) /\
  (exists a,
       fst (AuthService.makeRequest api_host 10000 (times_out (T := unit)) "/auth/me" get_options session)
         = Throw (ThrownApiError a) /\
       ApiError.errors a = None /\
       (JsError.name abort_error = "AbortError" ->
        ApiError.status a = 408 /\ ApiError.message a = "Request timeout") /\
       (JsError.name abort_error <> "AbortError" ->
        (ApiError.status a = 0 \/ ApiError.status a = 500) /\
        (ApiError.status a = 0 <->
         JsError.instanceof_TypeError abort_error = true /\
         includes "Failed to fetch" (JsError.message abort_error) = true))).
Proof.
  assert (H1 :
    sent (snd (AuthService.makeRequest api_host 10000 (times_out (T := unit)) "/auth/me" get_options session))
        = (sent session ++ [get_request])%list).
  { vm_compute; reflexivity. }
  assert (H2 :
    (times_out (T := unit)) get_request = Rejected abort_error).
  { reflexivity. }
  exact
    (conj H1 (conj H2 (makeRequest_rejection_status
       api_host
       10000
       unit
       (times_out (T := unit))
       "/auth/me"
       get_options
       session
       get_request
       abort_error
       H1 H2))).
Defined.

(** X4 at a sign-in that times out on a signed-in device, and at a sign-up
    on a fresh device that the server answers without a payload. *)
Lemma sign_in_up_throw_keeps_store :
  (open_session api_host 10000 (times_out (T := AuthResponse.t))
     (SignIn ada_credentials) session
   = (Throw (ThrownApiError request_timeout),
      after_request session (session_request api_host 10000 (SignIn ada_credentials))) /\
   (storage (after_request session
               (session_request api_host 10000 (SignIn ada_credentials)))
      = storage session /\
    sent (after_request session
            (session_request api_host 10000 (SignIn ada_credentials)))
      = (sent session
           ++ [session_request api_host 10000 (SignIn ada_credentials)])%list /\
    ((exists a,
        ThrownApiError request_timeout = ThrownApiError a /\
        failure_outcome
          (times_out (T := AuthResponse.t)
             (session_request api_host 10000 (SignIn ada_credentials))) = true) \/
     (ThrownApiError request_timeout = undefined_property "tokens" /\
      exists r env,
        times_out (T := AuthResponse.t)
          (session_request api_host 10000 (SignIn ada_credentials)) = Resolved r /\
        200 <= Response.status r <= 299 /\
        Response.json r = Some env /\
        ApiResponse.status env <> error /\
        ApiResponse.data env = None)))) /\
  (open_session api_host 10000 accepts_without_data (SignUp ada_userData) no_session
   = (Throw (undefined_property "tokens"),
      after_request no_session (session_request api_host 10000 (SignUp ada_userData))) /\
   (storage (after_request no_session
               (session_request api_host 10000 (SignUp ada_userData)))
      = storage no_session /\
    sent (after_request no_session
            (session_request api_host 10000 (SignUp ada_userData)))
      = (sent no_session
           ++ [session_request api_host 10000 (SignUp ada_userData)])%list /\
    ((exists a,
        undefined_property "tokens" = ThrownApiError a /\
        failure_outcome
          (accepts_without_data
             (session_request api_host 10000 (SignUp ada_userData))) = true) \/
     (undefined_property "tokens" = undefined_property "tokens" /\
      exists r env,
        accepts_without_data
          (session_request api_host 10000 (SignUp ada_userData)) = Resolved r /\
        200 <= Response.status r <= 299 /\
        Response.json r = Some env /\
        ApiResponse.status env <> error /\
        ApiResponse.data env = None)))).
Proof.
  assert (H1 :
    open_session api_host 10000 (times_out (T := AuthResponse.t))
      (SignIn ada_credentials) session
    = (Throw (ThrownApiError request_timeout),
       after_request session (session_request api_host 10000 (SignIn ada_credentials)))).
  { vm_compute; reflexivity. }
  assert (H2 :
    open_session api_host 10000 accepts_without_data (SignUp ada_userData) no_session
    = (Throw (undefined_property "tokens"),
       after_request no_session (session_request api_host 10000 (SignUp ada_userData)))).
  { vm_compute; reflexivity. }
  exact
    (conj
       (conj H1
          (sign_in_up_failure_keeps_store api_host 10000
             (times_out (T := AuthResponse.t)) (SignIn ada_credentials) session
             (after_request session
                (session_request api_host 10000 (SignIn ada_credentials)))
             (ThrownApiError request_timeout) H1))
       (conj H2
          (sign_in_up_failure_keeps_store api_host 10000
             accepts_without_data (SignUp ada_userData) no_session
             (after_request no_session
                (session_request api_host 10000 (SignUp ada_userData)))
             (undefined_property "tokens") H2))).
Defined.

(** X5 on a fresh device. *)
Lemma refreshToken_noop_on_fresh_device :
  (storage no_session !! "refreshToken" = None \/ storage no_session !! "refreshToken" = Some "") /\
  (AuthService.refreshToken api_host 10000 refreshes no_session = (Return None, no_session)).
Proof.
  assert (H1 :
    storage no_session !! "refreshToken" = None \/ storage no_session !! "refreshToken" = Some "").
  { left; vm_compute; reflexivity. }
  exact
    (conj H1 (refreshToken_without_token_is_noop
       api_host
       10000
       refreshes
       no_session
       H1)).
Defined.

(** X6 on a signed-in device with a server that mints a token. *)
Lemma refreshToken_returns_minted_token :
  (AuthService.refreshToken api_host 10000 refreshes session
       = (Return (Some "access-3"), (snd (AuthService.refreshToken api_host 10000 refreshes session)))) /\
  (storage (snd (AuthService.refreshToken api_host 10000 refreshes session)) = <["accessToken" := "access-3"]> (storage session) /\
     exists refreshToken request r env,
       storage session !! "refreshToken" = Some refreshToken /\ refreshToken <> "" /\
       sent (snd (AuthService.refreshToken api_host 10000 refreshes session)) = (sent session ++ [request])%list /\
       url request = api_host ++ "/auth/refresh-token" /\
       RequestInit.method (init request) = Some "POST" /\
       RequestInit.body (init request) = Some (JSON_stringify_refreshToken refreshToken) /\
       refreshes request = Resolved r /\
       200 <= Response.status r <= 299 /\
       Response.json r = Some env /\
       ApiResponse.status env <> error /\
       ApiResponse.data env = Some {| RefreshPayload.accessToken := "access-3" |}).
Proof.
  assert (H1 :
    AuthService.refreshToken api_host 10000 refreshes session
        = (Return (Some "access-3"), (snd (AuthService.refreshToken api_host 10000 refreshes session)))).
  { vm_compute; reflexivity. }
  exact
    (conj H1 (refreshToken_returned_token
       api_host
       10000
       refreshes
       session
       (snd (AuthService.refreshToken api_host 10000 refreshes session))
       "access-3"
       H1)).
Defined.

(** X8 on a signed-in device. *)
Lemma authenticated_calls_send_bearer_on_session :
  (storage session !! "accessToken" = Some "access-1") /\
  ("access-1" <> "") /\
  ((exists request,
        snd (AuthService.getCurrentUser api_host 10000 (times_out (T := unit)) session)
          = after_request session request /\
        url request = api_host ++ "/auth/me" /\
        RequestInit.method (init request) = Some "GET" /\
        RequestInit.body (init request) = None /\
        RequestInit.headers (init request)
          = Some {[ "Authorization" := "Bearer " ++ "access-1" ]}) /\
     (exists request,
        snd (AuthService.updateProfile api_host 10000 (times_out (T := unit)) ({| UpdateProfileRequest.name := Some "Ada L." |}) session)
          = after_request session request /\
        url request = api_host ++ "/auth/profile" /\
        RequestInit.method (init request) = Some "PUT" /\
        RequestInit.body (init request) = Some (JSON_stringify_profileData ({| UpdateProfileRequest.name := Some "Ada L." |})) /\
        RequestInit.headers (init request)
          = Some {[ "Authorization" := "Bearer " ++ "access-1";
                    "Content-Type" := "application/json" ]}) /\
     (exists request,
        snd (AuthService.changePassword api_host 10000 (times_out (T := unit)) ({| ChangePasswordRequest.currentPassword := "secret"; ChangePasswordRequest.newPassword := "secret-2" |}) session)
          = after_request session request /\
        url request = api_host ++ "/auth/change-password" /\
        RequestInit.method (init request) = Some "PUT" /\
        RequestInit.body (init request) = Some (JSON_stringify_passwordData ({| ChangePasswordRequest.currentPassword := "secret"; ChangePasswordRequest.newPassword := "secret-2" |})) /\
        RequestInit.headers (init request)
          = Some {[ "Authorization" := "Bearer " ++ "access-1";
                    "Content-Type" := "application/json" ]})).
Proof.
  assert (H1 :
    storage session !! "accessToken" = Some "access-1").
  { vm_compute; reflexivity. }
  assert (H2 :
    "access-1" <> "").
  { discriminate. }
  exact
    (conj H1 (conj H2 (authenticated_calls_send_bearer
       api_host
       10000
       unit
       (times_out (T := unit))
       ({| UpdateProfileRequest.name := Some "Ada L." |})
       ({| ChangePasswordRequest.currentPassword := "secret"; ChangePasswordRequest.newPassword := "secret-2" |})
       session
       "access-1"
       H1 H2))).
Defined.

(** X9 on a signed-in device. *)
Lemma signOut_server_call_on_session :
  (storage session !! "refreshToken" = Some "refresh-1") /\
  ("refresh-1" <> "") /\
  (storage session !! "accessToken" = Some "access-1") /\
  ("access-1" <> "") /\
  (exists request,
       sent (snd (AuthService.signOut api_host 10000 (times_out (T := unit)) session))
         = (sent session ++ [request])%list /\
       url request = api_host ++ "/auth/signout" /\
       RequestInit.method (init request) = Some "POST" /\
       RequestInit.body (init request) = Some (JSON_stringify_refreshToken "refresh-1") /\
       RequestInit.headers (init request)
         = Some {[ "Authorization" := "Bearer " ++ "access-1" ]}).
Proof.
  assert (H1 :
    storage session !! "refreshToken" = Some "refresh-1").
  { vm_compute; reflexivity. }
  assert (H2 :
    "refresh-1" <> "").
  { discriminate. }
  assert (H3 :
    storage session !! "accessToken" = Some "access-1").
  { vm_compute; reflexivity. }
  assert (H4 :
    "access-1" <> "").
  { discriminate. }
  exact
    (conj H1 (conj H2 (conj H3 (conj H4 (signOut_server_call
       api_host
       10000
       unit
       (times_out (T := unit))
       session
       "refresh-1"
       "access-1"
       H1 H2 H3 H4))))).
Defined.

(** X10 on a fresh device. *)
Lemma signOut_skips_server_call_on_fresh_device :
  (storage no_session !! "refreshToken" = None \/ storage no_session !! "refreshToken" = Some "" \/
     storage no_session !! "accessToken" = None \/ storage no_session !! "accessToken" = Some "") /\
  (AuthService.signOut api_host 10000 (times_out (T := unit)) no_session =
     (Return tt, {| storage := delete "refreshToken" (delete "accessToken" (storage no_session));
                    sent := sent no_session |})).
Proof.
  assert (H1 :
    storage no_session !! "refreshToken" = None \/ storage no_session !! "refreshToken" = Some "" \/
      storage no_session !! "accessToken" = None \/ storage no_session !! "accessToken" = Some "").
  { left; vm_compute; reflexivity. }
  exact
    (conj H1 (signOut_skips_server_call
       api_host
       10000
       unit
       (times_out (T := unit))
       no_session
       H1)).
Defined.

(** X12 on a fresh device with a server that accepts the sign-in. *)
Lemma signIn_then_isAuthenticated_for_ada :
  (AuthService.signIn api_host 10000 accepts_ada ada_credentials no_session = (Return ada, ada_signed_in) \/
     AuthService.signUp api_host 10000 accepts_ada ada_userData no_session = (Return ada, ada_signed_in)) /\
  (exists b,
       AuthService.isAuthenticated ada_signed_in = (Return b, ada_signed_in) /\
       (b = true <->
        AuthTokens.accessToken (AuthResponse.tokens ada) <> "" /\
        AuthTokens.refreshToken (AuthResponse.tokens ada) <> "")).
Proof.
  assert (H1 :
    AuthService.signIn api_host 10000 accepts_ada ada_credentials no_session = (Return ada, ada_signed_in) \/
      AuthService.signUp api_host 10000 accepts_ada ada_userData no_session = (Return ada, ada_signed_in)).
  { left; vm_compute; reflexivity. }
  exact
    (conj H1 (signIn_then_isAuthenticated
       api_host
       10000
       accepts_ada
       ada_credentials
       ada_userData
       no_session
       ada_signed_in
       ada
       H1)).
Defined.

(** X13 on a signed-in device. *)
Lemma after_signOut_on_session :
  (AuthService.signOut api_host 10000 (times_out (T := unit)) session = (Return tt, (snd (AuthService.signOut api_host 10000 (times_out (T := unit)) session)))) /\
  (AuthService.isAuthenticated (snd (AuthService.signOut api_host 10000 (times_out (T := unit)) session)) = (Return false, (snd (AuthService.signOut api_host 10000 (times_out (T := unit)) session))) /\
     AuthService.refreshToken api_host 10000 refreshes (snd (AuthService.signOut api_host 10000 (times_out (T := unit)) session)) = (Return None, (snd (AuthService.signOut api_host 10000 (times_out (T := unit)) session))) /\
     AuthService.getCurrentUser api_host 10000 (times_out (T := unit)) (snd (AuthService.signOut api_host 10000 (times_out (T := unit)) session))
       = (Throw (ThrownApiError no_access_token), (snd (AuthService.signOut api_host 10000 (times_out (T := unit)) session))) /\
     AuthService.updateProfile api_host 10000 (times_out (T := unit)) ({| UpdateProfileRequest.name := Some "Ada L." |}) (snd (AuthService.signOut api_host 10000 (times_out (T := unit)) session))
       = (Throw (ThrownApiError no_access_token), (snd (AuthService.signOut api_host 10000 (times_out (T := unit)) session))) /\
     AuthService.changePassword api_host 10000 (times_out (T := unit)) ({| ChangePasswordRequest.currentPassword := "secret"; ChangePasswordRequest.newPassword := "secret-2" |}) (snd (AuthService.signOut api_host 10000 (times_out (T := unit)) session))
       = (Throw (ThrownApiError no_access_token), (snd (AuthService.signOut api_host 10000 (times_out (T := unit)) session))) /\
     AuthService.signOut api_host 10000 (times_out (T := unit)) (snd (AuthService.signOut api_host 10000 (times_out (T := unit)) session)) = (Return tt, (snd (AuthService.signOut api_host 10000 (times_out (T := unit)) session)))).
Proof.
  assert (H1 :
    AuthService.signOut api_host 10000 (times_out (T := unit)) session = (Return tt, (snd (AuthService.signOut api_host 10000 (times_out (T := unit)) session)))).
  { vm_compute; reflexivity. }
  exact
    (conj H1 (after_signOut
       api_host
       10000
       unit
       (times_out (T := unit))
       refreshes
       ({| UpdateProfileRequest.name := Some "Ada L." |})
       ({| ChangePasswordRequest.currentPassword := "secret"; ChangePasswordRequest.newPassword := "secret-2" |})
       session
       (snd (AuthService.signOut api_host 10000 (times_out (T := unit)) session))
       H1)).
Defined.

(** X15 on a fresh device. *)
Lemma checkAuthenticationStatus_on_fresh_device :
  (AuthService.isAuthenticated (device (mounted true no_session)) = (Return false, device (mounted true no_session))) /\
  (Index.checkAuthenticationStatus api_host 10000 shows_ada refreshes (mounted true no_session) =
     (Return tt,
      {| state := false; device := device (mounted true no_session);
         replaced := (replaced (mounted true no_session) ++ ["/(auth)/signin"])%list; alerts := alerts (mounted true no_session) |})).
Proof.
  assert (H1 :
    AuthService.isAuthenticated (device (mounted true no_session)) = (Return false, device (mounted true no_session))).
  { vm_compute; reflexivity. }
  exact
    (conj H1 (checkAuthenticationStatus_unauthenticated
       api_host
       10000
       User.t
       shows_ada
       refreshes
       (mounted true no_session)
       H1)).
Defined.

(** X16 on a signed-in device with a server that shows the user. *)
Lemma checkAuthenticationStatus_on_session :
  (AuthService.isAuthenticated (device (mounted true session)) = (Return true, device (mounted true session))) /\
  (AuthService.getCurrentUser api_host 10000 shows_ada (device (mounted true session)) = (Return (Some ada_user), (snd (AuthService.getCurrentUser api_host 10000 shows_ada session)))) /\
  (Index.checkAuthenticationStatus api_host 10000 shows_ada refreshes (mounted true session) =
     (Return tt,
      {| state := false; device := (snd (AuthService.getCurrentUser api_host 10000 shows_ada session));
         replaced := (replaced (mounted true session) ++ ["/(tabs)"])%list; alerts := alerts (mounted true session) |}) /\
     storage (snd (AuthService.getCurrentUser api_host 10000 shows_ada session)) = storage (device (mounted true session)) /\
     exists request, sent (snd (AuthService.getCurrentUser api_host 10000 shows_ada session)) = (sent (device (mounted true session)) ++ [request])%list).
Proof.
  assert (H1 :
    AuthService.isAuthenticated (device (mounted true session)) = (Return true, device (mounted true session))).
  { vm_compute; reflexivity. }
  assert (H2 :
    AuthService.getCurrentUser api_host 10000 shows_ada (device (mounted true session)) = (Return (Some ada_user), (snd (AuthService.getCurrentUser api_host 10000 shows_ada session)))).
  { vm_compute; reflexivity. }
  exact
    (conj H1 (conj H2 (checkAuthenticationStatus_profile_returns
       api_host
       10000
       User.t
       shows_ada
       refreshes
       (mounted true session)
       (Some ada_user)
       (snd (AuthService.getCurrentUser api_host 10000 shows_ada session))
       H1 H2))).
Defined.

(** X17 on a signed-in device with a transport that times out. *)
Lemma checkAuthenticationStatus_offline :
  (AuthService.isAuthenticated (device (mounted true session)) = (Return true, device (mounted true session))) /\
  ((forall request, failure_outcome ((times_out (T := User.t)) request) = true)) /\
  ((forall request, failure_outcome ((times_out (T := RefreshPayload.t)) request) = true)) /\
  (exists w',
       Index.checkAuthenticationStatus api_host 10000 (times_out (T := User.t)) (times_out (T := RefreshPayload.t)) (mounted true session) =
       (Return tt,
        {| state := false; device := w';
           replaced := (replaced (mounted true session) ++ ["/(auth)/signin"])%list; alerts := alerts (mounted true session) |}) /\
       storage w' !! "accessToken" = None /\
       storage w' !! "refreshToken" = None /\
       exists request request',
         sent w' = (sent (device (mounted true session)) ++ [request; request'])%list /\
         url request = api_host ++ "/auth/me" /\
         url request' = api_host ++ "/auth/refresh-token").
Proof.
  assert (H1 :
    AuthService.isAuthenticated (device (mounted true session)) = (Return true, device (mounted true session))).
  { vm_compute; reflexivity. }
  assert (H2 :
    (forall request, failure_outcome ((times_out (T := User.t)) request) = true)).
  { intros request; reflexivity. }
  assert (H3 :
    (forall request, failure_outcome ((times_out (T := RefreshPayload.t)) request) = true)).
  { intros request; reflexivity. }
  exact
    (conj H1 (conj H2 (conj H3 (checkAuthenticationStatus_all_requests_fail
       api_host
       10000
       User.t
       (times_out (T := User.t))
       (times_out (T := RefreshPayload.t))
       (mounted true session)
       H1 H2 H3)))).
Defined.

(** X20 on the empty form. *)
Lemma handleSignIn_refuses_empty_form :
  (~ (contains_address (SignInScreen.FormData.email empty_signIn_form) /\
        SignInScreen.FormData.password empty_signIn_form <> "")) /\
  (exists e,
       SignInScreen.handleSignIn api_host 10000 accepts_ada empty_signIn_form (mounted (signIn_state empty_signIn_form) no_session) =
       (Return tt,
        {| state := signIn_screen e (SignInScreen.loading (state (mounted (signIn_state empty_signIn_form) no_session))) (mounted (signIn_state empty_signIn_form) no_session);
           device := device (mounted (signIn_state empty_signIn_form) no_session); replaced := replaced (mounted (signIn_state empty_signIn_form) no_session); alerts := alerts (mounted (signIn_state empty_signIn_form) no_session) |}) /\
       (SignInScreen.FormErrors.email e <> None \/
        SignInScreen.FormErrors.password e <> None)).
Proof.
  assert (H1 :
    ~ (contains_address (SignInScreen.FormData.email empty_signIn_form) /\
         SignInScreen.FormData.password empty_signIn_form <> "")).
  { intros [_ H]; apply H; reflexivity. }
  exact
    (conj H1 (handleSignIn_refused_form
       api_host
       10000
       accepts_ada
       empty_signIn_form
       (mounted (signIn_state empty_signIn_form) no_session)
       H1)).
Defined.

(** X21 on a fresh device with a server that accepts the sign-in. *)
Lemma handleSignIn_welcomes_ada :
  (contains_address (SignInScreen.FormData.email ada_signIn_form)) /\
  (SignInScreen.FormData.password ada_signIn_form <> "") /\
  (AuthService.signIn api_host 10000 accepts_ada
       {| SignInRequest.email := trim (SignInScreen.FormData.email ada_signIn_form);
          SignInRequest.password := SignInScreen.FormData.password ada_signIn_form |}
       (device (mounted (signIn_state ada_signIn_form) no_session)) = (Return ada, (snd (AuthService.signIn api_host 10000 accepts_ada {| SignInRequest.email := "ada@example.com"; SignInRequest.password := "secret" |} no_session)))) /\
  (SignInScreen.handleSignIn api_host 10000 accepts_ada ada_signIn_form (mounted (signIn_state ada_signIn_form) no_session) =
     (Return tt,
      {| state := signIn_screen SignInScreen.FormErrors.empty false (mounted (signIn_state ada_signIn_form) no_session);
         device := (snd (AuthService.signIn api_host 10000 accepts_ada {| SignInRequest.email := "ada@example.com"; SignInRequest.password := "secret" |} no_session)); replaced := replaced (mounted (signIn_state ada_signIn_form) no_session);
         alerts :=
           (alerts (mounted (signIn_state ada_signIn_form) no_session) ++
            [{| Alert.title := "Welcome Back!";
                Alert.message :=
                  "Hello " ++ User.name (AuthResponse.user ada)
                    ++ ", you've signed in successfully!";
                Alert.buttons :=
                  [ {| AlertButton.text := "Continue";
                       AlertButton.onPress_replace := Some "/(tabs)" |} ] |}])%list |}) /\
     storage (snd (AuthService.signIn api_host 10000 accepts_ada {| SignInRequest.email := "ada@example.com"; SignInRequest.password := "secret" |} no_session)) !! "accessToken"
       = Some (AuthTokens.accessToken (AuthResponse.tokens ada)) /\
     storage (snd (AuthService.signIn api_host 10000 accepts_ada {| SignInRequest.email := "ada@example.com"; SignInRequest.password := "secret" |} no_session)) !! "refreshToken"
       = Some (AuthTokens.refreshToken (AuthResponse.tokens ada))).
Proof.
  assert (H1 :
    contains_address (SignInScreen.FormData.email ada_signIn_form)).
  { exists " ", "ada", "example", "com", " "; repeat split; (discriminate || reflexivity). }
  assert (H2 :
    SignInScreen.FormData.password ada_signIn_form <> "").
  { discriminate. }
  assert (H3 :
    AuthService.signIn api_host 10000 accepts_ada
        {| SignInRequest.email := trim (SignInScreen.FormData.email ada_signIn_form);
           SignInRequest.password := SignInScreen.FormData.password ada_signIn_form |}
        (device (mounted (signIn_state ada_signIn_form) no_session)) = (Return ada, (snd (AuthService.signIn api_host 10000 accepts_ada {| SignInRequest.email := "ada@example.com"; SignInRequest.password := "secret" |} no_session)))).
  { vm_compute; reflexivity. }
  exact
    (conj H1 (conj H2 (conj H3 (handleSignIn_success
       api_host
       10000
       accepts_ada
       ada_signIn_form
       (mounted (signIn_state ada_signIn_form) no_session)
       ada
       (snd (AuthService.signIn api_host 10000 accepts_ada {| SignInRequest.email := "ada@example.com"; SignInRequest.password := "secret" |} no_session))
       H1 H2 H3)))).
Defined.

(** X22 on a fresh device with a transport that times out. *)
Lemma handleSignIn_fails_on_timeout :
  (contains_address (SignInScreen.FormData.email ada_signIn_form)) /\
  (SignInScreen.FormData.password ada_signIn_form <> "") /\
  (AuthService.signIn api_host 10000 (times_out (T := AuthResponse.t))
       {| SignInRequest.email := trim (SignInScreen.FormData.email ada_signIn_form);
          SignInRequest.password := SignInScreen.FormData.password ada_signIn_form |}
       (device (mounted (signIn_state ada_signIn_form) no_session)) = (Throw (ThrownApiError request_timeout), (snd (AuthService.signIn api_host 10000 (times_out (T := AuthResponse.t)) {| SignInRequest.email := "ada@example.com"; SignInRequest.password := "secret" |} no_session)))) /\
  (exists e,
       SignInScreen.handleSignIn api_host 10000 (times_out (T := AuthResponse.t)) ada_signIn_form (mounted (signIn_state ada_signIn_form) no_session) =
       (Return tt,
        {| state := signIn_screen e false (mounted (signIn_state ada_signIn_form) no_session);
           device := (snd (AuthService.signIn api_host 10000 (times_out (T := AuthResponse.t)) {| SignInRequest.email := "ada@example.com"; SignInRequest.password := "secret" |} no_session)); replaced := replaced (mounted (signIn_state ada_signIn_form) no_session); alerts := alerts (mounted (signIn_state ada_signIn_form) no_session) |}) /\
       storage (snd (AuthService.signIn api_host 10000 (times_out (T := AuthResponse.t)) {| SignInRequest.email := "ada@example.com"; SignInRequest.password := "secret" |} no_session)) = storage (device (mounted (signIn_state ada_signIn_form) no_session)) /\
       match (ThrownApiError request_timeout) with
       | ThrownApiError a =>
           match ApiError.errors a with
           | Some errs =>
               e = {| SignInScreen.FormErrors.email := last_msg "email" errs;
                      SignInScreen.FormErrors.password := last_msg "password" errs;
                      SignInScreen.FormErrors.general := None |}
           | None => exists m, m <> "" /\ e = SignInScreen.FormErrors.only_general m
           end
       | ThrownError _ =>
           e = SignInScreen.FormErrors.only_general
                 "An unexpected error occurred. Please try again."
       end).
Proof.
  assert (H1 :
    contains_address (SignInScreen.FormData.email ada_signIn_form)).
  { exists " ", "ada", "example", "com", " "; repeat split; (discriminate || reflexivity). }
  assert (H2 :
    SignInScreen.FormData.password ada_signIn_form <> "").
  { discriminate. }
  assert (H3 :
    AuthService.signIn api_host 10000 (times_out (T := AuthResponse.t))
        {| SignInRequest.email := trim (SignInScreen.FormData.email ada_signIn_form);
           SignInRequest.password := SignInScreen.FormData.password ada_signIn_form |}
        (device (mounted (signIn_state ada_signIn_form) no_session)) = (Throw (ThrownApiError request_timeout), (snd (AuthService.signIn api_host 10000 (times_out (T := AuthResponse.t)) {| SignInRequest.email := "ada@example.com"; SignInRequest.password := "secret" |} no_session)))).
  { vm_compute; reflexivity. }
  exact
    (conj H1 (conj H2 (conj H3 (handleSignIn_failure
       api_host
       10000
       (times_out (T := AuthResponse.t))
       ada_signIn_form
       (mounted (signIn_state ada_signIn_form) no_session)
       (ThrownApiError request_timeout)
       (snd (AuthService.signIn api_host 10000 (times_out (T := AuthResponse.t)) {| SignInRequest.email := "ada@example.com"; SignInRequest.password := "secret" |} no_session))
       H1 H2 H3)))).
Defined.

(** X23 on a fresh device with a transport that times out. *)
Lemma handleSignIn_shows_timeout :
  (contains_address (SignInScreen.FormData.email ada_signIn_form)) /\
  (SignInScreen.FormData.password ada_signIn_form <> "") /\
  ((forall request, (times_out (T := AuthResponse.t)) request = Rejected abort_error)) /\
  (exists w',
       SignInScreen.handleSignIn api_host 10000 (times_out (T := AuthResponse.t)) ada_signIn_form (mounted (signIn_state ada_signIn_form) no_session) =
       (Return tt,
        {| state :=
             signIn_screen
               (SignInScreen.FormErrors.only_general
                  (if String.eqb (JsError.name abort_error) "AbortError" then
                     "Request timeout. Please try again."
                   else if JsError.instanceof_TypeError abort_error
                           && includes "Failed to fetch" (JsError.message abort_error) then
                     "Network error. Please check your connection and try again."
                   else "An unexpected error occurred"))
               false (mounted (signIn_state ada_signIn_form) no_session);
           device := w'; replaced := replaced (mounted (signIn_state ada_signIn_form) no_session); alerts := alerts (mounted (signIn_state ada_signIn_form) no_session) |}) /\
       storage w' = storage (device (mounted (signIn_state ada_signIn_form) no_session))).
Proof.
  assert (H1 :
    contains_address (SignInScreen.FormData.email ada_signIn_form)).
  { exists " ", "ada", "example", "com", " "; repeat split; (discriminate || reflexivity). }
  assert (H2 :
    SignInScreen.FormData.password ada_signIn_form <> "").
  { discriminate. }
  assert (H3 :
    (forall request, (times_out (T := AuthResponse.t)) request = Rejected abort_error)).
  { intros request; reflexivity. }
  exact
    (conj H1 (conj H2 (conj H3 (handleSignIn_transport_rejects
       api_host
       10000
       (times_out (T := AuthResponse.t))
       ada_signIn_form
       (mounted (signIn_state ada_signIn_form) no_session)
       abort_error
       H1 H2 H3)))).
Defined.

(** X25 on a fresh device with a server that accepts the sign-up. *)
Lemma handleSignUp_welcomes_ada :
  (signUp_acceptable ada_signUp_form) /\
  (AuthService.signUp api_host 10000 accepts_ada
       {| SignUpRequest.name := trim (SignUpScreen.FormData.fullName ada_signUp_form);
          SignUpRequest.email := trim (SignUpScreen.FormData.email ada_signUp_form);
          SignUpRequest.password := SignUpScreen.FormData.password ada_signUp_form |}
       (device (mounted (signUp_state ada_signUp_form) no_session)) = (Return ada, (snd (AuthService.signUp api_host 10000 accepts_ada {| SignUpRequest.name := "Ada"; SignUpRequest.email := "ada@example.com"; SignUpRequest.password := "Secret1" |} no_session)))) /\
  (SignUpScreen.handleSignUp api_host 10000 accepts_ada ada_signUp_form (mounted (signUp_state ada_signUp_form) no_session) =
     (Return tt,
      {| state := signUp_screen SignUpScreen.FormErrors.empty false (mounted (signUp_state ada_signUp_form) no_session);
         device := (snd (AuthService.signUp api_host 10000 accepts_ada {| SignUpRequest.name := "Ada"; SignUpRequest.email := "ada@example.com"; SignUpRequest.password := "Secret1" |} no_session)); replaced := replaced (mounted (signUp_state ada_signUp_form) no_session);
         alerts :=
           (alerts (mounted (signUp_state ada_signUp_form) no_session) ++
            [{| Alert.title := "Welcome!";
                Alert.message :=
                  "Hello " ++ User.name (AuthResponse.user ada)
                    ++ "! Your account has been created successfully.";
                Alert.buttons :=
                  [ {| AlertButton.text := "Continue";
                       AlertButton.onPress_replace := Some "/(tabs)" |} ] |}])%list |}) /\
     storage (snd (AuthService.signUp api_host 10000 accepts_ada {| SignUpRequest.name := "Ada"; SignUpRequest.email := "ada@example.com"; SignUpRequest.password := "Secret1" |} no_session)) !! "accessToken"
       = Some (AuthTokens.accessToken (AuthResponse.tokens ada)) /\
     storage (snd (AuthService.signUp api_host 10000 accepts_ada {| SignUpRequest.name := "Ada"; SignUpRequest.email := "ada@example.com"; SignUpRequest.password := "Secret1" |} no_session)) !! "refreshToken"
       = Some (AuthTokens.refreshToken (AuthResponse.tokens ada))).
Proof.
  assert (H1 :
    signUp_acceptable ada_signUp_form).
  { unfold signUp_acceptable; simpl.
    split; [lia |]. split.
    { exists "", "ada", "example", "com", ""; repeat split; (discriminate || reflexivity). }
    split; [lia |]. split; [| reflexivity].
    exists "", "Secret1"; repeat split; reflexivity. }
  assert (H2 :
    AuthService.signUp api_host 10000 accepts_ada
        {| SignUpRequest.name := trim (SignUpScreen.FormData.fullName ada_signUp_form);
           SignUpRequest.email := trim (SignUpScreen.FormData.email ada_signUp_form);
           SignUpRequest.password := SignUpScreen.FormData.password ada_signUp_form |}
        (device (mounted (signUp_state ada_signUp_form) no_session)) = (Return ada, (snd (AuthService.signUp api_host 10000 accepts_ada {| SignUpRequest.name := "Ada"; SignUpRequest.email := "ada@example.com"; SignUpRequest.password := "Secret1" |} no_session)))).
  { vm_compute; reflexivity. }
  exact
    (conj H1 (conj H2 (handleSignUp_success
       api_host
       10000
       accepts_ada
       ada_signUp_form
       (mounted (signUp_state ada_signUp_form) no_session)
       ada
       (snd (AuthService.signUp api_host 10000 accepts_ada {| SignUpRequest.name := "Ada"; SignUpRequest.email := "ada@example.com"; SignUpRequest.password := "Secret1" |} no_session))
       H1 H2))).
Defined.

(** X26 on a fresh device with a server that knows the address. *)
Lemma handleSignUp_address_taken :
  (signUp_acceptable ada_signUp_form) /\
  ((forall request, says_address_taken request = Resolved address_taken)) /\
  (~ (200 <= Response.status address_taken <= 299)) /\
  (Response.json address_taken = Some (envelope (T := AuthResponse.t) error "User already exists" None)) /\
  (exists e w',
       SignUpScreen.handleSignUp api_host 10000 says_address_taken ada_signUp_form (mounted (signUp_state ada_signUp_form) no_session) =
       (Return tt,
        {| state := signUp_screen e false (mounted (signUp_state ada_signUp_form) no_session);
           device := w'; replaced := replaced (mounted (signUp_state ada_signUp_form) no_session); alerts := alerts (mounted (signUp_state ada_signUp_form) no_session) |}) /\
       storage w' = storage (device (mounted (signUp_state ada_signUp_form) no_session)) /\
       match ApiResponse.errors (envelope (T := AuthResponse.t) error "User already exists" None) with
       | Some errs =>
           e = {| SignUpScreen.FormErrors.fullName := last_msg "name" errs;
                  SignUpScreen.FormErrors.email := last_msg "email" errs;
                  SignUpScreen.FormErrors.password := last_msg "password" errs;
                  SignUpScreen.FormErrors.confirmPassword := None;
                  SignUpScreen.FormErrors.general := None |}
       | None =>
           Response.status address_taken = 400 ->
           includes "already exists" (ApiResponse.message (envelope (T := AuthResponse.t) error "User already exists" None)) = true ->
           e = SignUpScreen.FormErrors.only_email "An account with this email already exists"
       end).
Proof.
  assert (H1 :
    signUp_acceptable ada_signUp_form).
  { unfold signUp_acceptable; simpl.
    split; [lia |]. split.
    { exists "", "ada", "example", "com", ""; repeat split; (discriminate || reflexivity). }
    split; [lia |]. split; [| reflexivity].
    exists "", "Secret1"; repeat split; reflexivity. }
  assert (H2 :
    (forall request, says_address_taken request = Resolved address_taken)).
  { intros request; reflexivity. }
  assert (H3 :
    ~ (200 <= Response.status address_taken <= 299)).
  { simpl; lia. }
  assert (H4 :
    Response.json address_taken = Some (envelope (T := AuthResponse.t) error "User already exists" None)).
  { reflexivity. }
  exact
    (conj H1 (conj H2 (conj H3 (conj H4 (handleSignUp_server_rejects
       api_host
       10000
       says_address_taken
       ada_signUp_form
       (mounted (signUp_state ada_signUp_form) no_session)
       address_taken
       (envelope (T := AuthResponse.t) error "User already exists" None)
       H1 H2 H3 H4))))).
Defined.

(** X28 on the profile of a user whose name is unchanged. *)
Lemma handleUpdateProfile_unchanged_name :
  (every is_space (ProfileScreen.ProfileData.name ({| ProfileScreen.ProfileData.name := "Ada" |})) = true \/
     (exists u, (Some ada_user) = Some u /\ ProfileScreen.ProfileData.name ({| ProfileScreen.ProfileData.name := "Ada" |}) = User.name u)) /\
  (exists st,
       ProfileScreen.handleUpdateProfile api_host 10000 shows_ada ({| ProfileScreen.ProfileData.name := "Ada" |}) (Some ada_user) (mounted profile_of_ada session) =
       (Return tt,
        {| state := st; device := device (mounted profile_of_ada session);
           replaced := replaced (mounted profile_of_ada session); alerts := alerts (mounted profile_of_ada session) |}) /\
       ProfileScreen.user st = ProfileScreen.user (state (mounted profile_of_ada session)) /\
       (if every is_space (ProfileScreen.ProfileData.name ({| ProfileScreen.ProfileData.name := "Ada" |}))
        then ProfileScreen.profileErrors st = {[ "name" := "Name is required" ]}
        else ProfileScreen.profileErrors st = ∅ /\
             ProfileScreen.updating st = false /\
             ProfileScreen.isEditingProfile st = false)).
Proof.
  assert (H1 :
    every is_space (ProfileScreen.ProfileData.name ({| ProfileScreen.ProfileData.name := "Ada" |})) = true \/
      (exists u, (Some ada_user) = Some u /\ ProfileScreen.ProfileData.name ({| ProfileScreen.ProfileData.name := "Ada" |}) = User.name u)).
  { right; exists ada_user; split; reflexivity. }
  exact
    (conj H1 (handleUpdateProfile_nothing_to_send
       api_host
       10000
       shows_ada
       ({| ProfileScreen.ProfileData.name := "Ada" |})
       (Some ada_user)
       (mounted profile_of_ada session)
       H1)).
Defined.

(** X29 on a signed-in device with a server that accepts the change. *)
Lemma handleChangePassword_succeeds :
  (password_change_acceptable ada_password_form) /\
  (AuthService.changePassword api_host 10000 says_ok
       {| ChangePasswordRequest.currentPassword :=
            ProfileScreen.PasswordData.currentPassword ada_password_form;
          ChangePasswordRequest.newPassword :=
            ProfileScreen.PasswordData.newPassword ada_password_form |}
       (device (mounted profile_of_ada session)) = ((Return (Some tt)), (snd (AuthService.changePassword api_host 10000 says_ok {| ChangePasswordRequest.currentPassword := "Secret1"; ChangePasswordRequest.newPassword := "Secret2" |} session)))) /\
  (ProfileScreen.handleChangePassword api_host 10000 says_ok ada_password_form (mounted profile_of_ada session) =
     (Return tt,
      {| state :=
           profile_state (state (mounted profile_of_ada session))
             (ProfileScreen.user (state (mounted profile_of_ada session))) (ProfileScreen.loading (state (mounted profile_of_ada session)))
             false
             (ProfileScreen.isEditingProfile (state (mounted profile_of_ada session)))
             (match (Return (Some tt)) with
              | Return _ => false
              | Throw _ => ProfileScreen.isChangingPassword (state (mounted profile_of_ada session))
              end)
             (ProfileScreen.profileData (state (mounted profile_of_ada session)))
             (match (Return (Some tt)) with
              | Return _ => ProfileScreen.PasswordData.blank
              | Throw _ => ProfileScreen.passwordData (state (mounted profile_of_ada session))
              end)
             (ProfileScreen.profileErrors (state (mounted profile_of_ada session))) ∅;
         device := (snd (AuthService.changePassword api_host 10000 says_ok {| ChangePasswordRequest.currentPassword := "Secret1"; ChangePasswordRequest.newPassword := "Secret2" |} session)); replaced := replaced (mounted profile_of_ada session);
         alerts :=
           (alerts (mounted profile_of_ada session) ++
            [match (Return (Some tt)) with
             | Return _ =>
                 {| Alert.title := "Success";
                    Alert.message := "Password changed successfully!";
                    Alert.buttons := [] |}
             | Throw err =>
                 {| Alert.title := "Error";
                    Alert.message :=
                      match err with
                      | ThrownApiError e => ApiError.message e
                      | ThrownError _ => "Failed to change password."
                      end;
                    Alert.buttons := [] |}
             end])%list |}) /\
     storage (snd (AuthService.changePassword api_host 10000 says_ok {| ChangePasswordRequest.currentPassword := "Secret1"; ChangePasswordRequest.newPassword := "Secret2" |} session)) = storage (device (mounted profile_of_ada session))).
Proof.
  assert (H1 :
    password_change_acceptable ada_password_form).
  { repeat split; (discriminate || reflexivity || (simpl; lia)). }
  assert (H2 :
    AuthService.changePassword api_host 10000 says_ok
        {| ChangePasswordRequest.currentPassword :=
             ProfileScreen.PasswordData.currentPassword ada_password_form;
           ChangePasswordRequest.newPassword :=
             ProfileScreen.PasswordData.newPassword ada_password_form |}
        (device (mounted profile_of_ada session)) = ((Return (Some tt)), (snd (AuthService.changePassword api_host 10000 says_ok {| ChangePasswordRequest.currentPassword := "Secret1"; ChangePasswordRequest.newPassword := "Secret2" |} session)))).
  { vm_compute; reflexivity. }
  exact
    (conj H1 (conj H2 (handleChangePassword_outcome
       api_host
       10000
       unit
       says_ok
       ada_password_form
       (mounted profile_of_ada session)
       (Return (Some tt))
       (snd (AuthService.changePassword api_host 10000 says_ok {| ChangePasswordRequest.currentPassword := "Secret1"; ChangePasswordRequest.newPassword := "Secret2" |} session))
       H1 H2))).
Defined.

(** X30 on a signed-in device with a server that shows the user. *)
Lemma loadUserProfile_shows_ada :
  (AuthService.getCurrentUser api_host 10000 shows_ada (device (mounted profile_initial session)) = ((Return (Some ada_user)), (snd (AuthService.getCurrentUser api_host 10000 shows_ada session)))) /\
  (ProfileScreen.loadUserProfile api_host 10000 shows_ada (mounted profile_initial session) =
     (Return tt,
      {| state :=
           profile_state (state (mounted profile_initial session))
             (match (Return (Some ada_user)) with
              | Return userData => userData
              | Throw _ => ProfileScreen.user (state (mounted profile_initial session))
              end)
             false
             (ProfileScreen.updating (state (mounted profile_initial session)))
             (ProfileScreen.isEditingProfile (state (mounted profile_initial session)))
             (ProfileScreen.isChangingPassword (state (mounted profile_initial session)))
             (match (Return (Some ada_user)) with
              | Return (Some userData) =>
                  {| ProfileScreen.ProfileData.name := User.name userData |}
              | _ => ProfileScreen.profileData (state (mounted profile_initial session))
              end)
             (ProfileScreen.passwordData (state (mounted profile_initial session)))
             (ProfileScreen.profileErrors (state (mounted profile_initial session)))
             (ProfileScreen.passwordErrors (state (mounted profile_initial session)));
         device := (snd (AuthService.getCurrentUser api_host 10000 shows_ada session)); replaced := replaced (mounted profile_initial session);
         alerts :=
           match (Return (Some ada_user)) with
           | Return (Some _) => alerts (mounted profile_initial session)
           | Return None =>
               (alerts (mounted profile_initial session) ++
                [{| Alert.title := "Error";
                    Alert.message := "Failed to load profile data.";
                    Alert.buttons := [] |}])%list
           | Throw err =>
               (alerts (mounted profile_initial session) ++
                [{| Alert.title := "Error";
                    Alert.message :=
                      match err with
                      | ThrownApiError e => ApiError.message e
                      | ThrownError _ => "Failed to load profile data."
                      end;
                    Alert.buttons := [] |}])%list
           end |}) /\
     storage (snd (AuthService.getCurrentUser api_host 10000 shows_ada session)) = storage (device (mounted profile_initial session))).
Proof.
  assert (H1 :
    AuthService.getCurrentUser api_host 10000 shows_ada (device (mounted profile_initial session)) = ((Return (Some ada_user)), (snd (AuthService.getCurrentUser api_host 10000 shows_ada session)))).
  { vm_compute; reflexivity. }
  exact
    (conj H1 (loadUserProfile_outcome
       api_host
       10000
       shows_ada
       (mounted profile_initial session)
       (Return (Some ada_user))
       (snd (AuthService.getCurrentUser api_host 10000 shows_ada session))
       H1)).
Defined.
